(** * DESasterNep: recovery programs as resumable processes

    A shallow embedding of [desaster/financial.py], [desaster/technical.py],
    [desaster/structures.py] and the parts of [desaster/entities.py] they
    touch, together with the SimPy primitives the programs call
    ([Resource], [Container], [timeout], [Interrupt]).

    Conventions of the embedding:
    - Python numbers are exact rationals ([Q]); [float('inf')], the default
      of every capacity, budget and loan ceiling, is the extra value [Inf]
      of [num].  The cells of the workbooks are numpy scalars ([Cell]):
      those that are [int64] are multiplied and added on 64 bits, with
      wrap-around.
    - Python objects are references into the stores of a [World]; two
      arguments that name the same object are the same reference.
    - A generator function is a value of [Gen]: straight-line code reads and
      writes the world, [Yield] hands an event to the scheduler and waits
      for the scheduler's answer, which is either a normal resumption or an
      [Interrupt] thrown into the generator.
    - A story sentence is kept as the tag of its format string together with
      the arguments passed to [format].
    - SimPy itself is not part of the repository.  [Module SimPy] states
      what its [Resource] and [Container] do when the programs call them
      (SimPy 3): what a call changes at once is part of the calling code,
      what SimPy does later, when its scheduler processes an event, is left
      to the scheduler. *)

From Stdlib Require Import QArith Lqa List String Bool Arith Lia.
Import ListNotations.
Open Scope list_scope.
Open Scope Q_scope.

(** ** Numbers *)

Inductive num : Type :=
| Fin (q : Q)
| Inf.

Definition Qlt_bool (a b : Q) : bool := negb (Qle_bool b a).

(** [a <= b] and [a < b] on numbers that may be [float('inf')]. *)
Definition num_leb (a b : num) : bool :=
  match a, b with
  | _, Inf => true
  | Inf, Fin _ => false
  | Fin x, Fin y => Qle_bool x y
  end.

Definition num_ltb (a b : num) : bool := negb (num_leb b a).

Definition num_add (a : num) (q : Q) : num :=
  match a with
  | Fin x => Fin (x + q)
  | Inf => Inf
  end.

Definition num_sub (a : num) (q : Q) : num :=
  match a with
  | Fin x => Fin (x - q)
  | Inf => Inf
  end.

(** Python's [min(a, b)]: the first argument unless the second is strictly
    smaller.  The second argument is finite wherever the programs call it. *)
Definition py_min (a : num) (b : Q) : Q :=
  match a with
  | Fin x => if Qlt_bool b x then b else x
  | Inf => b
  end.

Definition of_nat (n : nat) : Q := inject_Z (Z.of_nat n).

(** ** References, stages, materials *)

Definition eref := nat.   (* an entity object *)
Definition bref := nat.   (* a Building object *)
Definition rref := nat.   (* a simpy.Resource object *)
Definition cref := nat.   (* a simpy.Container object *)
Definition Callback := nat.  (* a generator handed over as [callbacks] *)

(** The columns of a house-type sheet: 'Up to Plinth Level',
    'Superstructure', 'Roofing'. *)
Inductive Stage : Type := Up_to_Plinth_Level | Superstructure | Roofing.

(** The rows of a house-type sheet ('Cement', 'Rebar', 'CGI Sheet', 'Brick',
    'Wood', 'Stone', 'Sand', 'Aggregate', 'Skilled', 'Unskilled'); the
    'Material cost' sheet is indexed by the same ten, with 'Wood' spelled
    'Timber' and 'CGI Sheet' spelled 'CGI'. *)
Inductive Material : Type :=
| Cement | Rebar | CGI_Sheet | Brick | Wood | Stone | Sand | Aggregate
| Skilled | Unskilled.

Inductive Exn : Type :=
| Interrupt (cause : Q)
| ValueError
| AttributeError
| NameError
| UnboundLocalError.

(** ** Story sentences *)

Inductive StoryEntry : Type :=
(* financial.py *)
| Story_financial_completed (name : string) (now : Q) (budget_level : num)
| Story_NRA_submitted (name : string) (assistance_put : option Q)
| Story_NRA_received (name : string) (payout : Q) (assistance_get : option Q)
| Story_NRA_partial (name : string) (request payout : Q)
    (assistance_get : option Q)
| Story_NRA_no_money (name : string)
| Story_NRA_gave_up (name : string) (cause : Q)
| Story_no_insurance (name : string)
| Story_claim_submitted (name : string) (claim_put : option Q)
| Story_deductible_greater (name : string)
| Story_claim_received (name : string) (payout : Q) (claim_get : option Q)
| Story_claim_gave_up (name : string) (cause : Q)
| Story_loan_submitted (name : string) (loan_put : option Q)
| Story_loan_received (name : string) (amount : Q) (loan_get : option Q)
| Story_loan_gave_up (name : string) (cause : Q)
(* entities.py *)
| Story_owns_residence (name : string)
(* technical.py *)
| Story_inspected (name type : string) (inspection_get : option Q)
    (rebuild_cost : Q)
| Story_assessed (name : string) (assessment_get : option Q)
| Story_permitted (name : string) (permit_get : option Q)
| Story_insufficient (material_named : string) (name : string)
| Story_no_money_to_repair (name : string)
| Story_repaired (name : string) (level : Stage) (rebuild_get took : Q)
| Story_repair_gave_up (name : string) (cause : Q).

(** ** structures.Building and entities.Owner

    [Building] keeps the attributes that [Building.__init__] sets and the
    programs read or write (household size, floor area, district, address
    and coordinates are left out).  [Entity] has the attributes of
    [Owner.__init__], and the two that [RepairProgram.process] adds,
    [rebuild_put] and [rebuild_get]: they are written before they are read,
    so they are plain numbers.  A record is updated with the [set_]
    function of the field. *)

Record Building : Type := mkBuilding {
  owner : string;  (* building['Name'] *)
  remoteness : Q;
  damage_state : string;
  btype : string;  (* self.type *)
  inspected : bool;
  permit : bool;
  assessment : bool;
  new_plinth : bool;
  new_walls : bool;
  new_roof : bool;
  plinth_time : Q;
  walls_time : Q;
  roof_time : Q;
  finished_plinth : Q;
  finished_walls : Q;
  finished_roof : Q;
  first_inst : bool;
  second_inst : bool;
  third_inst : bool;
  first_inst_time : Q;
  second_inst_time : Q;
  third_inst_time : Q;
  plinth_value : Q;
  wall_value : Q;
  roof_value : Q;
  damage_value : Q;
  value : Q
}.

Definition set_inspected (v : bool) (r : Building) : Building :=
  mkBuilding (owner r) (remoteness r) (damage_state r) (btype r) v (permit r)
    (assessment r) (new_plinth r) (new_walls r) (new_roof r) (plinth_time r)
    (walls_time r) (roof_time r) (finished_plinth r) (finished_walls r)
    (finished_roof r) (first_inst r) (second_inst r) (third_inst r)
    (first_inst_time r) (second_inst_time r) (third_inst_time r)
    (plinth_value r) (wall_value r) (roof_value r) (damage_value r) (value r).

Definition set_permit (v : bool) (r : Building) : Building :=
  mkBuilding (owner r) (remoteness r) (damage_state r) (btype r) (inspected r)
    v (assessment r) (new_plinth r) (new_walls r) (new_roof r) (plinth_time r)
    (walls_time r) (roof_time r) (finished_plinth r) (finished_walls r)
    (finished_roof r) (first_inst r) (second_inst r) (third_inst r)
    (first_inst_time r) (second_inst_time r) (third_inst_time r)
    (plinth_value r) (wall_value r) (roof_value r) (damage_value r) (value r).

Definition set_assessment (v : bool) (r : Building) : Building :=
  mkBuilding (owner r) (remoteness r) (damage_state r) (btype r) (inspected r)
    (permit r) v (new_plinth r) (new_walls r) (new_roof r) (plinth_time r)
    (walls_time r) (roof_time r) (finished_plinth r) (finished_walls r)
    (finished_roof r) (first_inst r) (second_inst r) (third_inst r)
    (first_inst_time r) (second_inst_time r) (third_inst_time r)
    (plinth_value r) (wall_value r) (roof_value r) (damage_value r) (value r).

Definition set_new_plinth (v : bool) (r : Building) : Building :=
  mkBuilding (owner r) (remoteness r) (damage_state r) (btype r) (inspected r)
    (permit r) (assessment r) v (new_walls r) (new_roof r) (plinth_time r)
    (walls_time r) (roof_time r) (finished_plinth r) (finished_walls r)
    (finished_roof r) (first_inst r) (second_inst r) (third_inst r)
    (first_inst_time r) (second_inst_time r) (third_inst_time r)
    (plinth_value r) (wall_value r) (roof_value r) (damage_value r) (value r).

Definition set_new_walls (v : bool) (r : Building) : Building :=
  mkBuilding (owner r) (remoteness r) (damage_state r) (btype r) (inspected r)
    (permit r) (assessment r) (new_plinth r) v (new_roof r) (plinth_time r)
    (walls_time r) (roof_time r) (finished_plinth r) (finished_walls r)
    (finished_roof r) (first_inst r) (second_inst r) (third_inst r)
    (first_inst_time r) (second_inst_time r) (third_inst_time r)
    (plinth_value r) (wall_value r) (roof_value r) (damage_value r) (value r).

Definition set_new_roof (v : bool) (r : Building) : Building :=
  mkBuilding (owner r) (remoteness r) (damage_state r) (btype r) (inspected r)
    (permit r) (assessment r) (new_plinth r) (new_walls r) v (plinth_time r)
    (walls_time r) (roof_time r) (finished_plinth r) (finished_walls r)
    (finished_roof r) (first_inst r) (second_inst r) (third_inst r)
    (first_inst_time r) (second_inst_time r) (third_inst_time r)
    (plinth_value r) (wall_value r) (roof_value r) (damage_value r) (value r).

Definition set_plinth_time (v : Q) (r : Building) : Building :=
  mkBuilding (owner r) (remoteness r) (damage_state r) (btype r) (inspected r)
    (permit r) (assessment r) (new_plinth r) (new_walls r) (new_roof r) v
    (walls_time r) (roof_time r) (finished_plinth r) (finished_walls r)
    (finished_roof r) (first_inst r) (second_inst r) (third_inst r)
    (first_inst_time r) (second_inst_time r) (third_inst_time r)
    (plinth_value r) (wall_value r) (roof_value r) (damage_value r) (value r).

Definition set_walls_time (v : Q) (r : Building) : Building :=
  mkBuilding (owner r) (remoteness r) (damage_state r) (btype r) (inspected r)
    (permit r) (assessment r) (new_plinth r) (new_walls r) (new_roof r)
    (plinth_time r) v (roof_time r) (finished_plinth r) (finished_walls r)
    (finished_roof r) (first_inst r) (second_inst r) (third_inst r)
    (first_inst_time r) (second_inst_time r) (third_inst_time r)
    (plinth_value r) (wall_value r) (roof_value r) (damage_value r) (value r).

Definition set_roof_time (v : Q) (r : Building) : Building :=
  mkBuilding (owner r) (remoteness r) (damage_state r) (btype r) (inspected r)
    (permit r) (assessment r) (new_plinth r) (new_walls r) (new_roof r)
    (plinth_time r) (walls_time r) v (finished_plinth r) (finished_walls r)
    (finished_roof r) (first_inst r) (second_inst r) (third_inst r)
    (first_inst_time r) (second_inst_time r) (third_inst_time r)
    (plinth_value r) (wall_value r) (roof_value r) (damage_value r) (value r).

Definition set_finished_plinth (v : Q) (r : Building) : Building :=
  mkBuilding (owner r) (remoteness r) (damage_state r) (btype r) (inspected r)
    (permit r) (assessment r) (new_plinth r) (new_walls r) (new_roof r)
    (plinth_time r) (walls_time r) (roof_time r) v (finished_walls r)
    (finished_roof r) (first_inst r) (second_inst r) (third_inst r)
    (first_inst_time r) (second_inst_time r) (third_inst_time r)
    (plinth_value r) (wall_value r) (roof_value r) (damage_value r) (value r).

Definition set_finished_walls (v : Q) (r : Building) : Building :=
  mkBuilding (owner r) (remoteness r) (damage_state r) (btype r) (inspected r)
    (permit r) (assessment r) (new_plinth r) (new_walls r) (new_roof r)
    (plinth_time r) (walls_time r) (roof_time r) (finished_plinth r) v
    (finished_roof r) (first_inst r) (second_inst r) (third_inst r)
    (first_inst_time r) (second_inst_time r) (third_inst_time r)
    (plinth_value r) (wall_value r) (roof_value r) (damage_value r) (value r).

Definition set_finished_roof (v : Q) (r : Building) : Building :=
  mkBuilding (owner r) (remoteness r) (damage_state r) (btype r) (inspected r)
    (permit r) (assessment r) (new_plinth r) (new_walls r) (new_roof r)
    (plinth_time r) (walls_time r) (roof_time r) (finished_plinth r)
    (finished_walls r) v (first_inst r) (second_inst r) (third_inst r)
    (first_inst_time r) (second_inst_time r) (third_inst_time r)
    (plinth_value r) (wall_value r) (roof_value r) (damage_value r) (value r).

Definition set_first_inst (v : bool) (r : Building) : Building :=
  mkBuilding (owner r) (remoteness r) (damage_state r) (btype r) (inspected r)
    (permit r) (assessment r) (new_plinth r) (new_walls r) (new_roof r)
    (plinth_time r) (walls_time r) (roof_time r) (finished_plinth r)
    (finished_walls r) (finished_roof r) v (second_inst r) (third_inst r)
    (first_inst_time r) (second_inst_time r) (third_inst_time r)
    (plinth_value r) (wall_value r) (roof_value r) (damage_value r) (value r).

Definition set_second_inst (v : bool) (r : Building) : Building :=
  mkBuilding (owner r) (remoteness r) (damage_state r) (btype r) (inspected r)
    (permit r) (assessment r) (new_plinth r) (new_walls r) (new_roof r)
    (plinth_time r) (walls_time r) (roof_time r) (finished_plinth r)
    (finished_walls r) (finished_roof r) (first_inst r) v (third_inst r)
    (first_inst_time r) (second_inst_time r) (third_inst_time r)
    (plinth_value r) (wall_value r) (roof_value r) (damage_value r) (value r).

Definition set_third_inst (v : bool) (r : Building) : Building :=
  mkBuilding (owner r) (remoteness r) (damage_state r) (btype r) (inspected r)
    (permit r) (assessment r) (new_plinth r) (new_walls r) (new_roof r)
    (plinth_time r) (walls_time r) (roof_time r) (finished_plinth r)
    (finished_walls r) (finished_roof r) (first_inst r) (second_inst r) v
    (first_inst_time r) (second_inst_time r) (third_inst_time r)
    (plinth_value r) (wall_value r) (roof_value r) (damage_value r) (value r).

Definition set_first_inst_time (v : Q) (r : Building) : Building :=
  mkBuilding (owner r) (remoteness r) (damage_state r) (btype r) (inspected r)
    (permit r) (assessment r) (new_plinth r) (new_walls r) (new_roof r)
    (plinth_time r) (walls_time r) (roof_time r) (finished_plinth r)
    (finished_walls r) (finished_roof r) (first_inst r) (second_inst r)
    (third_inst r) v (second_inst_time r) (third_inst_time r) (plinth_value r)
    (wall_value r) (roof_value r) (damage_value r) (value r).

Definition set_second_inst_time (v : Q) (r : Building) : Building :=
  mkBuilding (owner r) (remoteness r) (damage_state r) (btype r) (inspected r)
    (permit r) (assessment r) (new_plinth r) (new_walls r) (new_roof r)
    (plinth_time r) (walls_time r) (roof_time r) (finished_plinth r)
    (finished_walls r) (finished_roof r) (first_inst r) (second_inst r)
    (third_inst r) (first_inst_time r) v (third_inst_time r) (plinth_value r)
    (wall_value r) (roof_value r) (damage_value r) (value r).

Definition set_third_inst_time (v : Q) (r : Building) : Building :=
  mkBuilding (owner r) (remoteness r) (damage_state r) (btype r) (inspected r)
    (permit r) (assessment r) (new_plinth r) (new_walls r) (new_roof r)
    (plinth_time r) (walls_time r) (roof_time r) (finished_plinth r)
    (finished_walls r) (finished_roof r) (first_inst r) (second_inst r)
    (third_inst r) (first_inst_time r) (second_inst_time r) v (plinth_value r)
    (wall_value r) (roof_value r) (damage_value r) (value r).

Record Entity : Type := mkEntity {
  name : string;
  write_story : bool;
  story : list StoryEntry;
  insurance : Q;  (* coverage ratio *)
  savings : Q;
  income : Q;
  inspection_put : option Q;
  inspection_get : option Q;
  claim_put : option Q;
  claim_get : option Q;
  claim_payout : Q;
  assistance_put : option Q;
  assistance_get : option Q;
  assistance_request : Q;
  assistance_payout : Q;
  money_to_rebuild : Q;
  repair_put : option Q;
  repair_get : option Q;
  loan_put : option Q;
  loan_get : option Q;
  loan_amount : Q;
  permit_put : option Q;
  permit_get : option Q;
  assessment_put : option Q;
  assessment_get : option Q;
  gave_up_funding_search : option Q;
  debt : Q;
  property : bref;  (* reference to the owned Building *)
  rebuild_put : Q;  (* created by RepairProgram.process *)
  rebuild_get : Q  (* created by RepairProgram.process *)
}.

Definition set_story (v : list StoryEntry) (r : Entity) : Entity :=
  mkEntity (name r) (write_story r) v (insurance r) (savings r) (income r)
    (inspection_put r) (inspection_get r) (claim_put r) (claim_get r)
    (claim_payout r) (assistance_put r) (assistance_get r)
    (assistance_request r) (assistance_payout r) (money_to_rebuild r)
    (repair_put r) (repair_get r) (loan_put r) (loan_get r) (loan_amount r)
    (permit_put r) (permit_get r) (assessment_put r) (assessment_get r)
    (gave_up_funding_search r) (debt r) (property r) (rebuild_put r)
    (rebuild_get r).

Definition set_inspection_put (v : option Q) (r : Entity) : Entity :=
  mkEntity (name r) (write_story r) (story r) (insurance r) (savings r)
    (income r) v (inspection_get r) (claim_put r) (claim_get r)
    (claim_payout r) (assistance_put r) (assistance_get r)
    (assistance_request r) (assistance_payout r) (money_to_rebuild r)
    (repair_put r) (repair_get r) (loan_put r) (loan_get r) (loan_amount r)
    (permit_put r) (permit_get r) (assessment_put r) (assessment_get r)
    (gave_up_funding_search r) (debt r) (property r) (rebuild_put r)
    (rebuild_get r).

Definition set_inspection_get (v : option Q) (r : Entity) : Entity :=
  mkEntity (name r) (write_story r) (story r) (insurance r) (savings r)
    (income r) (inspection_put r) v (claim_put r) (claim_get r)
    (claim_payout r) (assistance_put r) (assistance_get r)
    (assistance_request r) (assistance_payout r) (money_to_rebuild r)
    (repair_put r) (repair_get r) (loan_put r) (loan_get r) (loan_amount r)
    (permit_put r) (permit_get r) (assessment_put r) (assessment_get r)
    (gave_up_funding_search r) (debt r) (property r) (rebuild_put r)
    (rebuild_get r).

Definition set_claim_put (v : option Q) (r : Entity) : Entity :=
  mkEntity (name r) (write_story r) (story r) (insurance r) (savings r)
    (income r) (inspection_put r) (inspection_get r) v (claim_get r)
    (claim_payout r) (assistance_put r) (assistance_get r)
    (assistance_request r) (assistance_payout r) (money_to_rebuild r)
    (repair_put r) (repair_get r) (loan_put r) (loan_get r) (loan_amount r)
    (permit_put r) (permit_get r) (assessment_put r) (assessment_get r)
    (gave_up_funding_search r) (debt r) (property r) (rebuild_put r)
    (rebuild_get r).

Definition set_claim_get (v : option Q) (r : Entity) : Entity :=
  mkEntity (name r) (write_story r) (story r) (insurance r) (savings r)
    (income r) (inspection_put r) (inspection_get r) (claim_put r) v
    (claim_payout r) (assistance_put r) (assistance_get r)
    (assistance_request r) (assistance_payout r) (money_to_rebuild r)
    (repair_put r) (repair_get r) (loan_put r) (loan_get r) (loan_amount r)
    (permit_put r) (permit_get r) (assessment_put r) (assessment_get r)
    (gave_up_funding_search r) (debt r) (property r) (rebuild_put r)
    (rebuild_get r).

Definition set_claim_payout (v : Q) (r : Entity) : Entity :=
  mkEntity (name r) (write_story r) (story r) (insurance r) (savings r)
    (income r) (inspection_put r) (inspection_get r) (claim_put r)
    (claim_get r) v (assistance_put r) (assistance_get r)
    (assistance_request r) (assistance_payout r) (money_to_rebuild r)
    (repair_put r) (repair_get r) (loan_put r) (loan_get r) (loan_amount r)
    (permit_put r) (permit_get r) (assessment_put r) (assessment_get r)
    (gave_up_funding_search r) (debt r) (property r) (rebuild_put r)
    (rebuild_get r).

Definition set_assistance_put (v : option Q) (r : Entity) : Entity :=
  mkEntity (name r) (write_story r) (story r) (insurance r) (savings r)
    (income r) (inspection_put r) (inspection_get r) (claim_put r)
    (claim_get r) (claim_payout r) v (assistance_get r) (assistance_request r)
    (assistance_payout r) (money_to_rebuild r) (repair_put r) (repair_get r)
    (loan_put r) (loan_get r) (loan_amount r) (permit_put r) (permit_get r)
    (assessment_put r) (assessment_get r) (gave_up_funding_search r) (debt r)
    (property r) (rebuild_put r) (rebuild_get r).

Definition set_assistance_get (v : option Q) (r : Entity) : Entity :=
  mkEntity (name r) (write_story r) (story r) (insurance r) (savings r)
    (income r) (inspection_put r) (inspection_get r) (claim_put r)
    (claim_get r) (claim_payout r) (assistance_put r) v (assistance_request r)
    (assistance_payout r) (money_to_rebuild r) (repair_put r) (repair_get r)
    (loan_put r) (loan_get r) (loan_amount r) (permit_put r) (permit_get r)
    (assessment_put r) (assessment_get r) (gave_up_funding_search r) (debt r)
    (property r) (rebuild_put r) (rebuild_get r).

Definition set_assistance_request (v : Q) (r : Entity) : Entity :=
  mkEntity (name r) (write_story r) (story r) (insurance r) (savings r)
    (income r) (inspection_put r) (inspection_get r) (claim_put r)
    (claim_get r) (claim_payout r) (assistance_put r) (assistance_get r) v
    (assistance_payout r) (money_to_rebuild r) (repair_put r) (repair_get r)
    (loan_put r) (loan_get r) (loan_amount r) (permit_put r) (permit_get r)
    (assessment_put r) (assessment_get r) (gave_up_funding_search r) (debt r)
    (property r) (rebuild_put r) (rebuild_get r).

Definition set_assistance_payout (v : Q) (r : Entity) : Entity :=
  mkEntity (name r) (write_story r) (story r) (insurance r) (savings r)
    (income r) (inspection_put r) (inspection_get r) (claim_put r)
    (claim_get r) (claim_payout r) (assistance_put r) (assistance_get r)
    (assistance_request r) v (money_to_rebuild r) (repair_put r)
    (repair_get r) (loan_put r) (loan_get r) (loan_amount r) (permit_put r)
    (permit_get r) (assessment_put r) (assessment_get r)
    (gave_up_funding_search r) (debt r) (property r) (rebuild_put r)
    (rebuild_get r).

Definition set_money_to_rebuild (v : Q) (r : Entity) : Entity :=
  mkEntity (name r) (write_story r) (story r) (insurance r) (savings r)
    (income r) (inspection_put r) (inspection_get r) (claim_put r)
    (claim_get r) (claim_payout r) (assistance_put r) (assistance_get r)
    (assistance_request r) (assistance_payout r) v (repair_put r)
    (repair_get r) (loan_put r) (loan_get r) (loan_amount r) (permit_put r)
    (permit_get r) (assessment_put r) (assessment_get r)
    (gave_up_funding_search r) (debt r) (property r) (rebuild_put r)
    (rebuild_get r).

Definition set_loan_put (v : option Q) (r : Entity) : Entity :=
  mkEntity (name r) (write_story r) (story r) (insurance r) (savings r)
    (income r) (inspection_put r) (inspection_get r) (claim_put r)
    (claim_get r) (claim_payout r) (assistance_put r) (assistance_get r)
    (assistance_request r) (assistance_payout r) (money_to_rebuild r)
    (repair_put r) (repair_get r) v (loan_get r) (loan_amount r)
    (permit_put r) (permit_get r) (assessment_put r) (assessment_get r)
    (gave_up_funding_search r) (debt r) (property r) (rebuild_put r)
    (rebuild_get r).

Definition set_loan_get (v : option Q) (r : Entity) : Entity :=
  mkEntity (name r) (write_story r) (story r) (insurance r) (savings r)
    (income r) (inspection_put r) (inspection_get r) (claim_put r)
    (claim_get r) (claim_payout r) (assistance_put r) (assistance_get r)
    (assistance_request r) (assistance_payout r) (money_to_rebuild r)
    (repair_put r) (repair_get r) (loan_put r) v (loan_amount r)
    (permit_put r) (permit_get r) (assessment_put r) (assessment_get r)
    (gave_up_funding_search r) (debt r) (property r) (rebuild_put r)
    (rebuild_get r).

Definition set_loan_amount (v : Q) (r : Entity) : Entity :=
  mkEntity (name r) (write_story r) (story r) (insurance r) (savings r)
    (income r) (inspection_put r) (inspection_get r) (claim_put r)
    (claim_get r) (claim_payout r) (assistance_put r) (assistance_get r)
    (assistance_request r) (assistance_payout r) (money_to_rebuild r)
    (repair_put r) (repair_get r) (loan_put r) (loan_get r) v (permit_put r)
    (permit_get r) (assessment_put r) (assessment_get r)
    (gave_up_funding_search r) (debt r) (property r) (rebuild_put r)
    (rebuild_get r).

Definition set_permit_put (v : option Q) (r : Entity) : Entity :=
  mkEntity (name r) (write_story r) (story r) (insurance r) (savings r)
    (income r) (inspection_put r) (inspection_get r) (claim_put r)
    (claim_get r) (claim_payout r) (assistance_put r) (assistance_get r)
    (assistance_request r) (assistance_payout r) (money_to_rebuild r)
    (repair_put r) (repair_get r) (loan_put r) (loan_get r) (loan_amount r) v
    (permit_get r) (assessment_put r) (assessment_get r)
    (gave_up_funding_search r) (debt r) (property r) (rebuild_put r)
    (rebuild_get r).

Definition set_permit_get (v : option Q) (r : Entity) : Entity :=
  mkEntity (name r) (write_story r) (story r) (insurance r) (savings r)
    (income r) (inspection_put r) (inspection_get r) (claim_put r)
    (claim_get r) (claim_payout r) (assistance_put r) (assistance_get r)
    (assistance_request r) (assistance_payout r) (money_to_rebuild r)
    (repair_put r) (repair_get r) (loan_put r) (loan_get r) (loan_amount r)
    (permit_put r) v (assessment_put r) (assessment_get r)
    (gave_up_funding_search r) (debt r) (property r) (rebuild_put r)
    (rebuild_get r).

Definition set_assessment_put (v : option Q) (r : Entity) : Entity :=
  mkEntity (name r) (write_story r) (story r) (insurance r) (savings r)
    (income r) (inspection_put r) (inspection_get r) (claim_put r)
    (claim_get r) (claim_payout r) (assistance_put r) (assistance_get r)
    (assistance_request r) (assistance_payout r) (money_to_rebuild r)
    (repair_put r) (repair_get r) (loan_put r) (loan_get r) (loan_amount r)
    (permit_put r) (permit_get r) v (assessment_get r)
    (gave_up_funding_search r) (debt r) (property r) (rebuild_put r)
    (rebuild_get r).

Definition set_assessment_get (v : option Q) (r : Entity) : Entity :=
  mkEntity (name r) (write_story r) (story r) (insurance r) (savings r)
    (income r) (inspection_put r) (inspection_get r) (claim_put r)
    (claim_get r) (claim_payout r) (assistance_put r) (assistance_get r)
    (assistance_request r) (assistance_payout r) (money_to_rebuild r)
    (repair_put r) (repair_get r) (loan_put r) (loan_get r) (loan_amount r)
    (permit_put r) (permit_get r) (assessment_put r) v
    (gave_up_funding_search r) (debt r) (property r) (rebuild_put r)
    (rebuild_get r).

Definition set_debt (v : Q) (r : Entity) : Entity :=
  mkEntity (name r) (write_story r) (story r) (insurance r) (savings r)
    (income r) (inspection_put r) (inspection_get r) (claim_put r)
    (claim_get r) (claim_payout r) (assistance_put r) (assistance_get r)
    (assistance_request r) (assistance_payout r) (money_to_rebuild r)
    (repair_put r) (repair_get r) (loan_put r) (loan_get r) (loan_amount r)
    (permit_put r) (permit_get r) (assessment_put r) (assessment_get r)
    (gave_up_funding_search r) v (property r) (rebuild_put r) (rebuild_get r).

Definition set_rebuild_put (v : Q) (r : Entity) : Entity :=
  mkEntity (name r) (write_story r) (story r) (insurance r) (savings r)
    (income r) (inspection_put r) (inspection_get r) (claim_put r)
    (claim_get r) (claim_payout r) (assistance_put r) (assistance_get r)
    (assistance_request r) (assistance_payout r) (money_to_rebuild r)
    (repair_put r) (repair_get r) (loan_put r) (loan_get r) (loan_amount r)
    (permit_put r) (permit_get r) (assessment_put r) (assessment_get r)
    (gave_up_funding_search r) (debt r) (property r) v (rebuild_get r).

Definition set_rebuild_get (v : Q) (r : Entity) : Entity :=
  mkEntity (name r) (write_story r) (story r) (insurance r) (savings r)
    (income r) (inspection_put r) (inspection_get r) (claim_put r)
    (claim_get r) (claim_payout r) (assistance_put r) (assistance_get r)
    (assistance_request r) (assistance_payout r) (money_to_rebuild r)
    (repair_put r) (repair_get r) (loan_put r) (loan_get r) (loan_amount r)
    (permit_put r) (permit_get r) (assessment_put r) (assessment_get r)
    (gave_up_funding_search r) (debt r) (property r) (rebuild_put r) v.

(** ** simpy.Resource and simpy.Container objects *)

Record Resource : Type := mkResource {
  capacity : num;
  users : list nat;     (* requests holding a slot *)
  queue : list nat      (* requests waiting, oldest first *)
}.

Record Container : Type := mkContainer {
  c_capacity : num;
  level : num;
  get_queue : list (nat * Q);   (* pending get(amount), oldest first *)
  put_queue : list (nat * Q)    (* pending put(amount), oldest first *)
}.

(** ** The world: the simulation clock and the object stores *)

Record World : Type := mkWorld {
  now : Q;                       (* env.now *)
  rng : nat;                     (* how many durations have been sampled *)
  next_id : nat;                 (* identity of the next event object *)
  next_ref : nat;                (* identity of the next pool or container *)
  entities : eref -> Entity;
  buildings : bref -> Building;
  resources : rref -> Resource;
  containers : cref -> Container
}.

Definition upd {A : Type} (i : nat) (f : A -> A) (m : nat -> A) : nat -> A :=
  fun j => if Nat.eqb j i then f (m j) else m j.

Definition upd_entity (e : eref) (f : Entity -> Entity) (w : World) : World :=
  mkWorld (now w) (rng w) (next_id w) (next_ref w)
          (upd e f (entities w)) (buildings w) (resources w) (containers w).

Definition upd_building (b : bref) (f : Building -> Building) (w : World)
  : World :=
  mkWorld (now w) (rng w) (next_id w) (next_ref w)
          (entities w) (upd b f (buildings w)) (resources w) (containers w).

Definition upd_resource (r : rref) (f : Resource -> Resource) (w : World)
  : World :=
  mkWorld (now w) (rng w) (next_id w) (next_ref w)
          (entities w) (buildings w) (upd r f (resources w)) (containers w).

Definition upd_container (c : cref) (f : Container -> Container) (w : World)
  : World :=
  mkWorld (now w) (rng w) (next_id w) (next_ref w)
          (entities w) (buildings w) (resources w) (upd c f (containers w)).

Definition bump_id (w : World) : World :=
  mkWorld (now w) (rng w) (S (next_id w)) (next_ref w)
          (entities w) (buildings w) (resources w) (containers w).

Definition bump_rng (w : World) : World :=
  mkWorld (now w) (S (rng w)) (next_id w) (next_ref w)
          (entities w) (buildings w) (resources w) (containers w).

Definition bump_ref (w : World) : World :=
  mkWorld (now w) (rng w) (next_id w) (S (next_ref w))
          (entities w) (buildings w) (resources w) (containers w).

Definition set_now (t : Q) (w : World) : World :=
  mkWorld t (rng w) (next_id w) (next_ref w)
          (entities w) (buildings w) (resources w) (containers w).

(** ** Generators *)

(** What a process waits for when it yields. *)
Inductive Event : Type :=
| EvRequest (r : rref) (id : nat)               (* yield resource.request() *)
| EvTimeout (delay : Q)                         (* yield env.timeout(delay) *)
| EvGet (c : cref) (id : nat) (amount : Q)      (* yield container.get(a) *)
| EvPut (c : cref) (id : nat) (amount : Q)      (* yield container.put(a) *)
| EvProcess (callbacks : Callback).             (* yield env.process(cb) *)

(** What the scheduler does to a suspended process. *)
Inductive Signal : Type :=
| Send                        (* the awaited event fired *)
| Interrupted (cause : Q).    (* process.interrupt(cause) *)

Inductive Gen (A : Type) : Type :=
| Ret (a : A)
| Raise (e : Exn)
| Read (k : World -> Gen A)
| Store (f : World -> World) (k : Gen A)
| Yield (ev : Event) (k : Signal -> Gen A).

Arguments Ret {A} a.
Arguments Raise {A} e.
Arguments Read {A} k.
Arguments Store {A} f k.
Arguments Yield {A} ev k.

Fixpoint bind {A B : Type} (g : Gen A) (h : A -> Gen B) : Gen B :=
  match g with
  | Ret a => h a
  | Raise e => Raise e
  | Read k => Read (fun w => bind (k w) h)
  | Store f k => Store f (bind k h)
  | Yield ev k => Yield ev (fun s => bind (k s) h)
  end.

Declare Scope gen_scope.
Delimit Scope gen_scope with gen.
Notation "x <- g ;; h" := (bind g (fun x => h))
  (at level 61, g at next level, right associativity) : gen_scope.
Notation "g ;; h" := (bind g (fun _ => h))
  (at level 61, right associativity) : gen_scope.
Open Scope gen_scope.

(** [yield ev]: suspend on [ev]; an interrupt delivered meanwhile is raised
    at the [yield] expression. *)
Definition yield (ev : Event) : Gen unit :=
  Yield ev (fun s =>
    match s with
    | Send => Ret tt
    | Interrupted cause => Raise (Interrupt cause)
    end).

(** [try: body except Interrupt as i: handler i.cause]. *)
Fixpoint try_except_Interrupt {A : Type} (body : Gen A) (handler : Q -> Gen A)
  : Gen A :=
  match body with
  | Ret a => Ret a
  | Raise (Interrupt cause) => handler cause
  | Raise e => Raise e
  | Read k => Read (fun w => try_except_Interrupt (k w) handler)
  | Store f k => Store f (try_except_Interrupt k handler)
  | Yield ev k => Yield ev (fun s => try_except_Interrupt (k s) handler)
  end.

(** How a [try] block is left: by running off its end, or by a [return]
    statement, which ends the generator without running what follows the
    [try] statement. *)
Inductive Flow : Type := Fallthrough | Return.

Definition modify (f : World -> World) : Gen unit := Store f (Ret tt).
Definition get_entity (e : eref) : Gen Entity :=
  Read (fun w => Ret (entities w e)).
Definition get_building (b : bref) : Gen Building :=
  Read (fun w => Ret (buildings w b)).
Definition get_container (c : cref) : Gen Container :=
  Read (fun w => Ret (containers w c)).
Definition env_now : Gen Q := Read (fun w => Ret (now w)).
Definition set_entity (e : eref) (f : Entity -> Entity) : Gen unit :=
  modify (upd_entity e f).
Definition set_building (b : bref) (f : Building -> Building) : Gen unit :=
  modify (upd_building b f).

(** [self.duration()]: the next sample of the program's duration function. *)
Definition sample (duration : nat -> Q) : Gen Q :=
  Read (fun w => Store bump_rng (Ret (duration (rng w)))).

(** ** SimPy primitives *)

Module SimPy.

(** [Resource.__init__(env, capacity)]. *)
Definition Resource_init (cap : num) : Exn + Resource :=
  if num_leb cap (Fin 0) then inl ValueError
  else inr (mkResource cap [] []).

(** [Container.__init__(env, capacity=float('inf'), init)]. *)
Definition Container_init (cap : num) (init : num) : Exn + Container :=
  if num_leb cap (Fin 0) then inl ValueError
  else if num_ltb init (Fin 0) then inl ValueError
  else if num_ltb cap init then inl ValueError
  else inr (mkContainer cap init [] []).

(** [Resource._trigger_put]: the oldest waiting request gets a slot if one
    is free. *)
Definition trigger_put (r : Resource) : Resource :=
  match queue r with
  | [] => r
  | req :: rest =>
      if num_ltb (Fin (of_nat (List.length (users r)))) (capacity r)
      then mkResource (capacity r) (users r ++ [req]) rest
      else r
  end.

(** [resource.request()]: a new request joins the queue and is served at
    once if a slot is free.  Returns the request. *)
Definition request (r : rref) : Gen nat :=
  Read (fun w =>
    let id := next_id w in
    Store (fun w =>
      upd_resource r
        (fun x => trigger_put (mkResource (capacity x) (users x)
                                          (queue x ++ [id])))
        (bump_id w))
      (Ret id)).

Fixpoint remove_first (id : nat) (l : list nat) : list nat :=
  match l with
  | [] => []
  | x :: rest => if Nat.eqb x id then rest else x :: remove_first id rest
  end.

(** [resource.release(request)]: the request leaves [users] (nothing happens
    if it is not there).  The freed slot is handed to the next waiting
    request by the scheduler, when it processes the release event. *)
Definition release (r : rref) (req : nat) : Gen unit :=
  modify (upd_resource r
    (fun x => mkResource (capacity x) (remove_first req (users x)) (queue x))).

(** [Container._trigger_get]: pending gets are served oldest first, as long
    as the level covers the one at the head. *)
Fixpoint trigger_get (lvl : num) (q : list (nat * Q)) : num * list (nat * Q) :=
  match q with
  | [] => (lvl, [])
  | (id, amount) :: rest =>
      if num_leb (Fin amount) lvl
      then trigger_get (num_sub lvl amount) rest
      else (lvl, q)
  end.

(** [container.get(amount)]. *)
Definition get (c : cref) (amount : Q) : Gen Event :=
  if Qle_bool amount 0 then Raise ValueError
  else
    Read (fun w =>
      let id := next_id w in
      Store (fun w =>
        upd_container c
          (fun x =>
             let r := trigger_get (level x) (get_queue x ++ [(id, amount)]) in
             mkContainer (c_capacity x) (fst r) (snd r) (put_queue x))
          (bump_id w))
        (Ret (EvGet c id amount))).

(** [capacity - level >= amount], the test of [Container._do_put];
    [inf - inf] is not a number and compares false. *)
Definition fits (cap lvl : num) (amount : Q) : bool :=
  match cap, lvl with
  | Fin c, Fin l => Qle_bool amount (c - l)
  | Inf, Fin _ => true
  | _, Inf => false
  end.

(** [Container._trigger_put]: pending puts are served oldest first, as long
    as the one at the head fits under the capacity. *)
Fixpoint trigger_puts (cap lvl : num) (q : list (nat * Q))
  : num * list (nat * Q) :=
  match q with
  | [] => (lvl, [])
  | (id, amount) :: rest =>
      if fits cap lvl amount
      then trigger_puts cap (num_add lvl amount) rest
      else (lvl, q)
  end.

(** [container.put(amount)]. *)
Definition put (c : cref) (amount : Q) : Gen Event :=
  if Qle_bool amount 0 then Raise ValueError
  else
    Read (fun w =>
      let id := next_id w in
      Store (fun w =>
        upd_container c
          (fun x =>
             let r := trigger_puts (c_capacity x) (level x)
                                   (put_queue x ++ [(id, amount)]) in
             mkContainer (c_capacity x) (fst r) (get_queue x) (snd r))
          (bump_id w))
        (Ret (EvPut c id amount))).

End SimPy.

(** ** config.py and the scenario workbook

    The lookup tables are spreadsheets read with pandas; they are taken as
    given functions.  pandas hands a cell over as a numpy scalar: an
    [int64] when the row it is taken from holds whole numbers only, a
    [float64] otherwise.  The product and the sum of two [int64] are
    [int64] again and wrap around (numpy warns and goes on); as soon as a
    float takes part, the result is a float. *)

Inductive Cell : Type :=
| Int64 (z : Z)
| Float64 (q : Q).

(** The number a cell stands for. *)
Definition cell_value (c : Cell) : Q :=
  match c with
  | Int64 z => inject_Z z
  | Float64 q => q
  end.

(** Two's complement on 64 bits. *)
Definition wrap64 (z : Z) : Z := ((z + 2 ^ 63) mod 2 ^ 64 - 2 ^ 63)%Z.

Definition np_mul (a b : Cell) : Cell :=
  match a, b with
  | Int64 x, Int64 y => Int64 (wrap64 (x * y))
  | _, _ => Float64 (cell_value a * cell_value b)
  end.

Definition np_add (a b : Cell) : Cell :=
  match a, b with
  | Int64 x, Int64 y => Int64 (wrap64 (x + y))
  | _, _ => Float64 (cell_value a + cell_value b)
  end.

(** [cell * factor], the factor being a Python float. *)
Definition scaled (c : Cell) (factor : Q) : Cell :=
  Float64 (cell_value c * factor).

Declare Scope cell_scope.
Delimit Scope cell_scope with cell.
Notation "a * b" := (np_mul a b) : cell_scope.
Notation "a + b" := (np_add a b) : cell_scope.

Record Config : Type := mkConfig {
  (* owners sheet of the scenario file: Name -> 'New House Spec' *)
  owners_new_house : string -> string;
  (* house_types_file: sheet -> row -> column *)
  house_types : string -> Material -> Stage -> Cell;
  (* 'Material cost' sheet, column 'Cost' *)
  material_cost : Material -> Cell;
  (* 'Repair ratio' and 'Repair times' sheets: Type -> Damage State *)
  building_repair_ratio : string -> string -> Cell;
  building_repair_times : string -> string -> Cell
}.

(** ** structures.py *)

(** The columns of a building row that [Building.__init__] keeps and the
    programs read. *)
Record BuildingRow : Type := mkBuildingRow {
  row_Name : string;
  row_Remoteness : Q;
  row_Damage_State : string;
  row_Type : string
}.

(** The right-hand side shared by [setPlinthValue], [setWallValue] and
    [setRoofValue].  [building['Remoteness']] comes from the owner's row,
    which holds text as well: it is a plain Python number. *)
Definition stage_value (cfg : Config) (building : BuildingRow)
  (lvl : Stage) (repair_ratio : Cell) : Q :=
  let building_new_house := owners_new_house cfg (row_Name building) in
  let mat_req := house_types cfg building_new_house in
  let cement_req := mat_req Cement lvl in
  let rebar_req := mat_req Rebar lvl in
  let cgi_req := mat_req CGI_Sheet lvl in
  let brick_req := scaled (mat_req Brick lvl) 0.75 in
  let timber_req := scaled (mat_req Wood lvl) 0.7 in
  let stone_req := scaled (mat_req Stone lvl) 0.2 in
  let sand_req := mat_req Sand lvl in
  let aggregate_req := scaled (mat_req Aggregate lvl) 0.5 in
  let skilled_req := mat_req Skilled lvl in
  let unskilled_req := mat_req Unskilled lvl in
  let stone_cost := material_cost cfg Stone in
  let brick_cost := material_cost cfg Brick in
  let timber_cost := material_cost cfg Wood in
  let rebar_cost := material_cost cfg Rebar in
  let cement_cost := material_cost cfg Cement in
  let cgi_cost := material_cost cfg CGI_Sheet in
  let sand_cost := material_cost cfg Sand in
  let aggregate_cost := material_cost cfg Aggregate in
  let skilled_cost := material_cost cfg Skilled in
  let unskilled_cost := material_cost cfg Unskilled in
  let remoteness_premium := 0.5 in
  cell_value
    (repair_ratio * ((cement_req * cement_cost) + (rebar_req * rebar_cost)
                     + (cgi_req * cgi_cost) + (brick_req * brick_cost)
                     + (timber_req * timber_cost) + (stone_req * stone_cost)
                     + (sand_req * sand_cost)
                     + (aggregate_req * aggregate_cost))
     + (skilled_req * skilled_cost) + (unskilled_req * unskilled_cost)
     + Float64 (row_Remoteness building * remoteness_premium))%cell.

Definition setPlinthValue (cfg : Config) (building : BuildingRow) : Q :=
  stage_value cfg building Up_to_Plinth_Level
    (building_repair_ratio cfg (row_Type building) (row_Damage_State building)).

Definition setWallValue (cfg : Config) (building : BuildingRow) : Q :=
  stage_value cfg building Superstructure
    (building_repair_times cfg (row_Type building) (row_Damage_State building)).

Definition setRoofValue (cfg : Config) (building : BuildingRow) : Q :=
  stage_value cfg building Roofing
    (building_repair_times cfg (row_Type building) (row_Damage_State building)).

(** [Building.__init__(building)]. *)
Definition Building_init (cfg : Config) (building : BuildingRow) : Building :=
  let plinth := setPlinthValue cfg building in
  let wall := setWallValue cfg building in
  let roof := setRoofValue cfg building in
  let damage := plinth + wall + roof in
  {| owner := row_Name building;
     remoteness := row_Remoteness building;
     damage_state := row_Damage_State building;
     btype := row_Type building;
     inspected := false;
     permit := false;
     assessment := false;
     new_plinth := false;
     new_walls := false;
     new_roof := false;
     plinth_time := 0;
     walls_time := 0;
     roof_time := 0;
     finished_plinth := 0;
     finished_walls := 0;
     finished_roof := 0;
     first_inst := false;
     second_inst := false;
     third_inst := false;
     first_inst_time := 0;
     second_inst_time := 0;
     third_inst_time := 0;
     plinth_value := plinth;
     wall_value := wall;
     roof_value := roof;
     damage_value := damage;
     value := damage |}.

(** [SingleFamilyResidential.__init__(building)]. *)
Definition SingleFamilyResidential_init (cfg : Config) (building : BuildingRow)
  : Building :=
  Building_init cfg building.

(** ** entities.py *)

(** The columns of an owner's row: those of the owner and those of the
    building. *)
Record OwnerRow : Type := mkOwnerRow {
  row_Owner_Insurance : Q;
  row_Savings : Q;
  row_Income : Q;
  row_building : BuildingRow
}.

(** [Owner.__init__(env, name, attributes_df, building_stock, write_story)]:
    the new entity and the building it creates, which is to be stored under
    the reference [property_ref].  ([building_stock.put] files the building
    in a store that no program reads.)  [rebuild_put] and [rebuild_get] do
    not exist yet; 0 stands for that. *)
Definition Owner_init (cfg : Config) (name : string) (attributes_df : OwnerRow)
  (property_ref : bref) (write_story : bool) : Entity * Building :=
  ({| name := name;
      write_story := write_story;
      story := if write_story then [Story_owns_residence name] else [];
      insurance := row_Owner_Insurance attributes_df;
      savings := row_Savings attributes_df;
      income := row_Income attributes_df;
      inspection_put := None;
      inspection_get := None;
      claim_put := None;
      claim_get := None;
      claim_payout := 0.0;
      assistance_put := None;
      assistance_get := None;
      assistance_request := 0.0;
      assistance_payout := 0.0;
      money_to_rebuild := row_Savings attributes_df;
      repair_put := None;
      repair_get := None;
      loan_put := None;
      loan_get := None;
      loan_amount := 0.0;
      permit_put := None;
      permit_get := None;
      assessment_put := None;
      assessment_get := None;
      gave_up_funding_search := None;
      debt := 0;
      property := property_ref;
      rebuild_put := 0;
      rebuild_get := 0 |},
   SingleFamilyResidential_init cfg (row_building attributes_df)).

(** ** Program objects and their constructors *)

Record FinancialRecoveryProgram : Type := mkFinancialRecoveryProgram {
  staff : rref;
  budget : cref;
  duration : nat -> Q
}.

Record IndividualAssistance : Type := mkIndividualAssistance {
  ia_base :> FinancialRecoveryProgram;
  max_outlay : num
}.

Record OwnersInsurance : Type := mkOwnersInsurance {
  oi_base :> FinancialRecoveryProgram;
  deductible : Q
}.

Record HomeLoan : Type := mkHomeLoan {
  hl_base :> FinancialRecoveryProgram;
  min_income : num;
  max_loan : num
}.

Record TechnicalRecoveryProgram : Type := mkTechnicalRecoveryProgram {
  t_staff : rref;       (* self.staff *)
  t_duration : nat -> Q (* self.duration *)
}.

Record RepairProgram : Type := mkRepairProgram {
  rp_base :> TechnicalRecoveryProgram;
  stone : cref;
  brick : cref;
  timber : cref;
  rebar : cref;
  cement : cref;
  cgi : cref;
  aggregate : cref;
  sand : cref;
  unskilled : cref;
  skilled : rref;
  rp_level : Stage      (* self.level = build_stage *)
}.

(** Storing a freshly built pool or container under a new reference. *)
Definition new_resource (r : Resource) (w : World) : rref * World :=
  (next_ref w, bump_ref (upd_resource (next_ref w) (fun _ => r) w)).

Definition new_container (c : Container) (w : World) : cref * World :=
  (next_ref w, bump_ref (upd_container (next_ref w) (fun _ => c) w)).

(** [FinancialRecoveryProgram.__init__(env, duration_prob_dist, staff,
    budget)].  [desaster.io.random_duration_function] is not among the
    sources; [duration] stands for the function it returns. *)
Definition FinancialRecoveryProgram_init (duration : nat -> Q)
  (staff budget : num) (w : World) : Exn + (FinancialRecoveryProgram * World) :=
  match SimPy.Resource_init staff with
  | inl e => inl e
  | inr r =>
      let (rr, w1) := new_resource r w in
      match SimPy.Container_init Inf budget with
      | inl e => inl e
      | inr c =>
          let (cr, w2) := new_container c w1 in
          inr (mkFinancialRecoveryProgram rr cr duration, w2)
      end
  end.

Definition IndividualAssistance_init (duration : nat -> Q)
  (staff budget max_outlay : num) (w : World)
  : Exn + (IndividualAssistance * World) :=
  match FinancialRecoveryProgram_init duration staff budget w with
  | inl e => inl e
  | inr (base, w') => inr (mkIndividualAssistance base max_outlay, w')
  end.

Definition OwnersInsurance_init (duration : nat -> Q)
  (staff budget : num) (deductible : Q) (w : World)
  : Exn + (OwnersInsurance * World) :=
  match FinancialRecoveryProgram_init duration staff budget w with
  | inl e => inl e
  | inr (base, w') => inr (mkOwnersInsurance base deductible, w')
  end.

Definition HomeLoan_init (duration : nat -> Q)
  (staff budget max_loan min_income : num) (w : World)
  : Exn + (HomeLoan * World) :=
  match FinancialRecoveryProgram_init duration staff budget w with
  | inl e => inl e
  | inr (base, w') => inr (mkHomeLoan base min_income max_loan, w')
  end.

(** [TechnicalRecoveryProgram.__init__(env, duration_prob_dist, staff)];
    [InspectionProgram], [EngineeringAssessment] and [PermitProgram] only
    call it. *)
Definition TechnicalRecoveryProgram_init (duration : nat -> Q) (staff : num)
  (w : World) : Exn + (TechnicalRecoveryProgram * World) :=
  match SimPy.Resource_init staff with
  | inl e => inl e
  | inr r =>
      let (rr, w1) := new_resource r w in
      inr (mkTechnicalRecoveryProgram rr duration, w1)
  end.

Definition InspectionProgram_init := TechnicalRecoveryProgram_init.
Definition EngineeringAssessment_init := TechnicalRecoveryProgram_init.
Definition PermitProgram_init := TechnicalRecoveryProgram_init.

(** [RepairProgram.__init__].  Its last statement,
    [self.process(self.env, entity.property, entity)], only builds a
    generator object that nobody runs. *)
Definition RepairProgram_init (entity : eref) (build_stage : Stage)
  (stone brick timber rebar cement cgi aggregate sand unskilled : cref)
  (skilled : rref) (duration : nat -> Q) (staff : num) (w : World)
  : Exn + (RepairProgram * World) :=
  match TechnicalRecoveryProgram_init duration staff w with
  | inl e => inl e
  | inr (base, w') =>
      inr (mkRepairProgram base stone brick timber rebar cement cgi aggregate
                           sand unskilled skilled build_stage, w')
  end.

(** [if entity.write_story: entity.story.append(sentence)], the sentence
    being formatted from the current state. *)
Definition tell (e : eref) (sentence : World -> StoryEntry) : Gen unit :=
  Read (fun w =>
    if write_story (entities w e)
    then set_entity e (fun x => set_story (story x ++ [sentence w]) x)
    else Ret tt).

(** The tail shared by the cancellable processes:
    [if callbacks is not None: yield self.env.process(callbacks)]. *)
Definition run_callbacks (callbacks : option Callback) : Gen unit :=
  match callbacks with
  | Some cb => yield (EvProcess cb)
  | None => Ret tt
  end.

(** ** financial.py *)

(** [FinancialRecoveryProgram.process(entity=None)]. *)
Definition FinancialRecoveryProgram_process (self : FinancialRecoveryProgram)
  (entity : option eref) : Gen unit :=
  staff_request <- SimPy.request (staff self) ;;
  yield (EvRequest (staff self) staff_request) ;;
  d <- sample (duration self) ;;
  yield (EvTimeout (20 + d)) ;;
  SimPy.release (staff self) staff_request ;;
  let cost := 1 in
  ev <- SimPy.get (budget self) cost ;;
  yield ev ;;
  ev <- SimPy.put (budget self) cost ;;
  yield ev ;;
  match entity with
  | None => Raise AttributeError      (* None.write_story *)
  | Some e =>
      tell e (fun w =>
        Story_financial_completed (name (entities w e)) (now w)
          (level (containers w (budget self))))
  end.

(** [IndividualAssistance.process(entity, callbacks=None)]. *)
Definition IndividualAssistance_process (self : IndividualAssistance)
  (entity : eref) (callbacks : option Callback) : Gen unit :=
  flow <- try_except_Interrupt
    (x <- get_entity entity ;;
     p <- get_building (property x) ;;
     if Qle_bool (damage_value p) (money_to_rebuild x) then Ret Return
     else
       t <- env_now ;;
       set_entity entity (set_assistance_put (Some t)) ;;
       tell entity (fun w =>
         let x := entities w entity in
         Story_NRA_submitted (name x) (assistance_put x)) ;;
       request <- SimPy.request (staff self) ;;
       yield (EvRequest (staff self) request) ;;
       d <- sample (duration self) ;;
       yield (EvTimeout d) ;;
       SimPy.release (staff self) request ;;
       t <- env_now ;;
       set_entity entity (set_assistance_get (Some t)) ;;
       x <- get_entity entity ;;
       p <- get_building (property x) ;;
       (if negb (new_plinth p)
        then set_entity entity (set_assistance_request 50000)
        else if negb (new_walls p)
        then set_entity entity (set_assistance_request 150000)
        else set_entity entity (set_assistance_request 100000)) ;;
       x <- get_entity entity ;;
       b <- get_container (budget self) ;;
       let pay_in_full : Gen Flow :=
         set_entity entity
           (fun x => set_assistance_payout (assistance_request x) x) ;;
         set_entity entity
           (fun x =>
              set_money_to_rebuild (money_to_rebuild x + assistance_payout x)
                                   x) ;;
         x <- get_entity entity ;;
         p <- get_building (property x) ;;
         t <- env_now ;;
         (if negb (new_plinth p)
          then set_building (property x) (set_first_inst true) ;;
               set_building (property x) (set_first_inst_time t)
          else if negb (new_walls p)
          then set_building (property x) (set_second_inst true) ;;
               set_building (property x) (set_second_inst_time t)
          else set_building (property x) (set_third_inst true) ;;
               set_building (property x) (set_third_inst_time t)) ;;
         x <- get_entity entity ;;
         ev <- SimPy.get (budget self) (assistance_request x) ;;
         yield ev ;;
         tell entity (fun w =>
           let x := entities w entity in
           Story_NRA_received (name x) (assistance_payout x)
                              (assistance_get x)) ;;
         Ret Fallthrough in
       match level b with
       | Inf =>
           (* request <= inf, and the request is one of the three tiers
              set above, none of them 0 *)
           pay_in_full
       | Fin l =>
           if Qle_bool (assistance_request x) l
              && negb (Qeq_bool (assistance_request x) 0)
           then pay_in_full
           else if Qlt_bool 0 l
           then
             set_entity entity (set_assistance_payout l) ;;
             set_entity entity
               (fun x =>
                  set_money_to_rebuild
                    (money_to_rebuild x + assistance_payout x) x) ;;
             ev <- SimPy.get (budget self) l ;;
             yield ev ;;
             tell entity (fun w =>
               let x := entities w entity in
               Story_NRA_partial (name x) (assistance_request x)
                                 (assistance_payout x) (assistance_get x)) ;;
             Ret Fallthrough
           else
             set_entity entity (set_assistance_payout 0.0) ;;
             tell entity (fun w =>
               Story_NRA_no_money (name (entities w entity))) ;;
             Ret Fallthrough
       end)
    (fun cause =>
       tell entity (fun w =>
         Story_NRA_gave_up (name (entities w entity)) cause) ;;
       Ret Fallthrough) ;;
  match flow with
  | Return => Ret tt
  | Fallthrough => run_callbacks callbacks
  end.

(** [OwnersInsurance.process(entity, callbacks=None)]. *)
Definition OwnersInsurance_process (self : OwnersInsurance)
  (entity : eref) (callbacks : option Callback) : Gen unit :=
  flow <- try_except_Interrupt
    (x <- get_entity entity ;;
     if Qle_bool (insurance x) 0.0
     then
       tell entity (fun w =>
         Story_no_insurance (name (entities w entity))) ;;
       Ret Return
     else
       t <- env_now ;;
       set_entity entity (set_claim_put (Some t)) ;;
       tell entity (fun w =>
         let x := entities w entity in
         Story_claim_submitted (name x) (claim_put x)) ;;
       x <- get_entity entity ;;
       p <- get_building (property x) ;;
       let deductible_amount := value p * insurance x * deductible self in
       if Qlt_bool (damage_value p) deductible_amount
       then
         tell entity (fun w =>
           Story_deductible_greater (name (entities w entity))) ;;
         t <- env_now ;;
         set_entity entity (set_claim_get (Some t)) ;;
         Ret Return
       else
         request <- SimPy.request (staff self) ;;
         yield (EvRequest (staff self) request) ;;
         d <- sample (duration self) ;;
         yield (EvTimeout d) ;;
         x <- get_entity entity ;;
         p <- get_building (property x) ;;
         set_entity entity
           (set_claim_payout (damage_value p - deductible_amount)) ;;
         set_entity entity
           (fun x =>
              set_money_to_rebuild (money_to_rebuild x + claim_payout x) x) ;;
         t <- env_now ;;
         set_entity entity (set_claim_get (Some t)) ;;
         SimPy.release (staff self) request ;;
         tell entity (fun w =>
           let x := entities w entity in
           Story_claim_received (name x) (claim_payout x) (claim_get x)) ;;
         Ret Fallthrough)
    (fun cause =>
       tell entity (fun w =>
         Story_claim_gave_up (name (entities w entity)) cause) ;;
       Ret Fallthrough) ;;
  match flow with
  | Return => Ret tt
  | Fallthrough => run_callbacks callbacks
  end.

(** The valuation of the first stage that is not built yet, as
    [HomeLoan.process] picks it. *)
Definition current_stage_value (p : Building) : Q :=
  if negb (new_plinth p) then plinth_value p
  else if negb (new_walls p) then wall_value p
  else roof_value p.

(** [HomeLoan.process(entity, callbacks=None)]. *)
Definition HomeLoan_process (self : HomeLoan)
  (entity : eref) (callbacks : option Callback) : Gen unit :=
  x <- get_entity entity ;;
  p <- get_building (property x) ;;
  let rebuild_cost := current_stage_value p in
  flow <- try_except_Interrupt
    (x <- get_entity entity ;;
     if Qle_bool rebuild_cost (money_to_rebuild x) then Ret Return
     else
       t <- env_now ;;
       set_entity entity (set_loan_put (Some t)) ;;
       tell entity (fun w =>
         let x := entities w entity in
         Story_loan_submitted (name x) (loan_put x)) ;;
       request <- SimPy.request (staff self) ;;
       yield (EvRequest (staff self) request) ;;
       d <- sample (duration self) ;;
       yield (EvTimeout d) ;;
       SimPy.release (staff self) request ;;
       t <- env_now ;;
       set_entity entity (set_loan_get (Some t)) ;;
       x <- get_entity entity ;;
       p <- get_building (property x) ;;
       let saved := if negb (new_plinth p) then savings x else 0 in
       set_entity entity
         (fun x =>
            set_loan_amount
              (py_min (max_loan self)
                      (rebuild_cost - saved - claim_payout x
                       - assistance_payout x)) x) ;;
       x <- get_entity entity ;;
       (if Qlt_bool 0.0 (loan_amount x)
        then
          set_entity entity
            (fun x =>
               set_money_to_rebuild (money_to_rebuild x + loan_amount x) x) ;;
          set_entity entity (fun x => set_debt (debt x + loan_amount x) x) ;;
          tell entity (fun w =>
            let x := entities w entity in
            Story_loan_received (name x) (loan_amount x) (loan_get x))
        else Ret tt) ;;
       Ret Fallthrough)
    (fun cause =>
       tell entity (fun w =>
         Story_loan_gave_up (name (entities w entity)) cause) ;;
       Ret Fallthrough) ;;
  match flow with
  | Return => Ret tt
  | Fallthrough => run_callbacks callbacks
  end.

(** ** technical.py *)

(** [TechnicalRecoveryProgram.process(entity=None)]: the base class has no
    [materials] attribute, so the example process stops there. *)
Definition TechnicalRecoveryProgram_process (self : TechnicalRecoveryProgram)
  (entity : option eref) : Gen unit :=
  staff_request <- SimPy.request (t_staff self) ;;
  yield (EvRequest (t_staff self) staff_request) ;;
  d <- sample (t_duration self) ;;
  yield (EvTimeout d) ;;
  SimPy.release (t_staff self) staff_request ;;
  Raise AttributeError.               (* self.materials *)

(** [InspectionProgram.process(structure, entity=None, callbacks=None)]. *)
Definition InspectionProgram_process (self : TechnicalRecoveryProgram)
  (structure : bref) (entity : option eref) (callbacks : option Callback)
  : Gen unit :=
  match entity with
  | Some e =>
      t <- env_now ;;
      set_entity e (set_inspection_put (Some t))
  | None => Ret tt
  end ;;
  staff_request <- SimPy.request (t_staff self) ;;
  yield (EvRequest (t_staff self) staff_request) ;;
  d <- sample (t_duration self) ;;
  yield (EvTimeout d) ;;
  set_building structure (set_inspected true) ;;
  SimPy.release (t_staff self) staff_request ;;
  match entity with
  | Some e =>
      t <- env_now ;;
      set_entity e (set_inspection_get (Some t))
  | None => Ret tt
  end ;;
  s <- get_building structure ;;
  let rebuild_cost : option Q :=
    if negb (new_plinth s) then Some (plinth_value s)
    else if negb (new_walls s) then Some (wall_value s)
    else if negb (new_roof s) then Some (roof_value s)
    else None in
  match entity with
  | None => Raise AttributeError      (* None.write_story *)
  | Some e =>
      x <- get_entity e ;;
      if write_story x
      then
        match rebuild_cost with
        | None => Raise UnboundLocalError
        | Some c =>
            Read (fun w =>
              set_entity e (fun x =>
                set_story
                  (story x
                   ++ [Story_inspected (name (entities w e))
                         (btype (buildings w structure))
                         (inspection_get (entities w e)) c]) x))
        end
      else Ret tt
  end.

(** [EngineeringAssessment.process(structure, entity, callbacks=None)].
    The last statement names [env], which is bound nowhere in the module. *)
Definition EngineeringAssessment_process (self : TechnicalRecoveryProgram)
  (structure : bref) (entity : eref) (callbacks : option Callback)
  : Gen unit :=
  t <- env_now ;;
  set_entity entity (set_assessment_put (Some t)) ;;
  staff_request <- SimPy.request (t_staff self) ;;
  yield (EvRequest (t_staff self) staff_request) ;;
  d <- sample (t_duration self) ;;
  yield (EvTimeout d) ;;
  SimPy.release (t_staff self) staff_request ;;
  set_building structure (set_assessment true) ;;
  t <- env_now ;;
  set_entity entity (set_assessment_get (Some t)) ;;
  tell entity (fun w =>
    let x := entities w entity in
    Story_assessed (name x) (assessment_get x)) ;;
  match callbacks with
  | Some _ => Raise NameError         (* env.process *)
  | None => Ret tt
  end.

(** [PermitProgram.process(structure, entity, callbacks=None)]. *)
Definition PermitProgram_process (self : TechnicalRecoveryProgram)
  (structure : bref) (entity : eref) (callbacks : option Callback)
  : Gen unit :=
  t <- env_now ;;
  set_entity entity (set_permit_put (Some t)) ;;
  staff_request <- SimPy.request (t_staff self) ;;
  yield (EvRequest (t_staff self) staff_request) ;;
  d <- sample (t_duration self) ;;
  yield (EvTimeout d) ;;
  SimPy.release (t_staff self) staff_request ;;
  set_building structure (set_permit true) ;;
  t <- env_now ;;
  set_entity entity (set_permit_get (Some t)) ;;
  tell entity (fun w =>
    let x := entities w entity in
    Story_permitted (name x) (permit_get x)) ;;
  run_callbacks callbacks.

(** [if needed > container.level: story; return], else go on. *)
Definition check_material (c : cref) (needed : Q) (entity : eref)
  (material_named : string) (rest : Gen Flow) : Gen Flow :=
  x <- get_container c ;;
  if num_ltb (level x) (Fin needed)
  then
    tell entity (fun w =>
      Story_insufficient material_named (name (entities w entity))) ;;
    Ret Return
  else rest.

(** [if needed > 0: yield container.get(needed)]. *)
Definition withdraw (c : cref) (needed : Q) : Gen unit :=
  if Qlt_bool 0 needed
  then ev <- SimPy.get c needed ;; yield ev
  else Ret tt.

(** [RepairProgram.process(structure, entity, callbacks=None)].  The cells
    of the house-type sheet are compared, scaled by a float, divided by 4
    and handed to [get], never multiplied with one another: each counts by
    its value. *)
Definition RepairProgram_process (cfg : Config) (self : RepairProgram)
  (structure : bref) (entity : eref) (callbacks : option Callback)
  : Gen unit :=
  x <- get_entity entity ;;
  let building_new_house := owners_new_house cfg (name x) in
  let mat_req m lvl :=
    cell_value (house_types cfg building_new_house m lvl) in
  let cement_needed := mat_req Cement (rp_level self) in
  let rebar_needed := mat_req Rebar (rp_level self) in
  let cgi_needed := mat_req CGI_Sheet (rp_level self) in
  let brick_needed := mat_req Brick (rp_level self) * 0.75 in
  let timber_needed := mat_req Wood (rp_level self) * 0.7 in
  let stone_needed := mat_req Stone (rp_level self) * 0.2 in
  let sand_needed := mat_req Sand (rp_level self) in
  let aggregate_needed := mat_req Aggregate (rp_level self) * 0.5 in
  let skilled_needed := mat_req Skilled (rp_level self) in
  let unskilled_needed := mat_req Unskilled (rp_level self) in
  flow <- try_except_Interrupt
    (check_material (stone self) stone_needed entity "stone"
    (check_material (brick self) brick_needed entity "brick"
    (check_material (timber self) timber_needed entity "stone"
    (check_material (rebar self) rebar_needed entity "rebar"
    (check_material (cement self) cement_needed entity "cement"
    (check_material (cgi self) cgi_needed entity "CGI"
    (check_material (sand self) sand_needed entity "sand"
    (check_material (aggregate self) aggregate_needed entity "aggregate"
    (s <- get_building structure ;;
     let cost :=
       match rp_level self with
       | Up_to_Plinth_Level => plinth_value s
       | Superstructure => wall_value s
       | Roofing => roof_value s
       end in
     x <- get_entity entity ;;
     if Qlt_bool (money_to_rebuild x) cost
     then
       tell entity (fun w =>
         Story_no_money_to_repair (name (entities w entity))) ;;
       Ret Return
     else
       x <- get_entity entity ;;
       if Qle_bool cost (money_to_rebuild x)
       then
         t <- env_now ;;
         set_entity entity (set_rebuild_put t) ;;
         let rebuild_time := mat_req Skilled (rp_level self) / 4 in
         skilled_request <- SimPy.request (skilled self) ;;
         yield (EvRequest (skilled self) skilled_request) ;;
         skilled_request2 <- SimPy.request (skilled self) ;;
         yield (EvRequest (skilled self) skilled_request2) ;;
         skilled_request3 <- SimPy.request (skilled self) ;;
         yield (EvRequest (skilled self) skilled_request3) ;;
         skilled_request4 <- SimPy.request (skilled self) ;;
         yield (EvRequest (skilled self) skilled_request4) ;;
         withdraw (stone self) stone_needed ;;
         withdraw (brick self) brick_needed ;;
         withdraw (timber self) timber_needed ;;
         withdraw (rebar self) rebar_needed ;;
         withdraw (cement self) cement_needed ;;
         withdraw (cgi self) cgi_needed ;;
         withdraw (sand self) sand_needed ;;
         withdraw (aggregate self) aggregate_needed ;;
         withdraw (unskilled self) unskilled_needed ;;
         yield (EvTimeout rebuild_time) ;;
         SimPy.release (skilled self) skilled_request ;;
         SimPy.release (skilled self) skilled_request2 ;;
         SimPy.release (skilled self) skilled_request3 ;;
         SimPy.release (skilled self) skilled_request4 ;;
         t <- env_now ;;
         set_entity entity (set_rebuild_get t) ;;
         tell entity (fun w =>
           let x := entities w entity in
           Story_repaired (name x) (rp_level self) (rebuild_get x)
                          (rebuild_get x - rebuild_put x)) ;;
         match rp_level self with
         | Up_to_Plinth_Level =>
             x <- get_entity entity ;;
             set_building (property x) (set_new_plinth true) ;;
             s <- get_building structure ;;
             set_entity entity
               (fun x =>
                  set_money_to_rebuild (money_to_rebuild x - plinth_value s)
                                       x) ;;
             x <- get_entity entity ;;
             set_building (property x)
               (set_plinth_time (rebuild_get x - rebuild_put x)) ;;
             x <- get_entity entity ;;
             set_building (property x) (set_finished_plinth (rebuild_get x))
         | Superstructure =>
             x <- get_entity entity ;;
             set_building (property x) (set_new_walls true) ;;
             s <- get_building structure ;;
             set_entity entity
               (fun x =>
                  set_money_to_rebuild (money_to_rebuild x - wall_value s)
                                       x) ;;
             x <- get_entity entity ;;
             set_building (property x)
               (set_walls_time (rebuild_get x - rebuild_put x)) ;;
             x <- get_entity entity ;;
             set_building (property x) (set_finished_walls (rebuild_get x))
         | Roofing =>
             x <- get_entity entity ;;
             set_building (property x) (set_new_roof true) ;;
             x <- get_entity entity ;;
             set_building (property x)
               (set_roof_time (rebuild_get x - rebuild_put x)) ;;
             x <- get_entity entity ;;
             set_building (property x) (set_finished_roof (rebuild_get x)) ;;
             s <- get_building structure ;;
             set_entity entity
               (fun x =>
                  set_money_to_rebuild (money_to_rebuild x - roof_value s) x)
         end ;;
         Ret Fallthrough
       else Ret Fallthrough)))))))))
    (fun cause =>
       tell entity (fun w =>
         Story_repair_gave_up (name (entities w entity)) cause) ;;
       Ret Fallthrough) ;;
  match flow with
  | Return => Ret tt
  | Fallthrough =>
      match callbacks with
      | Some _ => Raise NameError     (* env.process *)
      | None => Ret tt
      end
  end.

(** ** Running a generator *)

(** How a stretch of straight-line code ends. *)
Inductive Stop (A : Type) : Type :=
| Suspended (ev : Event) (k : Signal -> Gen A)
| Done (a : A)
| Failed (e : Exn).

Arguments Suspended {A} ev k.
Arguments Done {A} a.
Arguments Failed {A} e.

(** Run [g] from world [w] up to its next [yield], its end or an uncaught
    exception. *)
Fixpoint run_sync {A : Type} (g : Gen A) (w : World) : World * Stop A :=
  match g with
  | Ret a => (w, Done a)
  | Raise e => (w, Failed e)
  | Read k => run_sync (k w) w
  | Store f k => run_sync k (f w)
  | Yield ev k => (w, Suspended ev k)
  end.

(** [resume_all st rs]: starting from the state [st] reached so far, the
    process is resumed once per element of [rs], each time with the given
    signal and in the given world (whatever the rest of the simulation has
    made of it meanwhile).  [None] if the process has ended before. *)
Fixpoint resume_all {A : Type} (st : World * Stop A)
  (rs : list (Signal * World)) : option (World * Stop A) :=
  match rs with
  | [] => Some st
  | (sig, w) :: rest =>
      match snd st with
      | Suspended _ k => resume_all (run_sync (k sig) w) rest
      | _ => None
      end
  end.

(** The process is started in [w0] and then resumed as [rs] says. *)
Definition execute {A : Type} (g : Gen A) (w0 : World)
  (rs : list (Signal * World)) : option (World * Stop A) :=
  resume_all (run_sync g w0) rs.

(** What the scheduler sees of a [Stop]. *)
Inductive Outcome : Type :=
| Waiting (ev : Event)
| Finished
| Crashed (e : Exn).

Definition outcome {A : Type} (s : Stop A) : Outcome :=
  match s with
  | Suspended ev _ => Waiting ev
  | Done _ => Finished
  | Failed e => Crashed e
  end.

(** The world and the outcome at the end of an execution. *)
Definition result {A : Type} (r : option (World * Stop A))
  : option (World * Outcome) :=
  match r with
  | Some (w, s) => Some (w, outcome s)
  | None => None
  end.

(** The history of a process: the world and the outcome at the end of each
    of its stretches, the process being started in the world of [st] and
    resumed as [rs] says. *)
Fixpoint segments {A : Type} (st : World * Stop A)
  (rs : list (Signal * World)) : list (World * Outcome) :=
  (fst st, outcome (snd st))
  :: match rs with
     | [] => []
     | (sig, w) :: rest =>
         match snd st with
         | Suspended _ k => segments (run_sync (k sig) w) rest
         | _ => []
         end
     end.

(** What a process does at the end of a stretch, the identity of the event
    object left out. *)
Inductive Activity : Type :=
| Requests (r : rref)
| Waits (delay : Q)
| Withdraws (c : cref) (amount : Q)
| Deposits (c : cref) (amount : Q)
| Runs (callbacks : Callback)
| Ends
| Fails (e : Exn).

Definition activity (o : Outcome) : Activity :=
  match o with
  | Waiting (EvRequest r _) => Requests r
  | Waiting (EvTimeout delay) => Waits delay
  | Waiting (EvGet c _ amount) => Withdraws c amount
  | Waiting (EvPut c _ amount) => Deposits c amount
  | Waiting (EvProcess cb) => Runs cb
  | Finished => Ends
  | Crashed e => Fails e
  end.

Definition activities (h : list (World * Outcome)) : list Activity :=
  map (fun s => activity (snd s)) h.

(** What the scheduler itself does for an event while nothing else runs:
    a timeout moves the clock. *)
Definition fire (ev : Event) (w : World) : World :=
  match ev with
  | EvTimeout delay => set_now (now w + delay) w
  | _ => w
  end.

(** Has the awaited event fired?  A request once it is among the users of
    its pool, a get or put once it has left the container's queue. *)
Definition fired (ev : Event) (w : World) : bool :=
  match ev with
  | EvRequest r id => existsb (Nat.eqb id) (users (resources w r))
  | EvTimeout _ => true
  | EvGet c id _ =>
      negb (existsb (fun p => Nat.eqb id (fst p)) (get_queue (containers w c)))
  | EvPut c id _ =>
      negb (existsb (fun p => Nat.eqb id (fst p)) (put_queue (containers w c)))
  | EvProcess _ => true
  end.

(** A process alone in the simulation: it is resumed once per signal in
    [sigs], as soon as the event it waits for has fired; it stays suspended
    for good on an event that has not. *)
Fixpoint alone {A : Type} (st : World * Stop A) (sigs : list Signal)
  : World * Stop A :=
  match sigs with
  | [] => st
  | sig :: rest =>
      match snd st with
      | Suspended ev k =>
          match sig with
          | Send =>
              if fired ev (fst st)
              then alone (run_sync (k Send) (fire ev (fst st))) rest
              else st
          | Interrupted cause => alone (run_sync (k sig) (fst st)) rest
          end
      | _ => st
      end
  end.

(** ** Vocabulary of the properties *)

Definition holders (w : World) (r : rref) : nat :=
  List.length (users (resources w r)).

(** The world after [if entity.write_story: entity.story.append(s)]. *)
Definition told (e : eref) (s : StoryEntry) (w : World) : World :=
  if write_story (entities w e)
  then upd_entity e (fun x => set_story (story x ++ [s]) x) w
  else w.

(** The four processes that catch [Interrupt]. *)
Inductive Cancellable : Type :=
| Call_IndividualAssistance (self : IndividualAssistance) (entity : eref)
    (callbacks : option Callback)
| Call_OwnersInsurance (self : OwnersInsurance) (entity : eref)
    (callbacks : option Callback)
| Call_HomeLoan (self : HomeLoan) (entity : eref)
    (callbacks : option Callback)
| Call_Repair (cfg : Config) (self : RepairProgram) (structure : bref)
    (entity : eref) (callbacks : option Callback).

Definition cancellable_process (c : Cancellable) : Gen unit :=
  match c with
  | Call_IndividualAssistance self entity callbacks =>
      IndividualAssistance_process self entity callbacks
  | Call_OwnersInsurance self entity callbacks =>
      OwnersInsurance_process self entity callbacks
  | Call_HomeLoan self entity callbacks =>
      HomeLoan_process self entity callbacks
  | Call_Repair cfg self structure entity callbacks =>
      RepairProgram_process cfg self structure entity callbacks
  end.

Definition cancellable_entity (c : Cancellable) : eref :=
  match c with
  | Call_IndividualAssistance _ entity _ => entity
  | Call_OwnersInsurance _ entity _ => entity
  | Call_HomeLoan _ entity _ => entity
  | Call_Repair _ _ _ entity _ => entity
  end.

(** The sentence of the [except Interrupt] handler. *)
Definition give_up_sentence (c : Cancellable) (name : string) (cause : Q)
  : StoryEntry :=
  match c with
  | Call_IndividualAssistance _ _ _ => Story_NRA_gave_up name cause
  | Call_OwnersInsurance _ _ _ => Story_claim_gave_up name cause
  | Call_HomeLoan _ _ _ => Story_loan_gave_up name cause
  | Call_Repair _ _ _ _ _ => Story_repair_gave_up name cause
  end.

(** What follows the handler: the callbacks, if any. *)
Definition after_give_up (c : Cancellable) : Outcome :=
  match c with
  | Call_IndividualAssistance _ _ (Some cb)
  | Call_OwnersInsurance _ _ (Some cb)
  | Call_HomeLoan _ _ (Some cb) => Waiting (EvProcess cb)
  | Call_Repair _ _ _ _ (Some _) => Crashed NameError
  | _ => Finished
  end.

Definition is_callbacks (ev : Event) : bool :=
  match ev with
  | EvProcess _ => true
  | _ => false
  end.

Definition all_sent (rs : list (Signal * World)) : Prop :=
  Forall (fun r => fst r = Send) rs.

(** Every [yield] of [g] hands an interrupt straight back as an exception. *)
Fixpoint raises_at_yields {A : Type} (g : Gen A) : Prop :=
  match g with
  | Ret _ | Raise _ => True
  | Read k => forall w, raises_at_yields (k w)
  | Store _ k => raises_at_yields k
  | Yield _ k =>
      (forall cause, k (Interrupted cause) = Raise (Interrupt cause))
      /\ raises_at_yields (k Send)
  end.

(** At every [yield] of [g] other than the one on the callbacks, an
    interrupt makes the process continue as [H cause]. *)
Fixpoint interrupt_goes_to {A : Type} (H : Q -> Gen A) (g : Gen A) : Prop :=
  match g with
  | Ret _ | Raise _ => True
  | Read k => forall w, interrupt_goes_to H (k w)
  | Store _ k => interrupt_goes_to H k
  | Yield ev k =>
      (is_callbacks ev = false -> forall cause, k (Interrupted cause) = H cause)
      /\ interrupt_goes_to H (k Send)
  end.

(** *** A small scenario *)

Definition example_building : Building :=
  mkBuilding "asha" 0 "Complete" "Stone" false false false false false false
             0 0 0 0 0 0 false false false 0 0 0
             300000 400000 200000 900000 900000.

Definition example_entity : Entity :=
  mkEntity "asha" true [] 0 10000 0 None None None None 0 None None 0 0 10000
           None None None None 0 None None None None None 0 0%nat 0 0.

(** Every pool has one slot, every container holds 30,000. *)
Definition example_world : World :=
  mkWorld 0 0 0 10 (fun _ => example_entity) (fun _ => example_building)
          (fun _ => mkResource (Fin 1) [] [])
          (fun _ => mkContainer Inf (Fin 30000) [] []).

Definition example_assistance : IndividualAssistance :=
  mkIndividualAssistance
    (mkFinancialRecoveryProgram 0%nat 0%nat (fun _ => 5)) Inf.

(** *** Vocabulary for runs *)

(** Every process a program can run. *)
Inductive ProgramCall : Type :=
| Run_Financial (self : FinancialRecoveryProgram) (entity : option eref)
| Run_Technical (self : TechnicalRecoveryProgram) (entity : option eref)
| Run_Inspection (self : TechnicalRecoveryProgram) (structure : bref)
    (entity : option eref) (callbacks : option Callback)
| Run_EngineeringAssessment (self : TechnicalRecoveryProgram)
    (structure : bref) (entity : eref) (callbacks : option Callback)
| Run_Permit (self : TechnicalRecoveryProgram) (structure : bref)
    (entity : eref) (callbacks : option Callback)
| Run_Cancellable (c : Cancellable).

Definition program_process (c : ProgramCall) : Gen unit :=
  match c with
  | Run_Financial self entity => FinancialRecoveryProgram_process self entity
  | Run_Technical self entity => TechnicalRecoveryProgram_process self entity
  | Run_Inspection self structure entity callbacks =>
      InspectionProgram_process self structure entity callbacks
  | Run_EngineeringAssessment self structure entity callbacks =>
      EngineeringAssessment_process self structure entity callbacks
  | Run_Permit self structure entity callbacks =>
      PermitProgram_process self structure entity callbacks
  | Run_Cancellable c => cancellable_process c
  end.

(** The code a process may be about to run at some point of its life: the
    whole generator, or what follows one of its [yield]s, whatever the
    scheduler answered. *)
Inductive reachable {A : Type} (g : Gen A) : Gen A -> Prop :=
| reach_start : reachable g g
| reach_resume (g' : Gen A) (w w' : World) (ev : Event)
    (k : Signal -> Gen A) (sig : Signal) :
    reachable g g' ->
    run_sync g' w = (w', Suspended ev k) ->
    reachable g (k sig).

(** One stretch of some process of some program: started or resumed in
    [w], it runs until [w']. *)
Inductive stretch : World -> World -> Prop :=
| stretch_of (call : ProgramCall) (g : Gen unit) (w w' : World)
    (s : Stop unit) :
    reachable (program_process call) g ->
    run_sync g w = (w', s) ->
    stretch w w'.

(** A run: stretches of processes, and in between steps that leave
    entities and buildings alone: the scheduler moving the clock or serving
    the queues of pools and containers, a program being constructed. *)
Inductive run : World -> World -> Prop :=
| run_end (w : World) : run w w
| run_program (w w' w'' : World) : stretch w w' -> run w' w'' -> run w w''
| run_other (w w' w'' : World) :
    entities w' = entities w -> buildings w' = buildings w ->
    run w' w'' -> run w w''.

(** The statement of monotonicity between two worlds. *)
Definition flags_kept (w w' : World) : Prop :=
  forall b : bref,
    (new_plinth (buildings w b) = true -> new_plinth (buildings w' b) = true)
    /\ (new_walls (buildings w b) = true -> new_walls (buildings w' b) = true)
    /\ (new_roof (buildings w b) = true -> new_roof (buildings w' b) = true).

(** Every write of [g] relates the world before to the world after by
    [R]. *)
Fixpoint writes_keep (R : World -> World -> Prop) {A : Type} (g : Gen A)
  : Prop :=
  match g with
  | Ret _ | Raise _ => True
  | Read k => forall w, writes_keep R (k w)
  | Store f k => (forall w, R w (f w)) /\ writes_keep R k
  | Yield _ k => forall s, writes_keep R (k s)
  end.

(** A world in which the plinth of every building stands. *)
Definition plinth_built_world : World :=
  mkWorld 0 0 0 10 (fun _ => example_entity)
          (fun _ => set_new_plinth true example_building)
          (fun _ => mkResource (Fin 1) [] [])
          (fun _ => mkContainer Inf (Fin 30000) [] []).

(** *** Vocabulary for the settlements *)

(** The amount IndividualAssistance asks for: 50,000 before the plinth,
    150,000 before the walls, 100,000 after. *)
Definition assistance_tier (p : Building) : Q :=
  if negb (new_plinth p) then 50000
  else if negb (new_walls p) then 150000
  else 100000.

(** The installment flag and time that go with the stage [before] was in,
    read in [after]. *)
Definition installment (before after : Building) : bool * Q :=
  if negb (new_plinth before) then (first_inst after, first_inst_time after)
  else if negb (new_walls before)
  then (second_inst after, second_inst_time after)
  else (third_inst after, third_inst_time after).

(** What a cancellable process does once its [try] statement is over. *)
Definition callbacks_outcome (callbacks : option Callback) : Outcome :=
  match callbacks with
  | Some cb => Waiting (EvProcess cb)
  | None => Finished
  end.

(** *** An insurance scenario: full coverage, a deductible of 10% *)

Definition insured_entity : Entity :=
  mkEntity "asha" true [] 1 10000 0 None None None None 0 None None 0 0 10000
           None None None None 0 None None None None None 0 0%nat 0 0.

Definition insured_world : World :=
  mkWorld 0 0 0 10 (fun _ => insured_entity) (fun _ => example_building)
          (fun _ => mkResource (Fin 1) [] [])
          (fun _ => mkContainer Inf (Fin 30000) [] []).

Definition example_insurance : OwnersInsurance :=
  mkOwnersInsurance (mkFinancialRecoveryProgram 0%nat 0%nat (fun _ => 5)) 0.1.

Definition example_loan : HomeLoan :=
  mkHomeLoan (mkFinancialRecoveryProgram 0%nat 0%nat (fun _ => 5))
             Inf (Fin 200000).

(** *** Vocabulary for Repair *)

(** The quantity of material [m] that [RepairProgram.process] computes for
    its stage ([cement_needed], [brick_needed], ...). *)
Definition needed (cfg : Config) (self : RepairProgram) (x : Entity)
  (m : Material) : Q :=
  let q :=
    cell_value
      (house_types cfg (owners_new_house cfg (name x)) m (rp_level self)) in
  match m with
  | Brick => q * 0.75
  | Wood => q * 0.7
  | Stone => q * 0.2
  | Aggregate => q * 0.5
  | _ => q
  end.

(** The container a material is drawn from; skilled labour is a pool. *)
Definition material_container (self : RepairProgram) (m : Material)
  : option cref :=
  match m with
  | Stone => Some (stone self)
  | Brick => Some (brick self)
  | Wood => Some (timber self)
  | Rebar => Some (rebar self)
  | Cement => Some (cement self)
  | CGI_Sheet => Some (cgi self)
  | Sand => Some (sand self)
  | Aggregate => Some (aggregate self)
  | Unskilled => Some (unskilled self)
  | Skilled => None
  end.

(** The materials whose level is checked, in the order of the checks, and
    those that are withdrawn, in the order of the withdrawals. *)
Definition checked_materials : list Material :=
  [Stone; Brick; Wood; Rebar; Cement; CGI_Sheet; Sand; Aggregate].

Definition withdrawn_materials : list Material :=
  [Stone; Brick; Wood; Rebar; Cement; CGI_Sheet; Sand; Aggregate; Unskilled].

(** [needed > container.level]. *)
Definition short (cfg : Config) (self : RepairProgram) (w : World)
  (entity : eref) (m : Material) : bool :=
  match material_container self m with
  | Some c =>
      num_ltb (level (containers w c))
              (Fin (needed cfg self (entities w entity) m))
  | None => false
  end.

Definition first_short (cfg : Config) (self : RepairProgram) (w : World)
  (entity : eref) : option Material :=
  find (short cfg self w entity) checked_materials.

Definition stage_cost (lvl : Stage) (s : Building) : Q :=
  match lvl with
  | Up_to_Plinth_Level => plinth_value s
  | Superstructure => wall_value s
  | Roofing => roof_value s
  end.

Definition material_word (m : Material) : string :=
  match m with
  | Stone => "stone"
  | Brick => "brick"
  | Wood => "timber"
  | Rebar => "rebar"
  | Cement => "cement"
  | CGI_Sheet => "CGI"
  | Sand => "sand"
  | Aggregate => "aggregate"
  | Skilled => "skilled"
  | Unskilled => "unskilled"
  end.

(** The word the code puts in the sentence: the timber check reuses the
    sentence of the stone check. *)
Definition word_in_sentence (m : Material) : string :=
  match m with
  | Wood => "stone"
  | _ => material_word m
  end.

(** The world right after the first [self.skilled.request()]. *)
Definition Repair_requested (self : RepairProgram) (entity : eref) (w : World)
  : World :=
  upd_resource (skilled self)
    (fun x => SimPy.trigger_put
                (mkResource (capacity x) (users x) (queue x ++ [next_id w])))
    (bump_id (upd_entity entity (set_rebuild_put (now w)) w)).

(** The withdrawals Repair makes: one for each material whose requirement
    is positive, in the order of [withdrawn_materials]. *)
Definition withdrawals (cfg : Config) (self : RepairProgram) (x : Entity)
  : list Activity :=
  flat_map
    (fun m =>
       match material_container self m with
       | Some c =>
           if Qlt_bool 0 (needed cfg self x m)
           then [Withdraws c (needed cfg self x m)]
           else []
       | None => []
       end)
    withdrawn_materials.

(** The resumptions that answer these withdrawals: [ws m] is the world in
    which the process is resumed after the withdrawal of material [m]. *)
Definition withdrawal_resumes (cfg : Config) (self : RepairProgram)
  (x : Entity) (ws : Material -> World) : list (Signal * World) :=
  flat_map
    (fun m =>
       if Qlt_bool 0 (needed cfg self x m) then [(Send, ws m)] else [])
    withdrawn_materials.

(** The world right after [resource.request()] and right after
    [resource.release(request)]. *)
Definition requested (r : rref) (w : World) : World :=
  upd_resource r
    (fun x => SimPy.trigger_put
                (mkResource (capacity x) (users x) (queue x ++ [next_id w])))
    (bump_id w).

Definition released (r : rref) (req : nat) (w : World) : World :=
  upd_resource r
    (fun x => mkResource (capacity x) (SimPy.remove_first req (users x))
                         (queue x))
    w.

(** The world right after [container.get(amount)], for a positive
    amount. *)
Definition got (c : cref) (amount : Q) (w : World) : World :=
  upd_container c
    (fun x =>
       let r := SimPy.trigger_get (level x)
                  (get_queue x ++ [(next_id w, amount)]) in
       mkContainer (c_capacity x) (fst r) (snd r) (put_queue x))
    (bump_id w).

(** The resumptions that answer the withdrawals of the materials [ms]. *)
Definition resumes_after (cfg : Config) (self : RepairProgram) (x : Entity)
  (ws : Material -> World) (ms : list Material) : list (Signal * World) :=
  flat_map
    (fun m =>
       if Qlt_bool 0 (needed cfg self x m) then [(Send, ws m)] else [])
    ms.

(** The world in which a process resumed as [rs] says was last resumed
    ([w] if [rs] is empty). *)
Definition last_resumed (rs : list (Signal * World)) (w : World) : World :=
  snd (last rs (Send, w)).

(** The three fields that record the completion of a stage. *)
Definition stage_complete (lvl : Stage) (s : Building) : bool :=
  match lvl with
  | Up_to_Plinth_Level => new_plinth s
  | Superstructure => new_walls s
  | Roofing => new_roof s
  end.

Definition stage_finished (lvl : Stage) (s : Building) : Q :=
  match lvl with
  | Up_to_Plinth_Level => finished_plinth s
  | Superstructure => finished_walls s
  | Roofing => finished_roof s
  end.

Definition stage_time (lvl : Stage) (s : Building) : Q :=
  match lvl with
  | Up_to_Plinth_Level => plinth_time s
  | Superstructure => walls_time s
  | Roofing => roof_time s
  end.

(** How a Repair that went through ends: [env.process] cannot be
    evaluated. *)
Definition repair_outcome (callbacks : option Callback) : Outcome :=
  match callbacks with
  | Some _ => Crashed NameError
  | None => Finished
  end.

(** *** A repair scenario

    A plinth that needs 2 units of stone (10 in the sheet), 8 days of
    skilled and 3 of unskilled labour.  The crew pool has four slots, every
    material container holds 100, except the unskilled-labour one
    (container 9), which is empty.  The owner has the money. *)

Definition repair_config : Config :=
  mkConfig (fun _ => "Type 1"%string)
           (fun _ m _ =>
              match m with
              | Stone => Int64 10
              | Skilled => Int64 8
              | Unskilled => Int64 3
              | _ => Int64 0
              end)
           (fun _ => Int64 1) (fun _ _ => Float64 1) (fun _ _ => Float64 1).

Definition repair_program : RepairProgram :=
  mkRepairProgram (mkTechnicalRecoveryProgram 10%nat (fun _ => 1))
                  1%nat 2%nat 3%nat 4%nat 5%nat 6%nat 7%nat 8%nat 9%nat
                  0%nat Up_to_Plinth_Level.

Definition rich_entity : Entity :=
  mkEntity "asha" true [] 0 500000 0 None None None None 0 None None 0 0
           500000 None None None None 0 None None None None None 0 0%nat 0 0.

Definition repair_world : World :=
  mkWorld 0 0 0 20 (fun _ => rich_entity) (fun _ => example_building)
          (fun _ => mkResource (Fin 4) [] [])
          (fun c => mkContainer Inf (if Nat.eqb c 9 then Fin 0 else Fin 100)
                                [] []).

(** The same scenario with unskilled labour in stock. *)
Definition stocked_world : World :=
  mkWorld 0 0 0 20 (fun _ => rich_entity) (fun _ => example_building)
          (fun _ => mkResource (Fin 4) [] [])
          (fun _ => mkContainer Inf (Fin 100) [] []).

(** The repair scenario with a crew pool of three. *)
Definition short_crew_world : World :=
  mkWorld 0 0 0 20 (fun _ => rich_entity) (fun _ => example_building)
          (fun _ => mkResource (Fin 3) [] [])
          (fun _ => mkContainer Inf (Fin 100) [] []).

(** The same scenario with no stone in stock and an owner who keeps no
    story. *)
Definition silent_entity : Entity :=
  mkEntity "asha" false [] 0 500000 0 None None None None 0 None None 0 0
           500000 None None None None 0 None None None None None 0 0%nat 0 0.

Definition stoneless_world : World :=
  mkWorld 0 0 0 20 (fun _ => silent_entity) (fun _ => example_building)
          (fun _ => mkResource (Fin 4) [] [])
          (fun c => mkContainer Inf (if Nat.eqb c 1 then Fin 0 else Fin 100)
                                [] []).

(** The same scenario for a house that needs timber (7 units, 10 in the
    sheet) when none is in stock (container 3). *)
Definition timber_config : Config :=
  mkConfig (fun _ => "Type 1"%string)
           (fun _ m _ =>
              match m with
              | Wood => Int64 10
              | Skilled => Int64 8
              | _ => Int64 0
              end)
           (fun _ => Int64 1) (fun _ _ => Float64 1) (fun _ _ => Float64 1).

Definition timberless_world : World :=
  mkWorld 0 0 0 20 (fun _ => rich_entity) (fun _ => example_building)
          (fun _ => mkResource (Fin 4) [] [])
          (fun c => mkContainer Inf (if Nat.eqb c 3 then Fin 0 else Fin 100)
                                [] []).

(** ** Vocabulary of the further properties *)

(** *** Vocabulary for the technical programs *)

(** The cost [InspectionProgram.process] puts in its sentence: the
    valuation of the first stage that is not built; [rebuild_cost] is not
    assigned when the three stages are built. *)
Definition next_stage_cost (s : Building) : option Q :=
  if negb (new_plinth s) then Some (plinth_value s)
  else if negb (new_walls s) then Some (wall_value s)
  else if negb (new_roof s) then Some (roof_value s)
  else None.

(** How a process of technical.py that names the unbound [env] ends. *)
Definition unbound_env_outcome (callbacks : option Callback) : Outcome :=
  match callbacks with
  | Some _ => Crashed NameError
  | None => Finished
  end.

(** A house whose three stages are built, and an owner who keeps a
    story. *)
Definition complete_building : Building :=
  set_new_roof true (set_new_walls true (set_new_plinth true example_building)).

Definition complete_world : World :=
  mkWorld 0 0 0 10 (fun _ => example_entity) (fun _ => complete_building)
          (fun _ => mkResource (Fin 1) [] [])
          (fun _ => mkContainer Inf (Fin 30000) [] []).

Definition example_inspection : TechnicalRecoveryProgram :=
  mkTechnicalRecoveryProgram 0%nat (fun _ => 5).

(** An owner who can pay for everything. *)
Definition wealthy_entity : Entity :=
  mkEntity "asha" true [] 0 1000000 0 None None None None 0 None None 0 0
           1000000 None None None None 0 None None None None None 0 0%nat 0 0.

Definition wealthy_world : World :=
  mkWorld 0 0 0 10 (fun _ => wealthy_entity) (fun _ => example_building)
          (fun _ => mkResource (Fin 1) [] [])
          (fun _ => mkContainer Inf (Fin 30000) [] []).

(** *** Vocabulary for interrupts outside a [try] block *)

(** The waits at which an interrupt is not caught: all of them in a process
    without a [try] statement, and the wait for the callbacks, which
    follows the [try] statement, in the four others. *)
Definition uncaught_event (call : ProgramCall) (ev : Event) : bool :=
  match call with
  | Run_Cancellable _ => is_callbacks ev
  | _ => true
  end.

(** At every [yield] of [g] on an event that [P] selects, however the
    process got there, an interrupt is handed back as an exception that
    nothing catches. *)
Fixpoint uncaught_at {A : Type} (P : Event -> bool) (g : Gen A) : Prop :=
  match g with
  | Ret _ | Raise _ => True
  | Read k => forall w, uncaught_at P (k w)
  | Store _ k => uncaught_at P k
  | Yield ev k =>
      (P ev = true ->
       forall cause, k (Interrupted cause) = Raise (Interrupt cause))
      /\ forall sig, uncaught_at P (k sig)
  end.

(** Every event [g] yields, however it is resumed, satisfies [P]. *)
Fixpoint events_all {A : Type} (P : Event -> bool) (g : Gen A) : Prop :=
  match g with
  | Ret _ | Raise _ => True
  | Read k => forall w, events_all P (k w)
  | Store _ k => events_all P k
  | Yield ev k => P ev = true /\ forall sig, events_all P (k sig)
  end.

(** [g] has no normal end: it never runs off its end and never
    returns. *)
Fixpoint never_returns {A : Type} (g : Gen A) : Prop :=
  match g with
  | Ret _ => False
  | Raise _ => True
  | Read k => forall w, never_returns (k w)
  | Store _ k => never_returns k
  | Yield _ k => forall sig, never_returns (k sig)
  end.

Definition example_permit : TechnicalRecoveryProgram :=
  mkTechnicalRecoveryProgram 0%nat (fun _ => 5).

(** *** Vocabulary for what every run keeps *)

(** Every write of [g], made in the world the code has reached, relates
    the world before it to the world after it by [R]; after a [yield] the
    code goes on in any world, with any signal. *)
Fixpoint steps_keep (R : World -> World -> Prop) {A : Type} (g : Gen A)
  (w : World) : Prop :=
  match g with
  | Ret _ | Raise _ => True
  | Read k => steps_keep R (k w) w
  | Store f k => R w (f w) /\ steps_keep R k (f w)
  | Yield _ k => forall sig w', steps_keep R (k sig) w'
  end.

(** Two worlds whose entities are related one by one by [P], and whose
    buildings by [Q]. *)
Definition kept (P : Entity -> Entity -> Prop)
  (Q : Building -> Building -> Prop) (w w' : World) : Prop :=
  (forall e, P (entities w e) (entities w' e))
  /\ (forall b, Q (buildings w b) (buildings w' b)).

Definition anything {A : Type} (a a' : A) : Prop := True.

(** A story only grows at its end, and not at all when [write_story] is
    off. *)
Definition story_grows (x x' : Entity) : Prop :=
  write_story x' = write_story x
  /\ (exists added, story x' = story x ++ added)
  /\ (write_story x = false -> story x' = story x).

(** The attributes an owner and a building are given at construction and
    that describe them: the columns of the input row and the valuation. *)
Definition same_inputs (x x' : Entity) : Prop :=
  name x' = name x
  /\ write_story x' = write_story x
  /\ insurance x' = insurance x
  /\ savings x' = savings x
  /\ income x' = income x
  /\ property x' = property x.

Definition same_valuation (s s' : Building) : Prop :=
  owner s' = owner s
  /\ remoteness s' = remoteness s
  /\ damage_state s' = damage_state s
  /\ btype s' = btype s
  /\ plinth_value s' = plinth_value s
  /\ wall_value s' = wall_value s
  /\ roof_value s' = roof_value s
  /\ damage_value s' = damage_value s
  /\ value s' = value s.

(** The marks the programs leave on a building, the three stage flags
    aside: once set they stay. *)
Definition marks_stay (s s' : Building) : Prop :=
  (inspected s = true -> inspected s' = true)
  /\ (permit s = true -> permit s' = true)
  /\ (assessment s = true -> assessment s' = true)
  /\ (first_inst s = true -> first_inst s' = true)
  /\ (second_inst s = true -> second_inst s' = true)
  /\ (third_inst s = true -> third_inst s' = true).

(** A time that has been recorded stays recorded (it may be replaced by a
    later one); [repair_put], [repair_get] and [gave_up_funding_search]
    stay what they are. *)
Definition stamps_stay (x x' : Entity) : Prop :=
  (inspection_put x <> None -> inspection_put x' <> None)
  /\ (inspection_get x <> None -> inspection_get x' <> None)
  /\ (claim_put x <> None -> claim_put x' <> None)
  /\ (claim_get x <> None -> claim_get x' <> None)
  /\ (assistance_put x <> None -> assistance_put x' <> None)
  /\ (assistance_get x <> None -> assistance_get x' <> None)
  /\ (loan_put x <> None -> loan_put x' <> None)
  /\ (loan_get x <> None -> loan_get x' <> None)
  /\ (permit_put x <> None -> permit_put x' <> None)
  /\ (permit_get x <> None -> permit_get x' <> None)
  /\ (assessment_put x <> None -> assessment_put x' <> None)
  /\ (assessment_get x <> None -> assessment_get x' <> None)
  /\ repair_put x' = repair_put x
  /\ repair_get x' = repair_get x
  /\ gave_up_funding_search x' = gave_up_funding_search x.

Definition debt_grows (x x' : Entity) : Prop := debt x <= debt x'.

(** *** Vocabulary for the footprint of a process *)

(** The entity a process writes to, if any. *)
Definition call_entity (call : ProgramCall) : option eref :=
  match call with
  | Run_Financial _ entity => entity
  | Run_Technical _ _ => None
  | Run_Inspection _ _ entity _ => entity
  | Run_EngineeringAssessment _ _ entity _ => Some entity
  | Run_Permit _ _ entity _ => Some entity
  | Run_Cancellable c => Some (cancellable_entity c)
  end.

(** The building a process is handed and marks, if any.  (RepairProgram
    and IndividualAssistance write to the entity's property.) *)
Definition call_structure (call : ProgramCall) : option bref :=
  match call with
  | Run_Inspection _ structure _ _ => Some structure
  | Run_EngineeringAssessment _ structure _ _ => Some structure
  | Run_Permit _ structure _ _ => Some structure
  | _ => None
  end.

(** The pool a process hires from. *)
Definition call_pool (call : ProgramCall) : rref :=
  match call with
  | Run_Financial self _ => staff self
  | Run_Technical self _ => t_staff self
  | Run_Inspection self _ _ _ => t_staff self
  | Run_EngineeringAssessment self _ _ _ => t_staff self
  | Run_Permit self _ _ _ => t_staff self
  | Run_Cancellable (Call_IndividualAssistance self _ _) => staff self
  | Run_Cancellable (Call_OwnersInsurance self _ _) => staff self
  | Run_Cancellable (Call_HomeLoan self _ _) => staff self
  | Run_Cancellable (Call_Repair _ self _ _ _) => skilled self
  end.

(** The containers a process draws on. *)
Definition call_containers (call : ProgramCall) : list cref :=
  match call with
  | Run_Financial self _ => [budget self]
  | Run_Cancellable (Call_IndividualAssistance self _ _) => [budget self]
  | Run_Cancellable (Call_Repair _ self _ _ _) =>
      [stone self; brick self; timber self; rebar self; cement self;
       cgi self; sand self; aggregate self; unskilled self]
  | _ => []
  end.

(** What a process may have changed between two worlds: its entity, the
    building it was handed and its entity's property, its pool and its
    containers.  Nobody's [property] changes. *)
Definition footprint (call : ProgramCall) (w w' : World) : Prop :=
  (forall e, call_entity call <> Some e -> entities w' e = entities w e)
  /\ (forall e, property (entities w' e) = property (entities w e))
  /\ (forall b,
        call_structure call <> Some b ->
        (forall e, call_entity call = Some e ->
                   property (entities w e) <> b) ->
        buildings w' b = buildings w b)
  /\ (forall r, r <> call_pool call -> resources w' r = resources w r)
  /\ (forall c, ~ In c (call_containers call) ->
                containers w' c = containers w c).
(** *** Vocabulary for construction and valuation *)

(** A cell that is not negative and, if it is an [int64], lies below
    [bound]. *)
Definition cell_below (bound : Z) (c : Cell) : Prop :=
  match c with
  | Int64 z => (0 <= z < bound)%Z
  | Float64 q => 0 <= q
  end.

(** Lookup tables without negative entries whose whole numbers stay below
    2^30 (about 10^9): no product of two of them, and no sum of three such
    products, leaves the 64 bits. *)
Definition tables_in_range (cfg : Config) : Prop :=
  (forall sheet m lvl, cell_below (2 ^ 30) (house_types cfg sheet m lvl))
  /\ (forall m, cell_below (2 ^ 30) (material_cost cfg m))
  /\ (forall t d, cell_below (2 ^ 30) (building_repair_ratio cfg t d))
  /\ (forall t d, cell_below (2 ^ 30) (building_repair_times cfg t d)).

Definition example_row : BuildingRow :=
  mkBuildingRow "asha" 4 "Complete" "Stone".

Definition example_owner_row : OwnerRow :=
  mkOwnerRow 0 5 0 example_row.

(** A building in town, and tables in which a bag of cement costs
    4,000,000,000 and a plinth takes 4,000,000,000 bags. *)
Definition town_row : BuildingRow :=
  mkBuildingRow "asha" 0 "Complete" "Stone".

Definition overflowing_config : Config :=
  mkConfig (fun _ => "Type 1"%string)
           (fun _ m _ =>
              match m with
              | Cement => Int64 4000000000
              | _ => Int64 0
              end)
           (fun m =>
              match m with
              | Cement => Int64 4000000000
              | _ => Int64 0
              end)
           (fun _ _ => Int64 1) (fun _ _ => Int64 1).

(** *** Vocabulary for a process alone in the simulation *)

(** A pool in which nobody waits and a slot is free. *)
Definition free_slot (r : Resource) : Prop :=
  queue r = []
  /\ num_ltb (Fin (of_nat (List.length (users r)))) (capacity r) = true.

(** A new owner with savings of 5 and a house to rebuild from the plinth
    up, valued with the tables of [repair_config]; the loan program has one
    processor and no ceiling. *)
Definition new_owner_world : World :=
  mkWorld 0 0 0 10
          (fun _ => fst (Owner_init repair_config "asha" example_owner_row
                                    0%nat true))
          (fun _ => snd (Owner_init repair_config "asha" example_owner_row
                                    0%nat true))
          (fun _ => mkResource (Fin 1) [] [])
          (fun _ => mkContainer Inf Inf [] []).

Definition open_loan : HomeLoan :=
  mkHomeLoan (mkFinancialRecoveryProgram 0%nat 0%nat (fun _ => 5)) Inf Inf.

(** *** Vocabulary for a repair alone in the simulation *)

(** The world after [if n > 0: yield container.get(n)] has filed its
    request, if any. *)
Definition taken (c : cref) (n : Q) (w : World) : World :=
  if Qlt_bool 0 n then got c n w else w.

(** The nine containers of a repair program, in the order of the
    withdrawals. *)
Definition repair_containers (self : RepairProgram) : list cref :=
  [stone self; brick self; timber self; rebar self; cement self; cgi self;
   sand self; aggregate self; unskilled self].

(** One normal resumption for each wait of a repair that goes through:
    four requests, one withdrawal for each positive requirement, one
    timeout. *)
Definition repair_signals (cfg : Config) (self : RepairProgram) (x : Entity)
  : list Signal :=
  [Send; Send; Send; Send]
  ++ flat_map
       (fun m => if Qlt_bool 0 (needed cfg self x m) then [Send] else [])
       withdrawn_materials
  ++ [Send].

(** The world after the withdrawals [cs], made one after the other and
    each served at once. *)
Fixpoint supplied (cs : list (cref * Q)) (v : World) : World :=
  match cs with
  | [] => v
  | (c, n) :: rest => supplied rest (taken c n v)
  end.

(** * Properties *)

(** ** Basic facts *)

Lemma upd_same {A : Type} (i : nat) (f : A -> A) (m : nat -> A) :
  upd i f m i = f (m i).
Proof. unfold upd. now rewrite Nat.eqb_refl. Qed.

Lemma upd_other {A : Type} (i j : nat) (f : A -> A) (m : nat -> A) :
  j <> i -> upd i f m j = m j.
Proof.
  intros Hne. unfold upd.
  destruct (Nat.eqb_spec j i) as [E|E]; [contradiction|reflexivity].
Qed.

Lemma told_resources e s w : resources (told e s w) = resources w.
Proof. unfold told. now destruct (write_story (entities w e)). Qed.

Lemma told_containers e s w : containers (told e s w) = containers w.
Proof. unfold told. now destruct (write_story (entities w e)). Qed.

Lemma told_buildings e s w : buildings (told e s w) = buildings w.
Proof. unfold told. now destruct (write_story (entities w e)). Qed.

Lemma told_money e s w e' :
  money_to_rebuild (entities (told e s w) e') = money_to_rebuild (entities w e').
Proof.
  unfold told. destruct (write_story (entities w e)); [|reflexivity].
  cbn. unfold upd. now destruct (Nat.eqb e' e).
Qed.

Lemma told_silent e s w : write_story (entities w e) = false -> told e s w = w.
Proof. unfold told. now intros ->. Qed.

Lemma told_story e s w :
  write_story (entities w e) = true ->
  story (entities (told e s w) e) = story (entities w e) ++ [s].
Proof. unfold told. intros ->. cbn. now rewrite upd_same. Qed.

Lemma run_sync_tell {A : Type} e sentence (h : unit -> Gen A) w :
  run_sync (bind (tell e sentence) h) w
  = run_sync (h tt) (told e (sentence w) w).
Proof.
  unfold tell, told. cbn.
  now destruct (write_story (entities w e)).
Qed.

#[local] Arguments Qle_bool : simpl never.
#[local] Arguments Qeq_bool : simpl never.
#[local] Arguments Qlt_bool : simpl never.
#[local] Arguments num_leb : simpl never.
#[local] Arguments num_ltb : simpl never.
#[local] Arguments Qplus : simpl never.
#[local] Arguments Qminus : simpl never.
#[local] Arguments Qmult : simpl never.
#[local] Arguments Qdiv : simpl never.

Ltac simp_world :=
  repeat (cbn; rewrite ?upd_same, ?Nat.eqb_refl).

(** Run the code as far as the facts [tac] rewrites with decide its tests. *)
Ltac run_code tac :=
  repeat (progress (cbn; rewrite ?upd_same, ?Nat.eqb_refl; tac)).

Lemma Qle_bool_true a b : a <= b -> Qle_bool a b = true.
Proof. apply Qle_bool_iff. Qed.

Lemma Qle_bool_false a b : b < a -> Qle_bool a b = false.
Proof.
  intros H. destruct (Qle_bool a b) eqn:E; [|reflexivity].
  apply Qle_bool_iff in E. exfalso. apply (Qlt_not_le _ _ H E).
Qed.

Lemma Qlt_bool_true a b : a < b -> Qlt_bool a b = true.
Proof. intros H. unfold Qlt_bool. now rewrite Qle_bool_false. Qed.

Lemma Qlt_bool_false a b : b <= a -> Qlt_bool a b = false.
Proof. intros H. unfold Qlt_bool. now rewrite Qle_bool_true. Qed.

Lemma Qle_bool_0_0 a : Qle_bool a 0.0 = Qle_bool a 0.
Proof. apply Qleb_comp; reflexivity. Qed.

Lemma Qlt_bool_0_0 a : Qlt_bool 0.0 a = Qlt_bool 0 a.
Proof. unfold Qlt_bool. f_equal. apply Qleb_comp; reflexivity. Qed.

(** ** Constructors *)

Lemma Resource_init_rejects staff :
  num_leb staff (Fin 0) = true -> SimPy.Resource_init staff = inl ValueError.
Proof. unfold SimPy.Resource_init. now intros ->. Qed.

Lemma Financial_init_rejects duration staff budget w :
  num_leb staff (Fin 0) = true \/ num_ltb budget (Fin 0) = true ->
  FinancialRecoveryProgram_init duration staff budget w = inl ValueError.
Proof.
  unfold FinancialRecoveryProgram_init, SimPy.Resource_init,
    SimPy.Container_init.
  intros [H|H].
  - now rewrite H.
  - destruct (num_leb staff (Fin 0)); [reflexivity|].
    cbn. now rewrite H.
Qed.

Lemma Technical_init_rejects duration staff w :
  num_leb staff (Fin 0) = true ->
  TechnicalRecoveryProgram_init duration staff w = inl ValueError.
Proof.
  intros H. unfold TechnicalRecoveryProgram_init.
  now rewrite (Resource_init_rejects _ H).
Qed.

(** C10, as the code has it.  The constructors check nothing themselves;
    what fails at construction time is the pool constructor on a
    non-positive [staff] and the container constructor on a negative
    [budget].  So every financial program refuses [staff <= 0] and
    [budget < 0], and every technical program refuses [staff <= 0]. *)
Theorem construction_rejects_bad_staff_and_negative_budget
  (duration : nat -> Q) (staff budget : num) (w : World) :
  (num_leb staff (Fin 0) = true \/ num_ltb budget (Fin 0) = true ->
   FinancialRecoveryProgram_init duration staff budget w = inl ValueError
   /\ (forall max_outlay,
         IndividualAssistance_init duration staff budget max_outlay w
         = inl ValueError)
   /\ (forall deductible,
         OwnersInsurance_init duration staff budget deductible w
         = inl ValueError)
   /\ (forall max_loan min_income,
         HomeLoan_init duration staff budget max_loan min_income w
         = inl ValueError))
  /\ (num_leb staff (Fin 0) = true ->
      TechnicalRecoveryProgram_init duration staff w = inl ValueError
      /\ InspectionProgram_init duration staff w = inl ValueError
      /\ EngineeringAssessment_init duration staff w = inl ValueError
      /\ PermitProgram_init duration staff w = inl ValueError
      /\ (forall entity build_stage stone brick timber rebar cement cgi
                 aggregate sand unskilled skilled,
            RepairProgram_init entity build_stage stone brick timber rebar
              cement cgi aggregate sand unskilled skilled duration staff w
            = inl ValueError)).
Proof.
  split.
  - intros H.
    unfold IndividualAssistance_init, OwnersInsurance_init, HomeLoan_init.
    rewrite (Financial_init_rejects duration staff budget w H).
    repeat split.
  - intros H.
    unfold InspectionProgram_init, EngineeringAssessment_init,
      PermitProgram_init, RepairProgram_init.
    rewrite (Technical_init_rejects duration staff w H).
    repeat split.
Qed.

Lemma construction_rejects_bad_staff_and_negative_budget_witness :
  (num_leb (Fin 0) (Fin 0) = true \/ num_ltb (Fin 5) (Fin 0) = true)
  /\ FinancialRecoveryProgram_init (fun _ => 5) (Fin 0) (Fin 5) example_world
     = inl ValueError
  /\ num_leb (Fin (-1)) (Fin 0) = true
  /\ TechnicalRecoveryProgram_init (fun _ => 5) (Fin (-1)) example_world
     = inl ValueError.
Proof.
  assert (H1 : num_leb (Fin 0) (Fin 0) = true
               \/ num_ltb (Fin 5) (Fin 0) = true) by (left; reflexivity).
  assert (H2 : num_leb (Fin (-1)) (Fin 0) = true) by reflexivity.
  split; [exact H1|split; [|split; [exact H2|]]].
  - exact (proj1 (proj1 (construction_rejects_bad_staff_and_negative_budget
                           (fun _ => 5) (Fin 0) (Fin 5) example_world) H1)).
  - exact (proj1 (proj2 (construction_rejects_bad_staff_and_negative_budget
                           (fun _ => 5) (Fin (-1)) Inf example_world) H2)).
Defined.

(** C10 as stated fails: a program with one member of staff and a budget of
    0 is constructed without error, around an empty container. *)
Lemma zero_budget_is_accepted :
  exists program w',
    IndividualAssistance_init (fun _ => 5) (Fin 1) (Fin 0) Inf example_world
    = inr (program, w')
    /\ level (containers w' (budget program)) = Fin 0
    /\ capacity (resources w' (staff program)) = Fin 1.
Proof. do 2 eexists. vm_compute. repeat split. Qed.

(** ** Interrupts inside a [try] block *)

Lemma raises_at_yields_bind {A B : Type} (g : Gen A) (h : A -> Gen B) :
  raises_at_yields g -> (forall a, raises_at_yields (h a)) ->
  raises_at_yields (bind g h).
Proof.
  induction g as [a|e|k IH|f k IH|ev k IH]; cbn; intros Hg Hh; auto.
  destruct Hg as [Hraise Hsend]. split.
  - intros cause. now rewrite Hraise.
  - now apply IH.
Qed.

Lemma raises_at_yields_yield ev : raises_at_yields (yield ev).
Proof. cbn. split; [reflexivity|exact I]. Qed.

Lemma raises_at_yields_tell e s : raises_at_yields (tell e s).
Proof. cbn. intros w. now destruct (write_story (entities w e)). Qed.

Lemma raises_at_yields_get c n : raises_at_yields (SimPy.get c n).
Proof. unfold SimPy.get. destruct (Qle_bool n 0); cbn; auto. Qed.

Lemma raises_at_yields_withdraw c n : raises_at_yields (withdraw c n).
Proof.
  unfold withdraw. destruct (Qlt_bool 0 n); [|exact I].
  apply raises_at_yields_bind; [apply raises_at_yields_get|].
  intros ev. apply raises_at_yields_yield.
Qed.

(** An interrupt that arrives inside the [try] block is answered by the
    handler, followed by what follows the [try] statement. *)
Lemma interrupt_goes_to_try {A B : Type}
  (body : Gen A) (handler : Q -> Gen A) (after : A -> Gen B) :
  raises_at_yields body ->
  (forall a, interrupt_goes_to (fun c => bind (handler c) after) (after a)) ->
  (forall c',
     interrupt_goes_to (fun c => bind (handler c) after)
                       (bind (handler c') after)) ->
  interrupt_goes_to (fun c => bind (handler c) after)
                    (bind (try_except_Interrupt body handler) after).
Proof.
  intros Hbody Hafter Hhandler.
  induction body as [a|e|k IH|f k IH|ev k IH]; cbn in *.
  - apply Hafter.
  - destruct e; cbn; try exact I. apply Hhandler.
  - intros w. now apply IH.
  - now apply IH.
  - destruct Hbody as [Hraise Hsend]. split.
    + intros _ cause. now rewrite Hraise.
    + now apply IH.
Qed.

Lemma interrupt_goes_to_run_sync {A : Type} (H : Q -> Gen A) (g : Gen A) :
  interrupt_goes_to H g ->
  forall w w' ev k,
    run_sync g w = (w', Suspended ev k) ->
    (is_callbacks ev = false -> forall cause, k (Interrupted cause) = H cause)
    /\ interrupt_goes_to H (k Send).
Proof.
  induction g as [a|e|k IH|f k IH|ev k IH]; cbn; intros Hg w w' ev' k' E;
    try discriminate.
  - eapply IH; eauto.
  - eapply IH; eauto.
  - inversion E; subst. exact Hg.
Qed.

Lemma interrupt_goes_to_resume_all {A : Type} (H : Q -> Gen A)
  (rs : list (Signal * World)) :
  all_sent rs ->
  forall (st : World * Stop A) w' ev k,
    (forall ev0 k0, snd st = Suspended ev0 k0 ->
       (is_callbacks ev0 = false ->
        forall cause, k0 (Interrupted cause) = H cause)
       /\ interrupt_goes_to H (k0 Send)) ->
    resume_all st rs = Some (w', Suspended ev k) ->
    is_callbacks ev = false ->
    forall cause, k (Interrupted cause) = H cause.
Proof.
  induction 1 as [|[sig w] rs Hsig Hrs IH]; cbn; intros st w' ev k Hst E Hev.
  - inversion E; subst. now apply (Hst ev k).
  - cbn in Hsig. subst sig.
    destruct (snd st) as [ev0 k0| |] eqn:Est; try discriminate.
    destruct (Hst ev0 k0 eq_refl) as [_ Hnext].
    eapply IH; eauto.
    intros ev1 k1 E1.
    destruct (run_sync (k0 Send) w) as [w1 s1] eqn:Erun. cbn in E1. subst s1.
    eapply interrupt_goes_to_run_sync; eauto.
Qed.

Lemma interrupt_goes_to_execute {A : Type} (H : Q -> Gen A) (g : Gen A)
  (w0 : World) (rs : list (Signal * World)) w' ev k :
  interrupt_goes_to H g ->
  all_sent rs ->
  execute g w0 rs = Some (w', Suspended ev k) ->
  is_callbacks ev = false ->
  forall cause, k (Interrupted cause) = H cause.
Proof.
  intros Hg Hrs E Hev. unfold execute in E.
  eapply interrupt_goes_to_resume_all; eauto.
  intros ev0 k0 E0.
  destruct (run_sync g w0) as [w1 s1] eqn:Erun. cbn in E0. subst s1.
  eapply interrupt_goes_to_run_sync; eauto.
Qed.

Lemma raises_at_yields_check_material c n e word (rest : Gen Flow) :
  raises_at_yields rest -> raises_at_yields (check_material c n e word rest).
Proof.
  intros Hrest. unfold check_material, get_container.
  cbn [bind raises_at_yields]. intros w.
  destruct (num_ltb (level (containers w c)) (Fin n)); [|exact Hrest].
  apply raises_at_yields_bind; [apply raises_at_yields_tell|].
  intros _. exact I.
Qed.

Ltac walk_yields :=
  lazymatch goal with
  | |- raises_at_yields (bind _ _) =>
      apply raises_at_yields_bind; [walk_yields | intros ?; walk_yields]
  | |- raises_at_yields (yield _) => apply raises_at_yields_yield
  | |- raises_at_yields (tell _ _) => apply raises_at_yields_tell
  | |- raises_at_yields (withdraw _ _) => apply raises_at_yields_withdraw
  | |- raises_at_yields (SimPy.get _ _) => apply raises_at_yields_get
  | |- raises_at_yields (check_material _ _ _ _ _) =>
      apply raises_at_yields_check_material; walk_yields
  | |- raises_at_yields (if ?b then _ else _) => destruct b; walk_yields
  | |- raises_at_yields (match ?x with _ => _ end) => destruct x; walk_yields
  | |- raises_at_yields (let _ := _ in _) => cbv zeta; walk_yields
  | |- raises_at_yields (Read _) =>
      cbn [raises_at_yields]; intros ?; walk_yields
  | |- _ => solve [cbn; intros; auto]
  end.

Lemma interrupt_goes_to_after_try (H : Q -> Gen unit)
  callbacks (flow : Flow) :
  interrupt_goes_to H
    match flow with
    | Return => Ret tt
    | Fallthrough => run_callbacks callbacks
    end.
Proof.
  destruct flow; [|exact I].
  destruct callbacks as [cb|]; cbn; auto. split; [discriminate|exact I].
Qed.

Lemma interrupt_goes_to_handler {B : Type} (H : Q -> Gen B) e sentence
  (after : Flow -> Gen B) :
  (forall flow, interrupt_goes_to H (after flow)) ->
  interrupt_goes_to H (bind (bind (tell e sentence) (fun _ => Ret Fallthrough))
                            after).
Proof.
  intros Hafter. unfold tell. cbn [bind interrupt_goes_to]. intros w.
  destruct (write_story (entities w e)); cbn; apply Hafter.
Qed.

Lemma run_sync_handler {B : Type} e sentence (after : Flow -> Gen B) w :
  run_sync (bind (bind (tell e sentence) (fun _ => Ret Fallthrough)) after) w
  = run_sync (after Fallthrough) (told e (sentence w) w).
Proof.
  unfold tell, told. cbn.
  now destruct (write_story (entities w e)).
Qed.

Lemma IndividualAssistance_interrupts self entity callbacks :
  exists (handler : Q -> Gen Flow) (after : Flow -> Gen unit),
    interrupt_goes_to (fun c => bind (handler c) after)
      (IndividualAssistance_process self entity callbacks)
    /\ forall c w,
         run_sync (bind (handler c) after) w
         = run_sync (run_callbacks callbacks)
             (told entity (Story_NRA_gave_up (name (entities w entity)) c) w).
Proof.
  unfold IndividualAssistance_process. do 2 eexists. split.
  - apply interrupt_goes_to_try;
      [ walk_yields
      | intros; apply interrupt_goes_to_after_try
      | intros; apply interrupt_goes_to_handler;
        intros; apply interrupt_goes_to_after_try ].
  - intros c w. apply run_sync_handler.
Qed.

Lemma OwnersInsurance_interrupts self entity callbacks :
  exists (handler : Q -> Gen Flow) (after : Flow -> Gen unit),
    interrupt_goes_to (fun c => bind (handler c) after)
      (OwnersInsurance_process self entity callbacks)
    /\ forall c w,
         run_sync (bind (handler c) after) w
         = run_sync (run_callbacks callbacks)
             (told entity (Story_claim_gave_up (name (entities w entity)) c)
                   w).
Proof.
  unfold OwnersInsurance_process. do 2 eexists. split.
  - apply interrupt_goes_to_try;
      [ walk_yields
      | intros; apply interrupt_goes_to_after_try
      | intros; apply interrupt_goes_to_handler;
        intros; apply interrupt_goes_to_after_try ].
  - intros c w. apply run_sync_handler.
Qed.

Lemma HomeLoan_interrupts self entity callbacks :
  exists (handler : Q -> Gen Flow) (after : Flow -> Gen unit),
    interrupt_goes_to (fun c => bind (handler c) after)
      (HomeLoan_process self entity callbacks)
    /\ forall c w,
         run_sync (bind (handler c) after) w
         = run_sync (run_callbacks callbacks)
             (told entity (Story_loan_gave_up (name (entities w entity)) c) w).
Proof.
  unfold HomeLoan_process. unfold get_entity at 1, get_building at 1.
  do 2 eexists. split.
  - cbn [bind interrupt_goes_to]. intros w1 w2.
    apply interrupt_goes_to_try;
      [ walk_yields
      | intros; apply interrupt_goes_to_after_try
      | intros; apply interrupt_goes_to_handler;
        intros; apply interrupt_goes_to_after_try ].
  - intros c w. apply run_sync_handler.
Qed.

Lemma RepairProgram_interrupts cfg self structure entity callbacks :
  exists (handler : Q -> Gen Flow) (after : Flow -> Gen unit),
    interrupt_goes_to (fun c => bind (handler c) after)
      (RepairProgram_process cfg self structure entity callbacks)
    /\ forall c w,
         run_sync (bind (handler c) after) w
         = run_sync (match callbacks with
                     | Some _ => Raise NameError
                     | None => Ret tt
                     end)
             (told entity (Story_repair_gave_up (name (entities w entity)) c)
                   w).
Proof.
  unfold RepairProgram_process. do 2 eexists. split.
  - unfold get_entity at 1. cbn [bind interrupt_goes_to]. intros w1.
    apply interrupt_goes_to_try.
    + walk_yields.
    + intros [|]; [|exact I]. now destruct callbacks.
    + intros c. apply interrupt_goes_to_handler.
      intros [|]; [|exact I]. now destruct callbacks.
  - intros c w. apply run_sync_handler.
Qed.

Lemma execute_snoc {A : Type} (g : Gen A) w0 rs sig w :
  execute g w0 (rs ++ [(sig, w)])
  = match execute g w0 rs with
    | Some (_, Suspended _ k) => Some (run_sync (k sig) w)
    | _ => None
    end.
Proof.
  unfold execute. generalize (run_sync g w0). clear g w0.
  induction rs as [|[sig' w'] rs IH]; intros st; cbn.
  - destruct st as [w1 [ev k|a|e]]; reflexivity.
  - destruct (snd st) as [ev k|a|e]; [apply IH|reflexivity|reflexivity].
Qed.

Lemma result_waiting {A : Type} (r : option (World * Stop A)) w ev :
  result r = Some (w, Waiting ev) ->
  exists k, r = Some (w, Suspended ev k).
Proof.
  destruct r as [[w1 [ev1 k|a|e]]|]; cbn; intros E; inversion E; subst.
  now exists k.
Qed.

(** C1, as the code has it.  An interrupt delivered to IndividualAssistance,
    OwnersInsurance, HomeLoan or Repair while it is suspended inside its
    [try] block (on a pool request, a timeout or a container get) only
    runs the handler: the give-up sentence with the supplied cause is
    appended when the entity keeps a story, and the process goes on to its
    callbacks.  No pool or container is touched, so every slot the process
    held at that moment stays held. *)
Theorem interrupt_records_give_up_and_keeps_slots
  (c : Cancellable) (w0 : World) (rs : list (Signal * World))
  (w' : World) (ev : Event) (cause : Q) (w : World) :
  all_sent rs ->
  result (execute (cancellable_process c) w0 rs) = Some (w', Waiting ev) ->
  is_callbacks ev = false ->
  let e := cancellable_entity c in
  let w'' := told e (give_up_sentence c (name (entities w e)) cause) w in
  result (execute (cancellable_process c) w0 (rs ++ [(Interrupted cause, w)]))
  = Some (w'', after_give_up c)
  /\ resources w'' = resources w
  /\ containers w'' = containers w
  /\ forall r, holders w'' r = holders w r.
Proof.
  intros Hrs Hexec Hev e w''.
  destruct (result_waiting _ _ _ Hexec) as [k Ek].
  split; [|subst w''; unfold holders; rewrite told_resources, told_containers;
           auto].
  rewrite execute_snoc, Ek. subst w'' e.
  destruct c as [self entity callbacks|self entity callbacks
                |self entity callbacks|cfg self structure entity callbacks];
    cbn [cancellable_process cancellable_entity give_up_sentence] in *.
  - destruct (IndividualAssistance_interrupts self entity callbacks)
      as (handler & after & Hgoes & Hrun).
    rewrite (interrupt_goes_to_execute _ _ _ _ _ _ _ Hgoes Hrs Ek Hev cause).
    rewrite Hrun. now destruct callbacks.
  - destruct (OwnersInsurance_interrupts self entity callbacks)
      as (handler & after & Hgoes & Hrun).
    rewrite (interrupt_goes_to_execute _ _ _ _ _ _ _ Hgoes Hrs Ek Hev cause).
    rewrite Hrun. now destruct callbacks.
  - destruct (HomeLoan_interrupts self entity callbacks)
      as (handler & after & Hgoes & Hrun).
    rewrite (interrupt_goes_to_execute _ _ _ _ _ _ _ Hgoes Hrs Ek Hev cause).
    rewrite Hrun. now destruct callbacks.
  - destruct (RepairProgram_interrupts cfg self structure entity callbacks)
      as (handler & after & Hgoes & Hrun).
    rewrite (interrupt_goes_to_execute _ _ _ _ _ _ _ Hgoes Hrs Ek Hev cause).
    rewrite Hrun. now destruct callbacks.
Qed.


Lemma interrupt_records_give_up_and_keeps_slots_witness :
  let c := Call_IndividualAssistance example_assistance 0%nat None in
  let w1 := fst (run_sync (cancellable_process c) example_world) in
  let w2 := bump_rng w1 in
  result (execute (cancellable_process c) example_world [(Send, w1)])
  = Some (w2, Waiting (EvTimeout 5))
  /\ result (execute (cancellable_process c) example_world
                     ([(Send, w1)] ++ [(Interrupted 7, w2)]))
     = Some (told 0%nat (Story_NRA_gave_up "asha" 7) w2, Finished)
  /\ holders (told 0%nat (Story_NRA_gave_up "asha" 7) w2) 0%nat
     = holders w2 0%nat.
Proof.
  intros c w1 w2.
  assert (H : result (execute (cancellable_process c) example_world
                              [(Send, w1)])
              = Some (w2, Waiting (EvTimeout 5))) by reflexivity.
  split; [exact H|].
  assert (Hsent : all_sent [(Send, w1)]) by (repeat constructor).
  destruct (interrupt_records_give_up_and_keeps_slots
              c example_world [(Send, w1)] w2 (EvTimeout 5) 7 w2
              Hsent H eq_refl)
    as (Hrun & _ & _ & Hholders).
  split; [exact Hrun|apply Hholders].
Defined.

(** C1 as stated fails: the assistance process holds the only slot of its
    pool and waits for its timeout when it is interrupted; it records the
    give-up and ends, and the slot is still taken: the pool has one holder,
    against none before the request. *)
Lemma interrupted_assistance_keeps_its_slot :
  let g := IndividualAssistance_process example_assistance 0%nat None in
  let st := alone (run_sync g example_world) [Send; Interrupted 7] in
  outcome (snd st) = Finished
  /\ story (entities (fst st) 0%nat)
     = [Story_NRA_submitted "asha" (Some 0); Story_NRA_gave_up "asha" 7]
  /\ holders example_world 0%nat = 0%nat
  /\ holders (fst st) 0%nat = 1%nat
  /\ users (resources (fst st) 0%nat) = [0%nat].
Proof. vm_compute. repeat split. Qed.

(** ** Settlements *)

Lemma num_leb_Fin a b : num_leb (Fin a) (Fin b) = Qle_bool a b.
Proof. reflexivity. Qed.

Lemma num_leb_Inf a : num_leb a Inf = true.
Proof. now destruct a. Qed.

Lemma Qle_bool_refl a : Qle_bool a a = true.
Proof. apply Qle_bool_iff, Qle_refl. Qed.

Lemma assistance_tier_not_zero p : Qeq_bool (assistance_tier p) 0 = false.
Proof.
  unfold assistance_tier.
  destruct (negb (new_plinth p)); [reflexivity|].
  destruct (negb (new_walls p)); reflexivity.
Qed.

(** Comparisons that contradict each other. *)
Ltac cmp_absurd :=
  exfalso;
  repeat match goal with
         | H : _ < _ |- _ =>
             pose proof (Qlt_bool_true _ _ H);
             pose proof (Qle_bool_false _ _ H); clear H
         | H : _ <= _ |- _ =>
             pose proof (Qle_bool_true _ _ H);
             pose proof (Qlt_bool_false _ _ H); clear H
         end;
  congruence.

(** C5.  An IndividualAssistance process whose entity lacks money requests
    a staff member, and once the request and the timeout have passed it
    settles against the budget container, on which no other withdrawal is
    pending.  With [r] the tier of the structure's stage and [L] the
    container's level at that moment:
    - [L >= r]: the payout is [r], the level goes down by [r], and the
      installment flag of the stage is set, with the current time;
    - else [L > 0]: the payout is [L] and the level goes to 0;
    - else the payout is 0 and the level stays.
    In every case [money_to_rebuild] has grown by the payout, and no
    withdrawal is left pending on the container. *)
Theorem IndividualAssistance_settles_against_the_budget
  self entity callbacks w0 w1 w2 :
  let g := IndividualAssistance_process self entity callbacks in
  let x0 := entities w0 entity in
  money_to_rebuild x0 < damage_value (buildings w0 (property x0)) ->
  get_queue (containers w2 (budget self)) = [] ->
  let x2 := entities w2 entity in
  let p := property x2 in
  let r := assistance_tier (buildings w2 p) in
  let L := level (containers w2 (budget self)) in
  exists w' o,
    result (execute g w0 [(Send, w1); (Send, w2)]) = Some (w', o)
    /\ let x' := entities w' entity in
       let L' := level (containers w' (budget self)) in
       assistance_request x' = r
       /\ get_queue (containers w' (budget self)) = []
       /\ money_to_rebuild x' == money_to_rebuild x2 + assistance_payout x'
       /\ (num_leb (Fin r) L = true ->
           assistance_payout x' = r
           /\ money_to_rebuild x' = money_to_rebuild x2 + r
           /\ L' = num_sub L r
           /\ installment (buildings w2 p) (buildings w' p) = (true, now w2))
       /\ (forall l, L = Fin l -> l < r -> 0 < l ->
           assistance_payout x' = l
           /\ money_to_rebuild x' = money_to_rebuild x2 + l
           /\ exists z, L' = Fin z /\ z == 0)
       /\ (forall l, L = Fin l -> l < r -> l <= 0 ->
           assistance_payout x' == 0 /\ L' = L).
Proof.
  intros g x0 Hmoney Hqueue x2 p r L.
  apply Qle_bool_false in Hmoney.
  pose proof (assistance_tier_not_zero (buildings w2 p)) as Htier.
  subst g x0. unfold IndividualAssistance_process, execute.
  unfold tell, get_entity, get_building, get_container, env_now, set_entity,
    set_building, modify, SimPy.get.
  subst r L p x2. unfold assistance_tier, installment in *.
  assert (T1 : Qle_bool 50000 0 = false) by reflexivity.
  assert (T2 : Qle_bool 150000 0 = false) by reflexivity.
  assert (T3 : Qle_bool 100000 0 = false) by reflexivity.
  destruct (write_story (entities w0 entity)) eqn:Ews;
    destruct (write_story (entities w2 entity)) eqn:Ews2;
    destruct (new_plinth (buildings w2 (property (entities w2 entity))))
      eqn:Eplinth;
    destruct (new_walls (buildings w2 (property (entities w2 entity))))
      eqn:Ewalls;
    cbn [negb] in *;
    destruct (level (containers w2 (budget self))) as [l|] eqn:EL.
  all: run_code ltac:(rewrite ?Hmoney, ?Ews, ?Ews2, ?Eplinth, ?Ewalls, ?EL,
                      ?Hqueue, ?Htier, ?T1, ?T2, ?T3).
  all: try match goal with
       | |- context [Qle_bool ?t ?l && _] =>
           destruct (Qle_bool t l) eqn:Efull;
           [|destruct (Qlt_bool 0 l) eqn:Epart;
             [assert (Tl : Qle_bool l 0 = false)
                by (unfold Qlt_bool in Epart;
                    now apply negb_true_iff in Epart)|]]
       end.
  all: run_code ltac:(rewrite ?Hmoney, ?Ews, ?Ews2, ?Eplinth, ?Ewalls, ?EL,
                      ?Hqueue, ?Htier, ?T1, ?T2, ?T3, ?Efull, ?Epart, ?Tl).
  all: try match goal with
       | |- context [run_callbacks ?c] => destruct c; cbn
       end.
  all: do 2 eexists; (split; [reflexivity|]).
  all: run_code ltac:(rewrite ?Hmoney, ?Ews, ?Ews2, ?Eplinth, ?Ewalls, ?EL,
                      ?Hqueue, ?Htier, ?T1, ?T2, ?T3, ?Efull, ?Epart, ?Tl,
                      ?num_leb_Fin, ?num_leb_Inf, ?Qle_bool_refl).
  all: split; [reflexivity|].
  all: split; [reflexivity|].
  all: split; [first [reflexivity|lra]|].
  all: split;
    [intros Hfull; first [discriminate Hfull|repeat split; reflexivity]|].
  all: split; intros l0 E Hlt Hcmp;
    first
      [ discriminate E
      | injection E as <-;
        first
          [ cmp_absurd
          | solve [repeat split; first [reflexivity|lra]]
          | repeat split; try reflexivity;
            exists (l - l); split; [reflexivity|lra] ] ].
Qed.

Lemma IndividualAssistance_settles_against_the_budget_witness :
  let g := IndividualAssistance_process example_assistance 0%nat None in
  money_to_rebuild (entities example_world 0%nat)
  < damage_value (buildings example_world 0%nat)
  /\ get_queue (containers example_world 0%nat) = []
  /\ exists w' o,
       result (execute g example_world
                 [(Send, example_world); (Send, example_world)])
       = Some (w', o)
       /\ assistance_request (entities w' 0%nat) = 50000
       /\ assistance_payout (entities w' 0%nat) = 30000
       /\ exists z, level (containers w' 0%nat) = Fin z /\ z == 0.
Proof.
  intros g.
  assert (H1 : money_to_rebuild (entities example_world 0%nat)
               < damage_value (buildings example_world 0%nat))
    by reflexivity.
  assert (H2 : get_queue (containers example_world 0%nat) = [])
    by reflexivity.
  split; [exact H1|split; [exact H2|]].
  destruct (IndividualAssistance_settles_against_the_budget
              example_assistance 0%nat None example_world example_world
              example_world H1 H2)
    as (w' & o & Hrun & Hrequest & _ & _ & _ & Hpartial & _).
  exists w', o. split; [exact Hrun|split; [exact Hrequest|]].
  assert (H3 : 30000 < 50000) by reflexivity.
  assert (H4 : 0 < 30000) by reflexivity.
  destruct (Hpartial 30000 eq_refl H3 H4) as (Hpayout & _ & Hlevel).
  split; [exact Hpayout|exact Hlevel].
Defined.

Lemma py_min_le_both m b : py_min (Fin m) b <= m /\ py_min (Fin m) b <= b.
Proof.
  unfold py_min, Qlt_bool. destruct (Qle_bool m b) eqn:E; cbn.
  - apply Qle_bool_iff in E. split; [apply Qle_refl|exact E].
  - split; [|apply Qle_refl].
    destruct (Qlt_le_dec b m) as [H|H]; [now apply Qlt_le_weak|].
    apply Qle_bool_iff in H. congruence.
Qed.

Lemma py_min_is_one m b : py_min m b = b \/ m = Fin (py_min m b).
Proof.
  destruct m as [m|]; cbn; [|now left].
  destruct (Qlt_bool b m); [now left|now right].
Qed.

(** C6.  A HomeLoan process whose entity cannot pay the current stage
    ([cost], read when the process starts) requests a loan processor, and
    once the request and the timeout have passed it stores
    [min(max_loan, cost - saved - claim_payout - assistance_payout)] in
    [loan_amount], where [saved] is the entity's savings while the plinth is
    not built and 0 afterwards.  The amount is stored as computed, also when
    it is zero or negative; it is added to [money_to_rebuild] and to [debt]
    exactly when it is strictly positive. *)
Theorem HomeLoan_amount_is_the_capped_shortfall
  self entity callbacks w0 w1 w2 :
  let g := HomeLoan_process self entity callbacks in
  let x0 := entities w0 entity in
  let cost := current_stage_value (buildings w0 (property x0)) in
  money_to_rebuild x0 < cost ->
  let x2 := entities w2 entity in
  let saved :=
    if negb (new_plinth (buildings w2 (property x2))) then savings x2 else 0 in
  let amount :=
    py_min (max_loan self)
           (cost - saved - claim_payout x2 - assistance_payout x2) in
  exists w',
    result (execute g w0 [(Send, w1); (Send, w2)])
    = Some (w', callbacks_outcome callbacks)
    /\ let x' := entities w' entity in
       loan_amount x' = amount
       /\ (0 < amount ->
           money_to_rebuild x' = money_to_rebuild x2 + amount
           /\ debt x' = debt x2 + amount)
       /\ (amount <= 0 ->
           money_to_rebuild x' = money_to_rebuild x2 /\ debt x' = debt x2).
Proof.
  intros g x0 cost Hmoney x2 saved amount.
  apply Qle_bool_false in Hmoney.
  subst g x0 cost. unfold HomeLoan_process, execute.
  unfold tell, get_entity, get_building, env_now, set_entity, modify.
  destruct (Qlt_bool 0.0 amount) eqn:Epos.
  - assert (Hpos : 0 < amount).
    { rewrite Qlt_bool_0_0 in Epos. unfold Qlt_bool in Epos.
      apply negb_true_iff in Epos.
      destruct (Qlt_le_dec 0 amount) as [H|H]; [exact H|].
      apply Qle_bool_iff in H. congruence. }
    subst x2 saved amount.
    destruct (write_story (entities w0 entity)) eqn:Ews;
      destruct (write_story (entities w2 entity)) eqn:Ews2;
      run_code ltac:(rewrite ?Hmoney, ?Ews, ?Ews2, ?Epos);
      (eexists; split; [destruct callbacks; reflexivity|]);
      simp_world;
      (split; [reflexivity|split; [intros _; split; reflexivity|]]);
      intros Hle; exfalso; apply (Qlt_not_le _ _ Hpos Hle).
  - assert (Hneg : amount <= 0).
    { rewrite Qlt_bool_0_0 in Epos. unfold Qlt_bool in Epos.
      apply negb_false_iff in Epos. now apply Qle_bool_iff. }
    subst x2 saved amount.
    destruct (write_story (entities w0 entity)) eqn:Ews;
      run_code ltac:(rewrite ?Hmoney, ?Ews, ?Epos);
      (eexists; split; [destruct callbacks; reflexivity|]);
      simp_world;
      (split; [reflexivity|split; [|intros _; split; reflexivity]]);
      intros Hpos; exfalso; apply (Qlt_not_le _ _ Hpos Hneg).
Qed.

Lemma HomeLoan_amount_is_the_capped_shortfall_witness :
  let g := HomeLoan_process example_loan 0%nat None in
  money_to_rebuild (entities example_world 0%nat)
  < current_stage_value (buildings example_world 0%nat)
  /\ exists w',
       result (execute g example_world
                 [(Send, example_world); (Send, example_world)])
       = Some (w', Finished)
       /\ loan_amount (entities w' 0%nat)
          = py_min (Fin 200000) (300000 - 10000 - 0 - 0).
Proof.
  intros g.
  assert (H : money_to_rebuild (entities example_world 0%nat)
              < current_stage_value (buildings example_world 0%nat))
    by reflexivity.
  split; [exact H|].
  destruct (HomeLoan_amount_is_the_capped_shortfall
              example_loan 0%nat None example_world example_world
              example_world H) as (w' & Hrun & Hamount & _).
  exists w'. split; [exact Hrun|exact Hamount].
Defined.

(** C7.  [claim_payout] is 0.0 when the owner is constructed, and
    OwnersInsurance on an entity [x] with property [p] does this:
    - coverage ratio [<= 0]: the process ends at once; no pool is touched
      and nothing is paid: [money_to_rebuild] and [claim_payout] stay as
      they are;
    - otherwise, with [deductible = value * coverage * deductible rate], a
      damage below the deductible ends the process at once as well, with
      the same guarantees, the time being recorded in [claim_get];
    - otherwise an adjuster is requested, and once the request and the
      timeout have passed, [claim_payout] is the damage less the
      deductible, it is added to [money_to_rebuild], [claim_get] is the
      current time and the adjuster is released. *)
Theorem OwnersInsurance_pays_damage_less_deductible
  self entity callbacks w0 w1 w2 :
  let g := OwnersInsurance_process self entity callbacks in
  let x := entities w0 entity in
  let p := buildings w0 (property x) in
  let deductible_amount := value p * insurance x * deductible self in
  (forall cfg name row ref story,
     claim_payout (fst (Owner_init cfg name row ref story)) = 0.0)
  /\ (insurance x <= 0 ->
   let w' := told entity (Story_no_insurance (name x)) w0 in
   run_sync g w0 = (w', Done tt)
   /\ resources w' = resources w0
   /\ forall e,
        money_to_rebuild (entities w' e) = money_to_rebuild (entities w0 e)
        /\ claim_payout (entities w' e) = claim_payout (entities w0 e))
  /\ (0 < insurance x ->
      damage_value p < deductible_amount ->
      exists w',
        run_sync g w0 = (w', Done tt)
        /\ resources w' = resources w0
        /\ claim_get (entities w' entity) = Some (now w0)
        /\ forall e,
             money_to_rebuild (entities w' e) = money_to_rebuild (entities w0 e)
             /\ claim_payout (entities w' e) = claim_payout (entities w0 e))
  /\ (0 < insurance x ->
      deductible_amount <= damage_value p ->
      let adjuster := next_id w0 in
      let x2 := entities w2 entity in
      let paid := damage_value (buildings w2 (property x2))
                  - deductible_amount in
      exists w0' w',
        result (execute g w0 [])
        = Some (w0', Waiting (EvRequest (staff self) adjuster))
        /\ result (execute g w0 [(Send, w1)])
           = Some (bump_rng w1, Waiting (EvTimeout (duration self (rng w1))))
        /\ result (execute g w0 [(Send, w1); (Send, w2)])
           = Some (w', callbacks_outcome callbacks)
        /\ claim_payout (entities w' entity) = paid
        /\ money_to_rebuild (entities w' entity) = money_to_rebuild x2 + paid
        /\ claim_get (entities w' entity) = Some (now w2)
        /\ users (resources w' (staff self))
           = SimPy.remove_first adjuster (users (resources w2 (staff self)))).
Proof.
  intros g x p deductible_amount. subst g.
  unfold OwnersInsurance_process, execute.
  split; [reflexivity|]. split; [|split].
  - intros Hins. apply Qle_bool_true in Hins.
    rewrite <- Qle_bool_0_0 in Hins. cbn zeta.
    rewrite told_resources. split; [|split; [reflexivity|]].
    + unfold get_entity at 1. cbn [bind try_except_Interrupt run_sync].
      fold x. rewrite Hins.
      unfold tell, told. cbn. fold x.
      now destruct (write_story x).
    + intros e. unfold told. destruct (write_story (entities w0 entity)); auto.
      cbn. unfold upd. now destruct (Nat.eqb e entity).
  - intros Hins Hdamage. apply Qle_bool_false in Hins.
    rewrite <- Qle_bool_0_0 in Hins. apply Qlt_bool_true in Hdamage.
    unfold get_entity at 1. cbn [bind try_except_Interrupt run_sync].
    fold x. rewrite Hins.
    unfold tell, get_entity, get_building, env_now, set_entity, modify.
    destruct (write_story x) eqn:Ews; subst x p deductible_amount;
      simp_world; rewrite ?Ews; simp_world; rewrite Hdamage; simp_world;
      rewrite ?Ews; simp_world;
      (eexists; split; [reflexivity|]); simp_world;
      (repeat split; cbn; unfold upd; destruct (Nat.eqb e entity);
       reflexivity).
  - intros Hins Hdamage. apply Qle_bool_false in Hins.
    rewrite <- Qle_bool_0_0 in Hins. apply Qlt_bool_false in Hdamage.
    unfold tell, get_entity, get_building, env_now, set_entity, modify.
    subst x p deductible_amount.
    destruct (write_story (entities w0 entity)) eqn:Ews;
      destruct (write_story (entities w2 entity)) eqn:Ews2;
      run_code ltac:(rewrite ?Hins, ?Hdamage, ?Ews, ?Ews2);
      (do 2 eexists; repeat split; try reflexivity;
       try (destruct callbacks; reflexivity);
       simp_world; reflexivity).
Qed.

Lemma OwnersInsurance_pays_damage_less_deductible_witness :
  let g := OwnersInsurance_process example_insurance 0%nat None in
  (insurance (entities example_world 0%nat) <= 0
   /\ run_sync g example_world
      = (told 0%nat (Story_no_insurance "asha") example_world, Done tt))
  /\ 0 < insurance (entities insured_world 0%nat)
  /\ 900000 * 1 * 0.1 <= damage_value (buildings insured_world 0%nat)
  /\ exists w',
       result (execute g insured_world
                 [(Send, insured_world); (Send, insured_world)])
       = Some (w', Finished)
       /\ claim_payout (entities w' 0%nat) = 900000 - 900000 * 1 * 0.1
       /\ money_to_rebuild (entities w' 0%nat)
          = 10000 + (900000 - 900000 * 1 * 0.1).
Proof.
  intros g.
  assert (H0 : insurance (entities example_world 0%nat) <= 0)
    by (apply Qle_bool_iff; reflexivity).
  assert (H1 : 0 < insurance (entities insured_world 0%nat)) by reflexivity.
  assert (H2 : 900000 * 1 * 0.1
               <= damage_value (buildings insured_world 0%nat))
    by (apply Qle_bool_iff; reflexivity).
  split; [split; [exact H0|]|split; [exact H1|split; [exact H2|]]].
  - exact (proj1 (proj1 (proj2
             (OwnersInsurance_pays_damage_less_deductible
                example_insurance 0%nat None
                example_world example_world example_world)) H0)).
  - destruct (proj2 (proj2 (proj2
                (OwnersInsurance_pays_damage_less_deductible
                   example_insurance 0%nat None
                   insured_world insured_world insured_world))) H1 H2) as (w0' & w' & _ & _ & Hrun & Hpaid & Hmoney & _).
    exists w'. split; [exact Hrun|split; [exact Hpaid|exact Hmoney]].
Defined.

(** ** Inspection without an entity *)

(** C9 at the input [entity = None].  The process requests an inspector,
    waits, marks the structure inspected and releases the inspector, and
    records no timestamp; then [entity.write_story] is evaluated on [None]
    and the process ends with an [AttributeError]. *)
Theorem Inspection_without_entity_raises self structure callbacks w0 w1 w2 :
  let g := InspectionProgram_process self structure None callbacks in
  let inspector := next_id w0 in
  let w' :=
    upd_resource (t_staff self)
      (fun x => mkResource (capacity x)
                           (SimPy.remove_first inspector (users x)) (queue x))
      (upd_building structure (set_inspected true) w2) in
  result (execute g w0 []) = Some
    (upd_resource (t_staff self)
       (fun x => SimPy.trigger_put
                   (mkResource (capacity x) (users x)
                               (queue x ++ [inspector])))
       (bump_id w0),
     Waiting (EvRequest (t_staff self) inspector))
  /\ result (execute g w0 [(Send, w1)])
     = Some (bump_rng w1, Waiting (EvTimeout (t_duration self (rng w1))))
  /\ result (execute g w0 [(Send, w1); (Send, w2)])
     = Some (w', Crashed AttributeError)
  /\ inspected (buildings w' structure) = true
  /\ entities w' = entities w2.
Proof.
  cbn. rewrite upd_same. repeat split.
Qed.

(** ** Repair: the precondition checks *)

Lemma run_sync_check_material {B : Type} c n e word (rest : Gen Flow)
  (handler : Q -> Gen Flow) (after : Flow -> Gen B) w :
  run_sync (bind (try_except_Interrupt (check_material c n e word rest)
                                       handler) after) w
  = if num_ltb (level (containers w c)) (Fin n)
    then run_sync (after Return)
                  (told e (Story_insufficient word (name (entities w e))) w)
    else run_sync (bind (try_except_Interrupt rest handler) after) w.
Proof.
  unfold check_material, get_container, tell, told. cbn.
  destruct (num_ltb (level (containers w c)) (Fin n)); [|reflexivity].
  cbn. now destruct (write_story (entities w e)).
Qed.

Lemma Repair_aborts_on_material cfg self structure entity callbacks w m :
  first_short cfg self w entity = Some m ->
  run_sync (RepairProgram_process cfg self structure entity callbacks) w
  = (told entity
       (Story_insufficient (word_in_sentence m) (name (entities w entity))) w,
     Done tt).
Proof.
  unfold first_short, checked_materials, short. cbn [find material_container].
  unfold RepairProgram_process. unfold get_entity at 1.
  cbn [bind run_sync]. unfold needed.
  repeat (rewrite run_sync_check_material;
          match goal with
          | |- context [if ?b then _ else _] => destruct b
          end;
          [intros E; inversion E; subst; reflexivity|]).
  discriminate.
Qed.

Lemma first_short_none cfg self w entity :
  first_short cfg self w entity = None ->
  forall m, In m checked_materials -> short cfg self w entity m = false.
Proof.
  intros Hnone m Hin. unfold first_short in Hnone.
  now apply (find_none _ _ Hnone).
Qed.

(** With every checked material in stock, the first stretch of
    [RepairProgram_process] runs through the eight checks. *)
Ltac pass_checks Hnone :=
  let Hok := fresh "Hok" in
  pose proof (first_short_none _ _ _ _ Hnone) as Hok;
  unfold checked_materials in Hok;
  let H1 := fresh in assert (H1 := Hok Stone ltac:(cbn; tauto));
  let H2 := fresh in assert (H2 := Hok Brick ltac:(cbn; tauto));
  let H3 := fresh in assert (H3 := Hok Wood ltac:(cbn; tauto));
  let H4 := fresh in assert (H4 := Hok Rebar ltac:(cbn; tauto));
  let H5 := fresh in assert (H5 := Hok Cement ltac:(cbn; tauto));
  let H6 := fresh in assert (H6 := Hok CGI_Sheet ltac:(cbn; tauto));
  let H7 := fresh in assert (H7 := Hok Sand ltac:(cbn; tauto));
  let H8 := fresh in assert (H8 := Hok Aggregate ltac:(cbn; tauto));
  clear Hok;
  cbn [short material_container needed] in H1, H2, H3, H4, H5, H6, H7, H8;
  unfold RepairProgram_process; unfold get_entity at 1;
  cbn [bind run_sync];
  rewrite !run_sync_check_material;
  rewrite H1, H2, H3, H4, H5, H6, H7, H8;
  clear H1 H2 H3 H4 H5 H6 H7 H8.

Lemma Repair_aborts_on_money cfg self structure entity callbacks w :
  first_short cfg self w entity = None ->
  Qlt_bool (money_to_rebuild (entities w entity))
           (stage_cost (rp_level self) (buildings w structure)) = true ->
  run_sync (RepairProgram_process cfg self structure entity callbacks) w
  = (told entity (Story_no_money_to_repair (name (entities w entity))) w,
     Done tt).
Proof.
  intros Hnone Hmoney. pass_checks Hnone.
  unfold get_building at 1, get_entity at 1.
  cbn [bind try_except_Interrupt run_sync].
  fold (stage_cost (rp_level self) (buildings w structure)).
  rewrite Hmoney.
  unfold tell, told. cbn.
  now destruct (write_story (entities w entity)).
Qed.

Lemma Repair_starts cfg self structure entity callbacks w :
  first_short cfg self w entity = None ->
  Qlt_bool (money_to_rebuild (entities w entity))
           (stage_cost (rp_level self) (buildings w structure)) = false ->
  result (execute (RepairProgram_process cfg self structure entity callbacks)
                  w [])
  = Some (Repair_requested self entity w,
          Waiting (EvRequest (skilled self) (next_id w))).
Proof.
  intros Hnone Hmoney. unfold execute. cbn [resume_all]. pass_checks Hnone.
  unfold get_building at 1, get_entity at 1.
  cbn [bind try_except_Interrupt run_sync].
  fold (stage_cost (rp_level self) (buildings w structure)).
  rewrite Hmoney.
  unfold get_entity at 1. cbn [bind try_except_Interrupt run_sync].
  unfold Qlt_bool in Hmoney. apply negb_false_iff in Hmoney.
  fold (stage_cost (rp_level self) (buildings w structure)).
  rewrite Hmoney.
  reflexivity.
Qed.

(** C3, as the code has it.  When one of the eight checked materials is
    short (the checks run in the order stone, brick, timber, rebar, cement,
    cgi, sand, aggregate), or they all pass and [money_to_rebuild] is below
    the stage cost, the process ends in its first stretch, before any
    suspension.  No pool, container or building is touched, and no
    [money_to_rebuild] changes.  The only trace is one story sentence, and
    only for an entity that keeps a story: it names the first short
    material (stone, brick, rebar, cement, CGI, sand or aggregate), or says
    that the money was missing.  Nothing is stated here about the wording
    of the sentence for timber. *)
Theorem Repair_aborts_before_any_suspension
  cfg self structure entity callbacks w :
  let x := entities w entity in
  let cost := stage_cost (rp_level self) (buildings w structure) in
  (exists m, first_short cfg self w entity = Some m)
  \/ (first_short cfg self w entity = None /\ money_to_rebuild x < cost) ->
  exists sentence : StoryEntry,
    let w' := told entity sentence w in
    run_sync (RepairProgram_process cfg self structure entity callbacks) w
    = (w', Done tt)
    /\ resources w' = resources w
    /\ containers w' = containers w
    /\ buildings w' = buildings w
    /\ (forall e,
          money_to_rebuild (entities w' e) = money_to_rebuild (entities w e))
    /\ (write_story x = false -> w' = w)
    /\ (write_story x = true ->
        story (entities w' entity) = story x ++ [sentence])
    /\ (forall m, first_short cfg self w entity = Some m -> m <> Wood ->
          sentence = Story_insufficient (material_word m) (name x))
    /\ (first_short cfg self w entity = None ->
        sentence = Story_no_money_to_repair (name x)).
Proof.
  intros x cost [[m Hm]|[Hnone Hmoney]];
    [|apply Qlt_bool_true in Hmoney].
  - exists (Story_insufficient (word_in_sentence m) (name x)).
    cbn zeta. rewrite told_resources, told_containers, told_buildings.
    repeat split; auto using told_money, told_silent, told_story.
    + now apply Repair_aborts_on_material.
    + intros m' Hm' Hwood. rewrite Hm in Hm'. inversion Hm'; subst m'.
      now destruct m.
    + intros Hnone. rewrite Hm in Hnone. discriminate.
  - exists (Story_no_money_to_repair (name x)).
    cbn zeta. rewrite told_resources, told_containers, told_buildings.
    repeat split; auto using told_money, told_silent, told_story.
    + now apply Repair_aborts_on_money.
    + intros m Hm. rewrite Hnone in Hm. discriminate.
Qed.

Lemma Repair_aborts_before_any_suspension_witness :
  (exists m, first_short repair_config repair_program stoneless_world 0%nat
             = Some m)
  /\ exists sentence : StoryEntry,
       run_sync (RepairProgram_process repair_config repair_program
                                       0%nat 0%nat None) stoneless_world
       = (told 0%nat sentence stoneless_world, Done tt).
Proof.
  assert (H : exists m,
             first_short repair_config repair_program stoneless_world 0%nat
             = Some m) by (exists Stone; reflexivity).
  split; [exact H|].
  destruct (Repair_aborts_before_any_suspension
              repair_config repair_program 0%nat 0%nat None stoneless_world
              (or_introl H)) as [sentence Hs].
  exists sentence. exact (proj1 Hs).
Defined.

(** C3 as stated fails: stone is short, the owner keeps no story, and the
    process ends leaving the world exactly as it was: nothing records which
    material was short. *)
Lemma shortage_of_a_silent_owner_is_not_recorded :
  first_short repair_config repair_program stoneless_world 0%nat = Some Stone
  /\ write_story (entities stoneless_world 0%nat) = false
  /\ run_sync (RepairProgram_process repair_config repair_program
                                     0%nat 0%nat None) stoneless_world
     = (stoneless_world, Done tt)
  /\ story (entities stoneless_world 0%nat) = [].
Proof. repeat split. Qed.

(** The sentence for a shortage of timber is the one for stone. *)
Example timber_shortage_is_told_as_stone :
  first_short timber_config repair_program timberless_world 0%nat = Some Wood
  /\ run_sync (RepairProgram_process timber_config repair_program
                                     0%nat 0%nat None) timberless_world
     = (told 0%nat (Story_insufficient "stone" "asha") timberless_world,
        Done tt).
Proof. repeat split. Qed.

(** ** Repair: the withdrawals *)

(** What [container.get(n)] does to a container on which no request is
    pending: it takes [n] at once when the level covers it, and leaves the
    request in the queue otherwise. *)
Lemma got_serves_or_queues c n w :
  get_queue (containers w c) = [] ->
  let request := EvGet c (next_id w) n in
  (num_leb (Fin n) (level (containers w c)) = true ->
   level (containers (got c n w) c) = num_sub (level (containers w c)) n
   /\ get_queue (containers (got c n w) c) = []
   /\ fired request (got c n w) = true)
  /\ (num_leb (Fin n) (level (containers w c)) = false ->
      level (containers (got c n w) c) = level (containers w c)
      /\ get_queue (containers (got c n w) c) = [(next_id w, n)]
      /\ fired request (got c n w) = false).
Proof.
  intros Hq. unfold got. cbn. rewrite !upd_same. cbn. rewrite Hq. cbn.
  destruct (num_leb (Fin n) (level (containers w c))); cbn;
    rewrite ?Nat.eqb_refl; repeat split; auto; discriminate.
Qed.

Lemma withdraw_is_a_get c n w :
  0 < n ->
  exists k,
    run_sync (withdraw c n) w
    = (got c n w, Suspended (EvGet c (next_id w) n) k).
Proof.
  intros Hn. unfold withdraw, SimPy.get.
  rewrite (Qlt_bool_true _ _ Hn), (Qle_bool_false _ _ Hn).
  eexists. reflexivity.
Qed.

(** The same inside the [try] statement of a process. *)
Lemma run_sync_withdraw {B : Type} c n (h : unit -> Gen Flow)
  (handler : Q -> Gen Flow) (after : Flow -> Gen B) w :
  Qlt_bool 0 n = true ->
  exists k,
    run_sync (bind (try_except_Interrupt (bind (withdraw c n) h) handler)
                   after) w
    = (got c n w, Suspended (EvGet c (next_id w) n) k).
Proof.
  intros Hn. unfold withdraw, SimPy.get. rewrite Hn.
  unfold Qlt_bool in Hn. apply negb_true_iff in Hn. rewrite Hn.
  eexists. reflexivity.
Qed.

#[local] Arguments withdraw : simpl never.

Lemma resume_all_withdraw {B : Type} c n (h : unit -> Gen Flow)
  (handler : Q -> Gen Flow) (after : Flow -> Gen B) w w1 rs :
  resume_all
    (run_sync (bind (try_except_Interrupt (bind (withdraw c n) h) handler)
                    after) w)
    ((if Qlt_bool 0 n then [(Send, w1)] else []) ++ rs)
  = resume_all
      (run_sync (bind (try_except_Interrupt (h tt) handler) after)
                (if Qlt_bool 0 n then w1 else w))
      rs.
Proof.
  unfold withdraw, SimPy.get.
  destruct (Qlt_bool 0 n) eqn:E; [|reflexivity].
  unfold Qlt_bool in E. apply negb_true_iff in E. rewrite E. reflexivity.
Qed.

Lemma last_resumed_nil w : last_resumed [] w = w.
Proof. reflexivity. Qed.

Lemma last_cons {A : Type} (a : A) (l : list A) (d : A) :
  last (a :: l) d = last l a.
Proof.
  revert a d. induction l as [|b l IH]; intros a d; [reflexivity|].
  change (last (a :: b :: l) d) with (last (b :: l) d).
  now rewrite !IH.
Qed.

Lemma last_resumed_cons r rs w :
  last_resumed (r :: rs) w = last_resumed rs (snd r).
Proof.
  unfold last_resumed. rewrite last_cons.
  destruct rs as [|r' rs]; [now destruct r as [[|cause] v]|].
  now rewrite !last_cons.
Qed.

Lemma last_resumed_if (b : bool) w1 rs w :
  last_resumed ((if b then [(Send, w1)] else []) ++ rs) w
  = last_resumed rs (if b then w1 else w).
Proof. destruct b; [apply last_resumed_cons|reflexivity]. Qed.

(** What the first stretches of a repair that starts are, whatever the
    worlds in which the process is resumed. *)
Ltac start_repair Hnone Hmoney self w0 structure :=
  pass_checks Hnone;
  unfold get_building at 1, get_entity at 1;
  cbn [bind try_except_Interrupt run_sync];
  fold (stage_cost (rp_level self) (buildings w0 structure));
  rewrite Hmoney;
  unfold get_entity at 1; cbn [bind try_except_Interrupt run_sync];
  unfold Qlt_bool in Hmoney; apply negb_false_iff in Hmoney;
  fold (stage_cost (rp_level self) (buildings w0 structure));
  rewrite Hmoney.
Lemma Repair_withdraws cfg self structure entity callbacks
  w0 w1 w2 w3 w4 ws earlier m later c :
  let g := RepairProgram_process cfg self structure entity callbacks in
  let x0 := entities w0 entity in
  let n := needed cfg self x0 m in
  let rs := [(Send, w1); (Send, w2); (Send, w3); (Send, w4)]
            ++ resumes_after cfg self x0 ws earlier in
  let v := last_resumed rs w0 in
  first_short cfg self w0 entity = None ->
  Qlt_bool (money_to_rebuild x0)
           (stage_cost (rp_level self) (buildings w0 structure)) = false ->
  withdrawn_materials = earlier ++ m :: later ->
  material_container self m = Some c ->
  0 < n ->
  result (execute g w0 rs) = Some (got c n v, Waiting (EvGet c (next_id v) n)).
Proof.
  intros g x0 n rs v Hnone Hmoney Hsplit Hc Hn.
  subst g x0 n rs v. unfold execute, resumes_after.
  apply Qlt_bool_true in Hn.
  unfold withdrawn_materials in Hsplit.
  do 9 (destruct earlier as [|? earlier];
        [ injection Hsplit as <- <-; cbn [material_container] in Hc;
          injection Hc as <-; cbn [needed] in Hn |-*;
          start_repair Hnone Hmoney self w0 structure;
          cbn [flat_map needed app];
          rewrite <- ?app_assoc; cbn [app];
          rewrite ?last_resumed_cons, ?last_resumed_if, ?last_resumed_nil;
          cbn [snd];
          cbn;
          rewrite ?resume_all_withdraw;
          cbn [resume_all];
          match goal with
          | |- context [run_sync (bind (try_except_Interrupt
                                          (bind (withdraw ?c ?n) ?h) ?H) ?a)
                                 ?w] =>
              destruct (run_sync_withdraw c n h H a w Hn) as [k ->]
          end;
          reflexivity
        | injection Hsplit as <- Hsplit ]).
  destruct earlier; discriminate.
Qed.

(** C2, as the code has it.  A shortage of one of the eight checked
    materials, found by the checks at the start, is a one-shot failure: the
    process ends in its first stretch and leaves every container and every
    pool as it was, so it queues on nothing.  When the checks and the money
    test pass, the first thing the process waits for is skilled labour, and
    no container has been asked for anything yet.  Once the four workers
    are granted, the process withdraws with [container.get]: for each of
    the nine materials [m], unskilled labour included, whose requirement is
    positive, and whatever the worlds [w1] to [w4] and [ws] in which the
    process is resumed until then, the stretch that follows the withdrawals
    of the materials before [m] files a get for the requirement with the
    container of [m] and ends suspended on it.  On a container with no
    request pending, that get is served at once when the level covers it;
    otherwise the level stays what it was, the request sits in the
    container's queue and the process is not resumed. *)
Theorem Repair_shortage_at_the_checks_is_one_shot
  cfg self structure entity callbacks w :
  let g := RepairProgram_process cfg self structure entity callbacks in
  let x := entities w entity in
  (forall m, first_short cfg self w entity = Some m ->
     exists w',
       run_sync g w = (w', Done tt)
       /\ containers w' = containers w
       /\ resources w' = resources w)
  /\ (first_short cfg self w entity = None ->
      stage_cost (rp_level self) (buildings w structure)
      <= money_to_rebuild x ->
      (exists w',
         result (execute g w [])
         = Some (w', Waiting (EvRequest (skilled self) (next_id w)))
         /\ containers w' = containers w)
      /\ forall w1 w2 w3 w4 ws earlier m later c,
           withdrawn_materials = earlier ++ m :: later ->
           material_container self m = Some c ->
           let n := needed cfg self x m in
           let rs := [(Send, w1); (Send, w2); (Send, w3); (Send, w4)]
                     ++ resumes_after cfg self x ws earlier in
           let v := last_resumed rs w in
           let request := EvGet c (next_id v) n in
           0 < n ->
           result (execute g w rs) = Some (got c n v, Waiting request)
           /\ (get_queue (containers v c) = [] ->
               num_leb (Fin n) (level (containers v c)) = true ->
               level (containers (got c n v) c)
               = num_sub (level (containers v c)) n
               /\ fired request (got c n v) = true)
           /\ (get_queue (containers v c) = [] ->
               num_leb (Fin n) (level (containers v c)) = false ->
               level (containers (got c n v) c) = level (containers v c)
               /\ get_queue (containers (got c n v) c) = [(next_id v, n)]
               /\ fired request (got c n v) = false)).
Proof.
  intros g x. split.
  - intros m Hm. eexists.
    split; [exact (Repair_aborts_on_material _ _ _ _ _ _ m Hm)|].
    now rewrite told_resources, told_containers.
  - intros Hnone Hmoney. apply Qlt_bool_false in Hmoney. split.
    + eexists.
      split; [exact (Repair_starts _ _ _ _ _ _ Hnone Hmoney)|].
      reflexivity.
    + intros w1 w2 w3 w4 ws earlier m later c Hsplit Hc n rs v request Hn.
      split; [now apply (Repair_withdraws _ _ _ _ _ _ _ _ _ _ _ _ _ later)|].
      split; intros Hq Hlevel;
        destruct (got_serves_or_queues c n v Hq) as [Hserved Hqueued].
      * destruct (Hserved Hlevel) as (Hl & _ & Hf). now split.
      * exact (Hqueued Hlevel).
Qed.

Lemma Repair_shortage_at_the_checks_is_one_shot_witness :
  first_short repair_config repair_program stoneless_world 0%nat = Some Stone
  /\ exists w',
       run_sync (RepairProgram_process repair_config repair_program
                                       0%nat 0%nat None) stoneless_world
       = (w', Done tt)
       /\ containers w' = containers stoneless_world
       /\ resources w' = resources stoneless_world.
Proof.
  split; [reflexivity|].
  apply (proj1 (Repair_shortage_at_the_checks_is_one_shot
                  repair_config repair_program 0%nat 0%nat None
                  stoneless_world) Stone).
  reflexivity.
Defined.

(** C2 as stated fails: every checked material is in stock, the crew of
    four is hired and the stone withdrawn, and then the process is suspended
    on the unskilled-labour container, whose level (0) does not cover the 3
    units asked for; the request sits in the container's queue. *)
Lemma Repair_queues_on_the_unskilled_labour_container :
  let g := RepairProgram_process repair_config repair_program
                                 0%nat 0%nat None in
  let st := alone (run_sync g repair_world) [Send; Send; Send; Send; Send] in
  first_short repair_config repair_program repair_world 0%nat = None
  /\ outcome (snd st) = Waiting (EvGet 9%nat 5%nat 3)
  /\ fired (EvGet 9%nat 5%nat 3) (fst st) = false
  /\ get_queue (containers (fst st) 9%nat) = [(5%nat, 3)]
  /\ level (containers (fst st) 9%nat) = Fin 0
  /\ holders (fst st) 0%nat = 4%nat.
Proof. vm_compute. repeat split. Qed.

(** ** Repair: the rebuild *)

Lemma segments_withdraw {B : Type} c n (h : unit -> Gen Flow)
  (handler : Q -> Gen Flow) (after : Flow -> Gen B) w w1 rs :
  activities
    (segments
       (run_sync (bind (try_except_Interrupt (bind (withdraw c n) h) handler)
                       after) w)
       ((if Qlt_bool 0 n then [(Send, w1)] else []) ++ rs))
  = (if Qlt_bool 0 n then [Withdraws c n] else [])
    ++ activities
         (segments
            (run_sync (bind (try_except_Interrupt (h tt) handler) after)
                      (if Qlt_bool 0 n then w1 else w))
            rs).
Proof.
  unfold withdraw, SimPy.get.
  destruct (Qlt_bool 0 n) eqn:E; [|reflexivity].
  unfold Qlt_bool in E. apply negb_true_iff in E. rewrite E. reflexivity.
Qed.

Lemma Repair_history cfg self structure entity callbacks w0 w1 w2 w3 w4 ws wl :
  first_short cfg self w0 entity = None ->
  Qlt_bool (money_to_rebuild (entities w0 entity))
           (stage_cost (rp_level self) (buildings w0 structure)) = false ->
  activities
    (segments
       (run_sync (RepairProgram_process cfg self structure entity callbacks)
                 w0)
       ([(Send, w1); (Send, w2); (Send, w3); (Send, w4)]
        ++ withdrawal_resumes cfg self (entities w0 entity) ws
        ++ [(Send, wl)]))
  = [Requests (skilled self); Requests (skilled self);
     Requests (skilled self); Requests (skilled self)]
    ++ withdrawals cfg self (entities w0 entity)
    ++ [Waits (needed cfg self (entities w0 entity) Skilled / 4);
        activity (repair_outcome callbacks)].
Proof.
  intros Hnone Hmoney. start_repair Hnone Hmoney self w0 structure.
  unfold withdrawal_resumes, withdrawals, withdrawn_materials.
  cbn [flat_map material_container needed app].
  rewrite <- !app_assoc. cbn [app].
  cbn.
  repeat match goal with
         | |- context [map (fun s => activity (snd s)) ?x] =>
             change (map (fun s => activity (snd s)) x) with (activities x)
         end.
  rewrite !segments_withdraw.
  do 4 f_equal.
  repeat (f_equal; []).
  destruct (write_story (entities wl entity)) eqn:Ews;
    destruct (rp_level self); destruct callbacks;
    run_code ltac:(rewrite ?Ews); reflexivity.
Qed.

(** The four stretches in which the crew is asked for: each files a
    request with the skilled pool and ends suspended on it. *)
Lemma Repair_hires cfg self structure entity callbacks w :
  first_short cfg self w entity = None ->
  Qlt_bool (money_to_rebuild (entities w entity))
           (stage_cost (rp_level self) (buildings w structure)) = false ->
  exists k,
    run_sync (RepairProgram_process cfg self structure entity callbacks) w
    = (Repair_requested self entity w,
       Suspended (EvRequest (skilled self) (next_id w)) k)
    /\ forall w1,
         exists k1,
           run_sync (k Send) w1
           = (requested (skilled self) w1,
              Suspended (EvRequest (skilled self) (next_id w1)) k1)
           /\ forall w2,
                exists k2,
                  run_sync (k1 Send) w2
                  = (requested (skilled self) w2,
                     Suspended (EvRequest (skilled self) (next_id w2)) k2)
                  /\ forall w3,
                       exists k3,
                         run_sync (k2 Send) w3
                         = (requested (skilled self) w3,
                            Suspended (EvRequest (skilled self) (next_id w3))
                                      k3).
Proof.
  intros Hnone Hmoney. start_repair Hnone Hmoney self w structure.
  eexists. split; [reflexivity|].
  intros w1. eexists. split; [reflexivity|].
  intros w2. eexists. split; [reflexivity|].
  intros w3. eexists. reflexivity.
Qed.

Lemma Repair_requests cfg self structure entity callbacks w0 w1 w2 w3 :
  let g := RepairProgram_process cfg self structure entity callbacks in
  let s := skilled self in
  first_short cfg self w0 entity = None ->
  Qlt_bool (money_to_rebuild (entities w0 entity))
           (stage_cost (rp_level self) (buildings w0 structure)) = false ->
  result (execute g w0 [])
  = Some (Repair_requested self entity w0, Waiting (EvRequest s (next_id w0)))
  /\ result (execute g w0 [(Send, w1)])
     = Some (requested s w1, Waiting (EvRequest s (next_id w1)))
  /\ result (execute g w0 [(Send, w1); (Send, w2)])
     = Some (requested s w2, Waiting (EvRequest s (next_id w2)))
  /\ result (execute g w0 [(Send, w1); (Send, w2); (Send, w3)])
     = Some (requested s w3, Waiting (EvRequest s (next_id w3))).
Proof.
  intros g s Hnone Hmoney. subst g s. unfold execute.
  destruct (Repair_hires cfg self structure entity callbacks w0 Hnone Hmoney)
    as (k & E0 & Hk).
  destruct (Hk w1) as (k1 & E1 & Hk1).
  destruct (Hk1 w2) as (k2 & E2 & Hk2).
  destruct (Hk2 w3) as (k3 & E3).
  cbn [resume_all]. rewrite E0. cbn [snd resume_all].
  rewrite E1. cbn [snd resume_all]. rewrite E2. cbn [snd resume_all].
  rewrite E3.
  split; [|split; [|split]]; reflexivity.
Qed.

(** The stretch that follows the last withdrawal changes nothing and ends
    on the timeout. *)
Lemma Repair_waits cfg self structure entity callbacks w0 w1 w2 w3 w4 ws :
  let g := RepairProgram_process cfg self structure entity callbacks in
  let x0 := entities w0 entity in
  let rs := [(Send, w1); (Send, w2); (Send, w3); (Send, w4)]
            ++ withdrawal_resumes cfg self x0 ws in
  first_short cfg self w0 entity = None ->
  Qlt_bool (money_to_rebuild x0)
           (stage_cost (rp_level self) (buildings w0 structure)) = false ->
  result (execute g w0 rs)
  = Some (last_resumed rs w0,
          Waiting (EvTimeout (needed cfg self x0 Skilled / 4))).
Proof.
  intros g x0 rs Hnone Hmoney. subst g x0 rs. unfold execute.
  start_repair Hnone Hmoney self w0 structure.
  unfold withdrawal_resumes, withdrawn_materials.
  cbn [flat_map needed app].
  rewrite <- ?app_assoc. cbn [app].
  rewrite ?last_resumed_cons, ?last_resumed_if, ?last_resumed_nil.
  cbn [snd].
  cbn.
  rewrite !resume_all_withdraw.
  reflexivity.
Qed.

Lemma Repair_result cfg self structure entity callbacks w0 w1 w2 w3 w4 ws wl :
  first_short cfg self w0 entity = None ->
  Qlt_bool (money_to_rebuild (entities w0 entity))
           (stage_cost (rp_level self) (buildings w0 structure)) = false ->
  let xl := entities wl entity in
  let s := skilled self in
  exists w',
    result
      (execute (RepairProgram_process cfg self structure entity callbacks) w0
         ([(Send, w1); (Send, w2); (Send, w3); (Send, w4)]
          ++ withdrawal_resumes cfg self (entities w0 entity) ws
          ++ [(Send, wl)]))
    = Some (w', repair_outcome callbacks)
    /\ users (resources w' s)
       = fold_left (fun us r => SimPy.remove_first r us)
           [next_id w0; next_id w1; next_id w2; next_id w3]
           (users (resources wl s))
    /\ capacity (resources w' s) = capacity (resources wl s)
    /\ queue (resources w' s) = queue (resources wl s)
    /\ (forall r, r <> s -> resources w' r = resources wl r)
    /\ containers w' = containers wl
    /\ now w' = now wl
    /\ money_to_rebuild (entities w' entity)
       = money_to_rebuild xl - stage_cost (rp_level self) (buildings wl structure)
    /\ rebuild_get (entities w' entity) = now wl
    /\ stage_complete (rp_level self) (buildings w' (property xl)) = true
    /\ stage_finished (rp_level self) (buildings w' (property xl)) = now wl
    /\ stage_time (rp_level self) (buildings w' (property xl))
       = now wl - rebuild_put xl.
Proof.
  intros Hnone Hmoney xl s. subst xl s. unfold execute.
  start_repair Hnone Hmoney self w0 structure.
  unfold withdrawal_resumes, withdrawn_materials.
  cbn [flat_map needed app].
  rewrite <- !app_assoc. cbn [app].
  cbn.
  rewrite !resume_all_withdraw.
  destruct (write_story (entities wl entity)) eqn:Ews;
    destruct (rp_level self); destruct callbacks;
    run_code ltac:(rewrite ?Ews);
    (eexists; split; [reflexivity|]);
    run_code ltac:(rewrite ?Ews);
    repeat split; try reflexivity;
    try (intros r Hr; unfold upd;
         destruct (Nat.eqb_spec r (skilled self)); [contradiction|reflexivity]);
    unfold upd; destruct (Nat.eqb structure (property (entities wl entity)));
    reflexivity.
Qed.

(** C4, as the code has it.  A Repair whose eight material checks pass and
    whose entity can pay the stage, and which is resumed normally each time
    it waits (in whatever state the rest of the simulation has left the
    world: [w1] to [w4] after the labour requests, [ws m] after the
    withdrawal of material [m], [wl] after the timeout), goes through these
    stretches:
    - four times, one after the other, it files a request with the
      skilled-labour pool and waits for that request;
    - then, for each material whose requirement is positive, unskilled
      labour included, and for no other, it files a get for that
      requirement with the material's container and waits for it;
    - then, changing nothing, it waits for the stage's skilled effort
      divided by 4;
    - and then, in one stretch, it releases the four requests, takes the
      stage's cost off [money_to_rebuild], sets the stage's flag, its
      completion time (now) and its duration (now less [rebuild_put]),
      leaves the clock, the containers and the other pools alone, and ends
      (with a [NameError] if callbacks were passed). *)
Theorem Repair_rebuilds_the_stage
  cfg self structure entity callbacks w0 w1 w2 w3 w4 ws wl :
  let g := RepairProgram_process cfg self structure entity callbacks in
  let s := skilled self in
  let x0 := entities w0 entity in
  let xl := entities wl entity in
  let hired := [(Send, w1); (Send, w2); (Send, w3); (Send, w4)] in
  let served := hired ++ withdrawal_resumes cfg self x0 ws in
  let rs := hired ++ withdrawal_resumes cfg self x0 ws ++ [(Send, wl)] in
  let crew := [next_id w0; next_id w1; next_id w2; next_id w3] in
  first_short cfg self w0 entity = None ->
  stage_cost (rp_level self) (buildings w0 structure) <= money_to_rebuild x0 ->
  activities (segments (run_sync g w0) rs)
  = [Requests s; Requests s; Requests s; Requests s]
    ++ withdrawals cfg self x0
    ++ [Waits (needed cfg self x0 Skilled / 4);
        activity (repair_outcome callbacks)]
  /\ result (execute g w0 [])
     = Some (Repair_requested self entity w0,
             Waiting (EvRequest s (next_id w0)))
  /\ result (execute g w0 [(Send, w1)])
     = Some (requested s w1, Waiting (EvRequest s (next_id w1)))
  /\ result (execute g w0 [(Send, w1); (Send, w2)])
     = Some (requested s w2, Waiting (EvRequest s (next_id w2)))
  /\ result (execute g w0 [(Send, w1); (Send, w2); (Send, w3)])
     = Some (requested s w3, Waiting (EvRequest s (next_id w3)))
  /\ (forall earlier m later c,
        withdrawn_materials = earlier ++ m :: later ->
        material_container self m = Some c ->
        let n := needed cfg self x0 m in
        let before := hired ++ resumes_after cfg self x0 ws earlier in
        let v := last_resumed before w0 in
        0 < n ->
        result (execute g w0 before)
        = Some (got c n v, Waiting (EvGet c (next_id v) n)))
  /\ result (execute g w0 served)
     = Some (last_resumed served w0,
             Waiting (EvTimeout (needed cfg self x0 Skilled / 4)))
  /\ exists w',
       result (execute g w0 rs) = Some (w', repair_outcome callbacks)
       /\ users (resources w' s)
          = fold_left (fun us r => SimPy.remove_first r us) crew
              (users (resources wl s))
       /\ capacity (resources w' s) = capacity (resources wl s)
       /\ queue (resources w' s) = queue (resources wl s)
       /\ (forall r, r <> s -> resources w' r = resources wl r)
       /\ containers w' = containers wl
       /\ now w' = now wl
       /\ money_to_rebuild (entities w' entity)
          = money_to_rebuild xl
            - stage_cost (rp_level self) (buildings wl structure)
       /\ rebuild_get (entities w' entity) = now wl
       /\ stage_complete (rp_level self) (buildings w' (property xl)) = true
       /\ stage_finished (rp_level self) (buildings w' (property xl)) = now wl
       /\ stage_time (rp_level self) (buildings w' (property xl))
          = now wl - rebuild_put xl.
Proof.
  intros g s x0 xl hired served rs crew Hnone Hmoney.
  apply Qlt_bool_false in Hmoney.
  split; [now apply Repair_history|].
  destruct (Repair_requests cfg self structure entity callbacks w0 w1 w2 w3
              Hnone Hmoney) as (R0 & R1 & R2 & R3).
  split; [exact R0|split; [exact R1|split; [exact R2|split; [exact R3|]]]].
  split.
  { intros earlier m later c Hsplit Hc n before v Hn.
    now apply (Repair_withdraws _ _ _ _ _ _ _ _ _ _ _ _ _ later). }
  split; [now apply Repair_waits|].
  now apply Repair_result.
Qed.

Lemma Repair_rebuilds_the_stage_witness :
  let g := RepairProgram_process repair_config repair_program
                                 0%nat 0%nat None in
  let rs := [(Send, stocked_world); (Send, stocked_world);
             (Send, stocked_world); (Send, stocked_world)]
            ++ withdrawal_resumes repair_config repair_program rich_entity
                 (fun _ => stocked_world)
            ++ [(Send, stocked_world)] in
  first_short repair_config repair_program stocked_world 0%nat = None
  /\ stage_cost Up_to_Plinth_Level (buildings stocked_world 0%nat)
     <= money_to_rebuild (entities stocked_world 0%nat)
  /\ activities (segments (run_sync g stocked_world) rs)
     = [Requests 0%nat; Requests 0%nat; Requests 0%nat; Requests 0%nat;
        Withdraws 1%nat (10 * 0.2); Withdraws 9%nat 3; Waits (8 / 4); Ends]
  /\ exists w',
       result (execute g stocked_world rs) = Some (w', Finished)
       /\ money_to_rebuild (entities w' 0%nat) = 500000 - 300000
       /\ new_plinth (buildings w' 0%nat) = true.
Proof.
  intros g rs.
  assert (H1 : first_short repair_config repair_program stocked_world 0%nat
               = None) by reflexivity.
  assert (H2 : stage_cost Up_to_Plinth_Level (buildings stocked_world 0%nat)
               <= money_to_rebuild (entities stocked_world 0%nat))
    by (apply Qle_bool_iff; reflexivity).
  split; [exact H1|split; [exact H2|]].
  destruct (Repair_rebuilds_the_stage
              repair_config repair_program 0%nat 0%nat None
              stocked_world stocked_world stocked_world stocked_world
              stocked_world (fun _ => stocked_world) stocked_world H1 H2)
    as (Hhistory & _ & _ & _ & _ & _ & _ & w' & Hrun & _ & _ & _ & _ & _ & _
        & Hmoney & _ & Hflag & _).
  split; [exact Hhistory|].
  exists w'. split; [exact Hrun|split; [exact Hmoney|exact Hflag]].
Defined.

Lemma alone_stuck {A : Type} (st : World * Stop A) (n : nat) :
  (exists ev k, snd st = Suspended ev k /\ fired ev (fst st) = false) ->
  alone st (repeat Send n) = st.
Proof.
  intros (ev & k & Hs & Hf). destruct n as [|n]; [reflexivity|].
  cbn. rewrite Hs. now rewrite Hf.
Qed.

(** C4 as stated fails for want of a crew.  The eight materials are in
    stock and the owner has the money, but the skilled pool has three
    slots and the process asks for four, one at a time, keeping those it
    has: alone in the simulation it waits for the fourth for good.  However
    often the scheduler comes back to it, the plinth is not built, nothing
    has been withdrawn, nothing paid and no slot released. *)
Lemma Repair_with_a_crew_of_three_never_rebuilds :
  let g := RepairProgram_process repair_config repair_program
                                 0%nat 0%nat None in
  first_short repair_config repair_program short_crew_world 0%nat = None
  /\ stage_cost Up_to_Plinth_Level (buildings short_crew_world 0%nat)
     <= money_to_rebuild (entities short_crew_world 0%nat)
  /\ forall n : nat,
       let st := alone (run_sync g short_crew_world)
                       (repeat Send (3 + n)) in
       outcome (snd st) = Waiting (EvRequest 0%nat 3%nat)
       /\ fired (EvRequest 0%nat 3%nat) (fst st) = false
       /\ holders (fst st) 0%nat = 3%nat
       /\ new_plinth (buildings (fst st) 0%nat) = false
       /\ money_to_rebuild (entities (fst st) 0%nat) = 500000
       /\ containers (fst st) = containers short_crew_world.
Proof.
  intros g.
  split; [reflexivity|split; [apply Qle_bool_iff; reflexivity|]].
  intros n st.
  assert (E : st = alone (run_sync g short_crew_world) [Send; Send; Send]).
  { subst st. change (repeat Send (3 + n))
      with (Send :: Send :: Send :: repeat Send n).
    set (st3 := alone (run_sync g short_crew_world) [Send; Send; Send]).
    assert (E3 : alone (run_sync g short_crew_world)
                       (Send :: Send :: Send :: repeat Send n)
                 = alone st3 (repeat Send n)) by reflexivity.
    rewrite E3. apply alone_stuck.
    do 2 eexists. split; vm_compute; reflexivity. }
  rewrite E. vm_compute. repeat split.
Qed.

(** ** Monotonic stage flags *)

Lemma flags_kept_refl w : flags_kept w w.
Proof. intros b. auto. Qed.

Lemma flags_kept_trans w1 w2 w3 :
  flags_kept w1 w2 -> flags_kept w2 w3 -> flags_kept w1 w3.
Proof.
  intros H12 H23 b. destruct (H12 b) as (P1 & W1 & R1).
  destruct (H23 b) as (P2 & W2 & R2). auto.
Qed.

Lemma flags_kept_same_buildings w w' :
  buildings w' = buildings w -> flags_kept w w'.
Proof. intros E b. rewrite E. auto. Qed.

Lemma flags_kept_upd_building b f w :
  (forall x, (new_plinth x = true -> new_plinth (f x) = true)
             /\ (new_walls x = true -> new_walls (f x) = true)
             /\ (new_roof x = true -> new_roof (f x) = true)) ->
  flags_kept w (upd_building b f w).
Proof.
  intros Hf b'. cbn. unfold upd.
  destruct (Nat.eqb b' b); [apply Hf|auto].
Qed.

Section Writes.

Variable R : World -> World -> Prop.
Hypothesis R_refl : forall w, R w w.
Hypothesis R_trans : forall w1 w2 w3, R w1 w2 -> R w2 w3 -> R w1 w3.

Lemma writes_keep_bind {A B : Type} (g : Gen A) (h : A -> Gen B) :
  writes_keep R g -> (forall a, writes_keep R (h a)) ->
  writes_keep R (bind g h).
Proof.
  induction g as [a|e|k IH|f k IH|ev k IH]; cbn; intros Hg Hh; auto.
  destruct Hg as [Hf Hk]. auto.
Qed.

Lemma writes_keep_try {A : Type} (body : Gen A) (handler : Q -> Gen A) :
  writes_keep R body -> (forall c, writes_keep R (handler c)) ->
  writes_keep R (try_except_Interrupt body handler).
Proof.
  induction body as [a|e|k IH|f k IH|ev k IH]; cbn; intros Hg Hh; auto.
  - destruct e; cbn; auto.
  - destruct Hg as [Hf Hk]. auto.
Qed.

Lemma writes_keep_run_sync {A : Type} (g : Gen A) :
  writes_keep R g ->
  forall w w' s,
    run_sync g w = (w', s) ->
    R w w'
    /\ match s with
       | Suspended _ k => forall sig, writes_keep R (k sig)
       | _ => True
       end.
Proof.
  induction g as [a|e|k IH|f k IH|ev k IH]; cbn; intros Hg w w' s E.
  - inversion E; subst. auto.
  - inversion E; subst. auto.
  - eapply IH; eauto.
  - destruct Hg as [Hf Hk].
    destruct (IH Hk _ _ _ E) as [HR Hs]. split; [|exact Hs].
    eapply R_trans; [apply Hf|exact HR].
  - inversion E; subst. auto.
Qed.

Lemma writes_keep_reachable {A : Type} (g g' : Gen A) :
  writes_keep R g -> reachable g g' -> writes_keep R g'.
Proof.
  intros Hg Hreach.
  induction Hreach as [|g' w w' ev k sig Hreach IH Hrun]; [exact Hg|].
  destruct (writes_keep_run_sync g' IH _ _ _ Hrun) as [_ Hk]. apply Hk.
Qed.

End Writes.

Ltac walk_writes :=
  lazymatch goal with
  | |- writes_keep _ (bind _ _) =>
      apply writes_keep_bind; [walk_writes | intros ?; walk_writes]
  | |- writes_keep _ (try_except_Interrupt _ _) =>
      apply writes_keep_try; [walk_writes | intros ?; walk_writes]
  | |- writes_keep _ (check_material _ _ _ _ _) =>
      unfold check_material; walk_writes
  | |- writes_keep _ (withdraw _ _) => unfold withdraw; walk_writes
  | |- writes_keep _ (run_callbacks _) => unfold run_callbacks; walk_writes
  | |- writes_keep _ (SimPy.get _ _) => unfold SimPy.get; walk_writes
  | |- writes_keep _ (SimPy.put _ _) => unfold SimPy.put; walk_writes
  | |- writes_keep _ (tell _ _) => unfold tell; walk_writes
  | |- writes_keep _ (yield _) => cbn; intros [|?]; exact I
  | |- writes_keep _ (if ?b then _ else _) => destruct b; walk_writes
  | |- writes_keep _ (match ?x with _ => _ end) => destruct x; walk_writes
  | |- writes_keep _ (let _ := _ in _) => cbv zeta; walk_writes
  | |- writes_keep _ (Read _) => cbn [writes_keep]; intros ?; walk_writes
  | |- writes_keep _ (set_building _ _) =>
      cbn; split; [intros ?; apply flags_kept_upd_building; cbn; auto|exact I]
  | |- _ =>
      solve [cbn; repeat split; intros;
             try (apply flags_kept_same_buildings; reflexivity); auto]
  end.

Lemma programs_keep_flags call :
  writes_keep flags_kept (program_process call).
Proof.
  destruct call as [self entity|self entity
                   |self structure entity callbacks
                   |self structure entity callbacks
                   |self structure entity callbacks
                   |[self entity callbacks|self entity callbacks
                    |self entity callbacks
                    |cfg self structure entity callbacks]];
    cbn [program_process cancellable_process].
  - unfold FinancialRecoveryProgram_process. walk_writes.
  - unfold TechnicalRecoveryProgram_process. walk_writes.
  - unfold InspectionProgram_process. walk_writes.
  - unfold EngineeringAssessment_process. walk_writes.
  - unfold PermitProgram_process. walk_writes.
  - unfold IndividualAssistance_process. walk_writes.
  - unfold OwnersInsurance_process. walk_writes.
  - unfold HomeLoan_process. walk_writes.
  - unfold RepairProgram_process. walk_writes.
Qed.

Lemma stretch_keeps_flags w w' : stretch w w' -> flags_kept w w'.
Proof.
  intros [call g w1 w2 s Hreach Hrun].
  pose proof (writes_keep_reachable flags_kept flags_kept_refl
                flags_kept_trans _ _ (programs_keep_flags call) Hreach)
    as Hg.
  exact (proj1 (writes_keep_run_sync flags_kept flags_kept_refl
                  flags_kept_trans g Hg _ _ _ Hrun)).
Qed.

(** C8.  A building comes out of [Building.__init__] with [new_plinth],
    [new_walls] and [new_roof] false.  Along any run, made of stretches of
    processes of any program (started, or resumed with any signal) and of
    steps that leave the buildings alone, a flag that is true stays true,
    for every building. *)
Theorem stage_flags_are_monotonic :
  (forall cfg building,
     new_plinth (Building_init cfg building) = false
     /\ new_walls (Building_init cfg building) = false
     /\ new_roof (Building_init cfg building) = false)
  /\ forall w w', run w w' -> flags_kept w w'.
Proof.
  split; [intros cfg building; repeat split|].
  intros w w' Hrun.
  induction Hrun as [w|w w' w'' Hstretch Hrun IH|w w' w'' He Hb Hrun IH].
  - apply flags_kept_refl.
  - eapply flags_kept_trans; [|exact IH]. now apply stretch_keeps_flags.
  - eapply flags_kept_trans; [|exact IH].
    now apply flags_kept_same_buildings.
Qed.

Lemma stage_flags_are_monotonic_witness :
  let g := IndividualAssistance_process example_assistance 0%nat None in
  let w' := fst (run_sync g plinth_built_world) in
  run plinth_built_world w'
  /\ new_plinth (buildings plinth_built_world 0%nat) = true
  /\ new_plinth (buildings w' 0%nat) = true.
Proof.
  intros g w'.
  assert (H : run plinth_built_world w').
  { apply (run_program _ w' _); [|apply run_end].
    apply (stretch_of
             (Run_Cancellable
                (Call_IndividualAssistance example_assistance 0%nat None))
             g plinth_built_world w' (snd (run_sync g plinth_built_world))).
    - apply reach_start.
    - reflexivity. }
  split; [exact H|split; [reflexivity|]].
  apply (proj1 (proj2 stage_flags_are_monotonic _ _ H 0%nat)).
  reflexivity.
Defined.

(** * Further properties *)

(** ** Inspection, assessment and permit *)

(** X1.  A PermitProgram process, resumed normally at its two waits
    (in the worlds [w1] and [w2]): it stamps [permit_put] with the time of
    the application, asks for a building official, waits for the sampled
    duration, and then, in one stretch, releases the official, marks the
    structure permitted, stamps [permit_get] with the current time, tells
    the story and goes on to its callbacks. *)
Theorem Permit_grants_the_permit self structure entity callbacks w0 w1 w2 :
  let g := PermitProgram_process self structure entity callbacks in
  let official := next_id w0 in
  let x2 := entities w2 entity in
  activities (segments (run_sync g w0) [(Send, w1); (Send, w2)])
  = [Requests (t_staff self); Waits (t_duration self (rng w1));
     activity (callbacks_outcome callbacks)]
  /\ fst (run_sync g w0)
     = requested (t_staff self)
         (upd_entity entity (set_permit_put (Some (now w0))) w0)
  /\ exists w',
       result (execute g w0 [(Send, w1); (Send, w2)])
       = Some (w', callbacks_outcome callbacks)
       /\ w' = told entity (Story_permitted (name x2) (Some (now w2)))
                 (upd_entity entity (set_permit_get (Some (now w2)))
                    (upd_building structure (set_permit true)
                       (released (t_staff self) official w2)))
       /\ permit (buildings w' structure) = true
       /\ permit_get (entities w' entity) = Some (now w2)
       /\ users (resources w' (t_staff self))
          = SimPy.remove_first official (users (resources w2 (t_staff self)))
       /\ money_to_rebuild (entities w' entity) = money_to_rebuild x2.
Proof.
  intros g official x2. subst g official x2.
  unfold PermitProgram_process, execute, told, requested, released.
  unfold tell, get_entity, env_now, set_entity, set_building, modify.
  split; [|split; [reflexivity|]].
  - destruct (write_story (entities w2 entity)) eqn:Ews; destruct callbacks;
      run_code ltac:(rewrite ?Ews); reflexivity.
  - destruct (write_story (entities w2 entity)) eqn:Ews; destruct callbacks;
      run_code ltac:(rewrite ?Ews);
      (eexists; split; [reflexivity|]);
      run_code ltac:(rewrite ?Ews); repeat split.
Qed.

(** X2.  An EngineeringAssessment process, resumed normally at its two
    waits: it stamps [assessment_put], asks for an engineer, waits for the
    sampled duration, and then releases the engineer, marks the structure
    assessed (and not inspected), stamps [assessment_get] and tells the
    story.  Without callbacks it ends there; with callbacks it then fails
    with a [NameError], because its last statement names [env], which is
    bound nowhere: the callbacks are never started. *)
Theorem EngineeringAssessment_assesses_then_needs_env
  self structure entity callbacks w0 w1 w2 :
  let g := EngineeringAssessment_process self structure entity callbacks in
  let engineer := next_id w0 in
  let x2 := entities w2 entity in
  activities (segments (run_sync g w0) [(Send, w1); (Send, w2)])
  = [Requests (t_staff self); Waits (t_duration self (rng w1));
     activity (unbound_env_outcome callbacks)]
  /\ fst (run_sync g w0)
     = requested (t_staff self)
         (upd_entity entity (set_assessment_put (Some (now w0))) w0)
  /\ exists w',
       result (execute g w0 [(Send, w1); (Send, w2)])
       = Some (w', unbound_env_outcome callbacks)
       /\ w' = told entity (Story_assessed (name x2) (Some (now w2)))
                 (upd_entity entity (set_assessment_get (Some (now w2)))
                    (upd_building structure (set_assessment true)
                       (released (t_staff self) engineer w2)))
       /\ assessment (buildings w' structure) = true
       /\ inspected (buildings w' structure)
          = inspected (buildings w2 structure)
       /\ assessment_get (entities w' entity) = Some (now w2)
       /\ users (resources w' (t_staff self))
          = SimPy.remove_first engineer (users (resources w2 (t_staff self))).
Proof.
  intros g engineer x2. subst g engineer x2.
  unfold EngineeringAssessment_process, execute, told, requested, released.
  unfold tell, get_entity, env_now, set_entity, set_building, modify.
  split; [|split; [reflexivity|]].
  - destruct (write_story (entities w2 entity)) eqn:Ews; destruct callbacks;
      run_code ltac:(rewrite ?Ews); reflexivity.
  - destruct (write_story (entities w2 entity)) eqn:Ews; destruct callbacks;
      run_code ltac:(rewrite ?Ews);
      (eexists; split; [reflexivity|]);
      run_code ltac:(rewrite ?Ews); repeat split.
Qed.

(** X3.  An InspectionProgram process run for an entity, on a structure
    with a stage left to build (of valuation [c]), resumed normally at its
    two waits: it stamps [inspection_put], asks for an inspector, waits for
    the sampled duration, and then marks the structure inspected, releases
    the inspector, stamps [inspection_get] and tells the story, with the
    cost of the next stage.  It ends there whatever [callbacks] is: the
    argument is never used. *)
Theorem Inspection_inspects_and_ignores_callbacks
  self structure entity callbacks w0 w1 w2 c :
  let g := InspectionProgram_process self structure (Some entity) callbacks in
  let inspector := next_id w0 in
  let x2 := entities w2 entity in
  next_stage_cost (buildings w2 structure) = Some c ->
  activities (segments (run_sync g w0) [(Send, w1); (Send, w2)])
  = [Requests (t_staff self); Waits (t_duration self (rng w1)); Ends]
  /\ fst (run_sync g w0)
     = requested (t_staff self)
         (upd_entity entity (set_inspection_put (Some (now w0))) w0)
  /\ exists w',
       result (execute g w0 [(Send, w1); (Send, w2)]) = Some (w', Finished)
       /\ w' = told entity
                 (Story_inspected (name x2) (btype (buildings w2 structure))
                                  (Some (now w2)) c)
                 (upd_entity entity (set_inspection_get (Some (now w2)))
                    (released (t_staff self) inspector
                       (upd_building structure (set_inspected true) w2)))
       /\ inspected (buildings w' structure) = true
       /\ inspection_get (entities w' entity) = Some (now w2)
       /\ users (resources w' (t_staff self))
          = SimPy.remove_first inspector (users (resources w2 (t_staff self))).
Proof.
  intros g inspector x2 Hcost. subst g inspector x2.
  unfold next_stage_cost in Hcost.
  unfold InspectionProgram_process, execute, told, requested, released.
  unfold tell, get_entity, get_building, env_now, set_entity, set_building,
    modify.
  split; [|split; [reflexivity|]].
  - destruct (write_story (entities w2 entity)) eqn:Ews;
      run_code ltac:(rewrite ?Ews, ?Hcost); reflexivity.
  - destruct (write_story (entities w2 entity)) eqn:Ews;
      run_code ltac:(rewrite ?Ews, ?Hcost);
      (eexists; split; [reflexivity|]);
      run_code ltac:(rewrite ?Ews); repeat split.
Qed.

Lemma Inspection_inspects_and_ignores_callbacks_witness :
  next_stage_cost (buildings example_world 0%nat) = Some 300000
  /\ exists w',
       result (execute (InspectionProgram_process example_inspection 0%nat
                          (Some 0%nat) (Some 7%nat))
                 example_world [(Send, example_world); (Send, example_world)])
       = Some (w', Finished)
       /\ inspected (buildings w' 0%nat) = true.
Proof.
  assert (H : next_stage_cost (buildings example_world 0%nat) = Some 300000)
    by reflexivity.
  split; [exact H|].
  destruct (Inspection_inspects_and_ignores_callbacks
              example_inspection 0%nat 0%nat (Some 7%nat)
              example_world example_world example_world 300000 H)
    as (_ & _ & w' & Hrun & _ & Hflag & _).
  exists w'. split; [exact Hrun|exact Hflag].
Defined.

(** X4.  On a structure whose three stages are built, the inspection
    itself goes through (the structure is marked, the inspector released,
    [inspection_get] stamped), but for an entity that keeps a story the
    process then fails with an [UnboundLocalError]: the sentence needs
    [rebuild_cost], which no branch has assigned.  For an entity that keeps
    no story the process ends normally. *)
Theorem Inspection_of_a_rebuilt_house_has_no_cost_to_tell
  self structure entity callbacks w0 w1 w2 :
  let g := InspectionProgram_process self structure (Some entity) callbacks in
  let inspector := next_id w0 in
  let w' :=
    upd_entity entity (set_inspection_get (Some (now w2)))
      (released (t_staff self) inspector
         (upd_building structure (set_inspected true) w2)) in
  new_plinth (buildings w2 structure) = true ->
  new_walls (buildings w2 structure) = true ->
  new_roof (buildings w2 structure) = true ->
  next_stage_cost (buildings w2 structure) = None
  /\ result (execute g w0 [(Send, w1); (Send, w2)])
     = Some (w', if write_story (entities w2 entity)
                 then Crashed UnboundLocalError else Finished)
  /\ inspected (buildings w' structure) = true
  /\ story (entities w' entity) = story (entities w2 entity).
Proof.
  intros g inspector w' Hplinth Hwalls Hroof. subst g inspector w'.
  unfold next_stage_cost. rewrite Hplinth, Hwalls, Hroof.
  split; [reflexivity|].
  unfold InspectionProgram_process, execute, released.
  unfold tell, get_entity, get_building, env_now, set_entity, set_building,
    modify.
  destruct (write_story (entities w2 entity)) eqn:Ews;
    run_code ltac:(rewrite ?Ews, ?Hplinth, ?Hwalls, ?Hroof); repeat split.
Qed.

Lemma Inspection_of_a_rebuilt_house_has_no_cost_to_tell_witness :
  new_roof (buildings complete_world 0%nat) = true
  /\ exists w',
       result (execute (InspectionProgram_process example_inspection 0%nat
                          (Some 0%nat) None)
                 complete_world
                 [(Send, complete_world); (Send, complete_world)])
       = Some (w', Crashed UnboundLocalError)
       /\ inspected (buildings w' 0%nat) = true.
Proof.
  assert (H1 : new_plinth (buildings complete_world 0%nat) = true)
    by reflexivity.
  assert (H2 : new_walls (buildings complete_world 0%nat) = true)
    by reflexivity.
  assert (H3 : new_roof (buildings complete_world 0%nat) = true)
    by reflexivity.
  split; [exact H3|].
  destruct (Inspection_of_a_rebuilt_house_has_no_cost_to_tell
              example_inspection 0%nat 0%nat None
              complete_world complete_world complete_world H1 H2 H3)
    as (_ & Hrun & Hflag & _).
  eexists. split; [exact Hrun|exact Hflag].
Defined.

(** ** Returning early *)

(** X5.  An entity that already has the money is turned away at once, and
    the [return] inside the [try] block ends the process before the
    statement that starts the callbacks: IndividualAssistance, when
    [money_to_rebuild] covers the whole damage value, and HomeLoan, when it
    covers the valuation of the current stage, end in their first stretch
    with the world exactly as it was, whatever callbacks they were given. *)
Theorem enough_money_returns_before_the_callbacks
  (assistance : IndividualAssistance) (loan : HomeLoan)
  (entity : eref) (callbacks : option Callback) (w : World) :
  let x := entities w entity in
  let p := buildings w (property x) in
  (damage_value p <= money_to_rebuild x ->
   run_sync (IndividualAssistance_process assistance entity callbacks) w
   = (w, Done tt))
  /\ (current_stage_value p <= money_to_rebuild x ->
      run_sync (HomeLoan_process loan entity callbacks) w = (w, Done tt)).
Proof.
  intros x p. split; intros Hmoney; apply Qle_bool_true in Hmoney.
  - unfold IndividualAssistance_process, get_entity, get_building.
    cbn [bind try_except_Interrupt run_sync].
    fold x. fold p. rewrite Hmoney. reflexivity.
  - unfold HomeLoan_process, get_entity, get_building.
    cbn [bind try_except_Interrupt run_sync].
    fold x. fold p. rewrite Hmoney. reflexivity.
Qed.

Lemma enough_money_returns_before_the_callbacks_witness :
  damage_value (buildings wealthy_world 0%nat)
  <= money_to_rebuild (entities wealthy_world 0%nat)
  /\ current_stage_value (buildings wealthy_world 0%nat)
     <= money_to_rebuild (entities wealthy_world 0%nat)
  /\ run_sync (IndividualAssistance_process example_assistance 0%nat
                 (Some 7%nat)) wealthy_world
     = (wealthy_world, Done tt)
  /\ run_sync (HomeLoan_process example_loan 0%nat (Some 7%nat)) wealthy_world
     = (wealthy_world, Done tt).
Proof.
  assert (H1 : damage_value (buildings wealthy_world 0%nat)
               <= money_to_rebuild (entities wealthy_world 0%nat))
    by (apply Qle_bool_iff; reflexivity).
  assert (H2 : current_stage_value (buildings wealthy_world 0%nat)
               <= money_to_rebuild (entities wealthy_world 0%nat))
    by (apply Qle_bool_iff; reflexivity).
  split; [exact H1|split; [exact H2|]].
  destruct (enough_money_returns_before_the_callbacks
              example_assistance example_loan 0%nat (Some 7%nat)
              wealthy_world) as [Hassistance Hloan].
  split; [exact (Hassistance H1)|exact (Hloan H2)].
Defined.

(** ** Interrupts outside a [try] block *)

Lemma uncaught_at_bind {A B : Type} P (g : Gen A) (h : A -> Gen B) :
  uncaught_at P g -> (forall a, uncaught_at P (h a)) ->
  uncaught_at P (bind g h).
Proof.
  induction g as [a|e|k IH|f k IH|ev k IH]; cbn; intros Hg Hh; auto.
  destruct Hg as [Hraise Hnext]. split.
  - intros HP cause. now rewrite (Hraise HP).
  - intros sig. now apply IH.
Qed.

Lemma uncaught_at_yield P ev : uncaught_at P (yield ev).
Proof.
  cbn. split; [reflexivity|]. intros [|cause]; exact I.
Qed.

(** Inside a [try] block whose waits are all outside [P], followed by
    code in which the waits in [P] are uncaught. *)
Lemma uncaught_at_try {A B : Type} P (body : Gen A) (handler : Q -> Gen A)
  (after : A -> Gen B) :
  events_all (fun ev => negb (P ev)) body ->
  (forall c, uncaught_at P (bind (handler c) after)) ->
  (forall a, uncaught_at P (after a)) ->
  uncaught_at P (bind (try_except_Interrupt body handler) after).
Proof.
  intros Hbody Hhandler Hafter.
  induction body as [a|e|k IH|f k IH|ev k IH]; cbn in *.
  - apply Hafter.
  - destruct e; cbn; try exact I. apply Hhandler.
  - intros w. now apply IH.
  - now apply IH.
  - destruct Hbody as [HP Hnext]. split.
    + intros E. rewrite E in HP. discriminate.
    + intros sig. now apply IH.
Qed.

Lemma events_all_bind {A B : Type} P (g : Gen A) (h : A -> Gen B) :
  events_all P g -> (forall a, events_all P (h a)) ->
  events_all P (bind g h).
Proof.
  induction g as [a|e|k IH|f k IH|ev k IH]; cbn; intros Hg Hh; auto.
  destruct Hg as [HP Hnext]. split; [exact HP|].
  intros sig. now apply IH.
Qed.

Lemma events_all_tell P e s : events_all P (tell e s).
Proof. cbn. intros w. now destruct (write_story (entities w e)). Qed.

(** [ev <- container.get(n) ;; yield ev ;; ...]: the event is a get. *)
Lemma events_all_get {B : Type} P c n (h : Event -> Gen B) :
  (forall id, events_all P (h (EvGet c id n))) ->
  events_all P (bind (SimPy.get c n) h).
Proof.
  intros Hh. unfold SimPy.get. destruct (Qle_bool n 0); cbn; auto.
Qed.

Lemma events_all_withdraw {B : Type} P c n (h : unit -> Gen B) :
  (forall c' id n', P (EvGet c' id n') = true) ->
  events_all P (h tt) ->
  events_all P (bind (withdraw c n) h).
Proof.
  intros HP Hh. unfold withdraw. destruct (Qlt_bool 0 n); [|exact Hh].
  unfold SimPy.get. destruct (Qle_bool n 0); cbn; auto.
  intros w. split; [apply HP|]. intros [|cause]; cbn; [exact Hh|exact I].
Qed.

Lemma events_all_check_material P c n e word (rest : Gen Flow) :
  events_all P rest -> events_all P (check_material c n e word rest).
Proof.
  intros Hrest. unfold check_material, get_container.
  cbn [bind events_all]. intros w.
  destruct (num_ltb (level (containers w c)) (Fin n)); [|exact Hrest].
  apply events_all_bind; [apply events_all_tell|]. intros _. exact I.
Qed.

(** The waits inside the four [try] blocks are requests, timeouts and
    gets. *)
Ltac walk_events :=
  lazymatch goal with
  | |- events_all _ (bind (SimPy.get _ _) _) =>
      apply events_all_get; intros ?; walk_events
  | |- events_all _ (bind (withdraw _ _) _) =>
      apply events_all_withdraw; [reflexivity|walk_events]
  | |- events_all _ (bind _ _) =>
      apply events_all_bind; [walk_events | intros ?; walk_events]
  | |- events_all _ (yield _) =>
      cbn; split; [reflexivity|intros [|?]; exact I]
  | |- events_all _ (tell _ _) => apply events_all_tell
  | |- events_all _ (check_material _ _ _ _ _) =>
      apply events_all_check_material; walk_events
  | |- events_all _ (if ?b then _ else _) => destruct b; walk_events
  | |- events_all _ (match ?x with _ => _ end) => destruct x; walk_events
  | |- events_all _ (let _ := _ in _) => cbv zeta; walk_events
  | |- events_all _ (Read _) => cbn [events_all]; intros ?; walk_events
  | |- _ => solve [cbn; intros; auto]
  end.

Ltac walk_uncaught :=
  lazymatch goal with
  | |- uncaught_at _ (bind _ _) =>
      apply uncaught_at_bind; [walk_uncaught | intros ?; walk_uncaught]
  | |- uncaught_at _ (yield _) => apply uncaught_at_yield
  | |- uncaught_at _ (run_callbacks ?c) =>
      destruct c; [apply uncaught_at_yield|exact I]
  | |- uncaught_at _ (SimPy.get _ _) =>
      unfold SimPy.get; walk_uncaught
  | |- uncaught_at _ (SimPy.put _ _) =>
      unfold SimPy.put; walk_uncaught
  | |- uncaught_at _ (tell _ _) => unfold tell; walk_uncaught
  | |- uncaught_at _ (if ?b then _ else _) => destruct b; walk_uncaught
  | |- uncaught_at _ (match ?x with _ => _ end) => destruct x; walk_uncaught
  | |- uncaught_at _ (let _ := _ in _) => cbv zeta; walk_uncaught
  | |- uncaught_at _ (Read _) => cbn [uncaught_at]; intros ?; walk_uncaught
  | |- _ => solve [cbn; intros; auto]
  end.

Lemma uncaught_after_try P callbacks (flow : Flow) :
  uncaught_at P
    match flow with
    | Return => Ret tt
    | Fallthrough => run_callbacks callbacks
    end.
Proof.
  destruct flow; [|exact I].
  destruct callbacks; [apply uncaught_at_yield|exact I].
Qed.

Lemma uncaught_handler {B : Type} P e sentence (after : Flow -> Gen B) :
  (forall flow, uncaught_at P (after flow)) ->
  uncaught_at P (bind (bind (tell e sentence) (fun _ => Ret Fallthrough))
                      after).
Proof.
  intros Hafter. unfold tell. cbn [bind uncaught_at]. intros w.
  destruct (write_story (entities w e)); cbn; apply Hafter.
Qed.

Lemma programs_leave_interrupts_uncaught call :
  uncaught_at (uncaught_event call) (program_process call).
Proof.
  destruct call as [self entity|self entity
                   |self structure entity callbacks
                   |self structure entity callbacks
                   |self structure entity callbacks
                   |[self entity callbacks|self entity callbacks
                    |self entity callbacks
                    |cfg self structure entity callbacks]];
    cbn [program_process cancellable_process uncaught_event].
  - unfold FinancialRecoveryProgram_process. walk_uncaught.
  - unfold TechnicalRecoveryProgram_process. walk_uncaught.
  - unfold InspectionProgram_process. walk_uncaught.
  - unfold EngineeringAssessment_process. walk_uncaught.
  - unfold PermitProgram_process. walk_uncaught.
  - unfold IndividualAssistance_process.
    apply uncaught_at_try;
      [ walk_events
      | intros; apply uncaught_handler; intros; apply uncaught_after_try
      | intros; apply uncaught_after_try ].
  - unfold OwnersInsurance_process.
    apply uncaught_at_try;
      [ walk_events
      | intros; apply uncaught_handler; intros; apply uncaught_after_try
      | intros; apply uncaught_after_try ].
  - unfold HomeLoan_process. unfold get_entity at 1, get_building at 1.
    cbn [bind uncaught_at]. intros w1 w2.
    apply uncaught_at_try;
      [ walk_events
      | intros; apply uncaught_handler; intros; apply uncaught_after_try
      | intros; apply uncaught_after_try ].
  - unfold RepairProgram_process. unfold get_entity at 1.
    cbn [bind uncaught_at]. intros w1.
    apply uncaught_at_try.
    + walk_events.
    + intros c. apply uncaught_handler.
      intros [|]; [|exact I]. now destruct callbacks.
    + intros [|]; [|exact I]. now destruct callbacks.
Qed.

Lemma uncaught_at_run_sync {A : Type} P (g : Gen A) :
  uncaught_at P g ->
  forall w w' ev k,
    run_sync g w = (w', Suspended ev k) ->
    (P ev = true ->
     forall cause, k (Interrupted cause) = Raise (Interrupt cause))
    /\ forall sig, uncaught_at P (k sig).
Proof.
  induction g as [a|e|k IH|f k IH|ev k IH]; cbn; intros Hg w w' ev' k' E;
    try discriminate.
  - eapply IH; eauto.
  - eapply IH; eauto.
  - inversion E; subst. exact Hg.
Qed.

Lemma uncaught_at_resume_all {A : Type} P (rs : list (Signal * World)) :
  forall (st : World * Stop A) w' ev k,
    (forall ev0 k0, snd st = Suspended ev0 k0 ->
       (P ev0 = true ->
        forall cause, k0 (Interrupted cause) = Raise (Interrupt cause))
       /\ forall sig, uncaught_at P (k0 sig)) ->
    resume_all st rs = Some (w', Suspended ev k) ->
    P ev = true ->
    forall cause, k (Interrupted cause) = Raise (Interrupt cause).
Proof.
  induction rs as [|[sig w] rs IH]; cbn; intros st w' ev k Hst E Hev.
  - inversion E; subst. now apply (Hst ev k).
  - destruct (snd st) as [ev0 k0| |] eqn:Est; try discriminate.
    destruct (Hst ev0 k0 eq_refl) as [_ Hnext].
    eapply IH; eauto.
    intros ev1 k1 E1.
    destruct (run_sync (k0 sig) w) as [w1 s1] eqn:Erun. cbn in E1. subst s1.
    eapply uncaught_at_run_sync; eauto.
Qed.

(** X6.  Outside the four [try] blocks nothing catches an interrupt.  A
    process of the two base classes, of InspectionProgram, of
    EngineeringAssessment or of PermitProgram interrupted at any of its
    waits, and a process of IndividualAssistance, OwnersInsurance or
    HomeLoan interrupted while it waits for its callbacks, ends with the
    [Interrupt] as an uncaught exception, however it was resumed before.
    It writes nothing: the world is left as the interrupt found it, a staff
    member the process holds included. *)
Theorem interrupt_outside_try_is_not_caught
  (call : ProgramCall) (w0 : World) (rs : list (Signal * World))
  (w' : World) (ev : Event) (cause : Q) (w : World) :
  result (execute (program_process call) w0 rs) = Some (w', Waiting ev) ->
  uncaught_event call ev = true ->
  result (execute (program_process call) w0 (rs ++ [(Interrupted cause, w)]))
  = Some (w, Crashed (Interrupt cause)).
Proof.
  intros Hexec Hev.
  destruct (result_waiting _ _ _ Hexec) as [k Ek].
  rewrite execute_snoc, Ek.
  assert (Hk : k (Interrupted cause) = Raise (Interrupt cause)).
  { unfold execute in Ek.
    eapply (uncaught_at_resume_all (uncaught_event call)); eauto.
    intros ev0 k0 E0.
    destruct (run_sync (program_process call) w0) as [w1 s1] eqn:Erun.
    cbn in E0. subst s1.
    eapply uncaught_at_run_sync; eauto.
    apply programs_leave_interrupts_uncaught. }
  rewrite Hk. reflexivity.
Qed.

Lemma interrupt_outside_try_is_not_caught_witness :
  let call := Run_Permit example_permit 0%nat 0%nat None in
  let w1 := fst (run_sync (program_process call) example_world) in
  let w2 := bump_rng w1 in
  result (execute (program_process call) example_world [(Send, w1)])
  = Some (w2, Waiting (EvTimeout 5))
  /\ result (execute (program_process call) example_world
                     ([(Send, w1)] ++ [(Interrupted 7, w2)]))
     = Some (w2, Crashed (Interrupt 7))
  /\ holders w2 0%nat = 1%nat.
Proof.
  intros call w1 w2.
  assert (H : result (execute (program_process call) example_world
                              [(Send, w1)])
              = Some (w2, Waiting (EvTimeout 5))) by reflexivity.
  split; [exact H|].
  split; [|reflexivity].
  exact (interrupt_outside_try_is_not_caught
           call example_world [(Send, w1)] w2 (EvTimeout 5) 7 w2 H eq_refl).
Defined.

(** ** The example processes of the base classes *)

Lemma never_returns_bind {A B : Type} (g : Gen A) (h : A -> Gen B) :
  (forall a, never_returns (h a)) -> never_returns (bind g h).
Proof.
  intros Hh. induction g as [a|e|k IH|f k IH|ev k IH]; cbn; auto.
Qed.

Lemma never_returns_run_sync {A : Type} (g : Gen A) :
  never_returns g ->
  forall w,
    match snd (run_sync g w) with
    | Suspended _ k => forall sig, never_returns (k sig)
    | Done _ => False
    | Failed _ => True
    end.
Proof.
  induction g as [a|e|k IH|f k IH|ev k IH]; cbn; intros Hg w.
  - exact Hg.
  - exact I.
  - apply IH, Hg.
  - apply IH, Hg.
  - exact Hg.
Qed.

Lemma never_returns_resume_all {A : Type} (rs : list (Signal * World)) :
  forall st : World * Stop A,
    match snd st with
    | Suspended _ k => forall sig, never_returns (k sig)
    | Done _ => False
    | Failed _ => True
    end ->
    forall w', result (resume_all st rs) <> Some (w', Finished).
Proof.
  induction rs as [|[sig w] rs IH]; cbn; intros st Hst w'.
  - destruct st as [w1 [ev k|a|e]]; cbn in *;
      [discriminate|contradiction|discriminate].
  - destruct (snd st) as [ev k|a|e]; cbn; try discriminate.
    apply IH. apply never_returns_run_sync. apply Hst.
Qed.

(** X7.  [TechnicalRecoveryProgram.process], the example process of the
    base class, cannot complete: however it is resumed, it never ends
    normally.  Resumed normally at its two waits it releases the staff
    member and then fails with an [AttributeError], on [self.materials],
    an attribute no class of the module defines; it has touched no entity
    and no building. *)
Theorem Technical_example_process_cannot_complete
  (self : TechnicalRecoveryProgram) (entity : option eref)
  (w0 : World) (rs : list (Signal * World)) (w1 w2 : World) :
  let g := TechnicalRecoveryProgram_process self entity in
  (forall w', result (execute g w0 rs) <> Some (w', Finished))
  /\ activities (segments (run_sync g w0) [(Send, w1); (Send, w2)])
     = [Requests (t_staff self); Waits (t_duration self (rng w1));
        Fails AttributeError]
  /\ result (execute g w0 [(Send, w1); (Send, w2)])
     = Some (released (t_staff self) (next_id w0) w2, Crashed AttributeError).
Proof.
  intros g. split; [|split; reflexivity].
  intros w'. unfold execute. apply never_returns_resume_all.
  apply never_returns_run_sync.
  subst g. unfold TechnicalRecoveryProgram_process.
  repeat (apply never_returns_bind; intros ?). exact I.
Qed.

(** X8.  [FinancialRecoveryProgram.process], the example process of the
    base class, resumed normally at its four waits: it asks for a staff
    member, waits for 20 plus the sampled duration, releases the staff
    member, takes 1 out of the budget and puts 1 back.  Its last statement
    reads [entity.write_story] before it compares [entity] with [None]: run
    without an entity, as its default argument has it, the process goes
    through the four waits and then fails with an [AttributeError]; run
    with an entity it tells the story and ends. *)
Theorem Financial_example_process_checks_None_too_late
  (self : FinancialRecoveryProgram) (entity : option eref)
  (w0 w1 w2 w3 w4 : World) :
  let g := FinancialRecoveryProgram_process self entity in
  let rs := [(Send, w1); (Send, w2); (Send, w3); (Send, w4)] in
  activities (segments (run_sync g w0) rs)
  = [Requests (staff self); Waits (20 + duration self (rng w1));
     Withdraws (budget self) 1; Deposits (budget self) 1;
     match entity with
     | None => Fails AttributeError
     | Some _ => Ends
     end]
  /\ result (execute g w0 rs)
     = Some
         match entity with
         | None => (w4, Crashed AttributeError)
         | Some e =>
             (told e (Story_financial_completed
                        (name (entities w4 e)) (now w4)
                        (level (containers w4 (budget self)))) w4,
              Finished)
         end
  /\ exists w',
       result (execute g w0 [(Send, w1); (Send, w2)])
       = Some (w', Waiting (EvGet (budget self) (next_id w2) 1))
       /\ users (resources w' (staff self))
          = SimPy.remove_first (next_id w0) (users (resources w2 (staff self))).
Proof.
  intros g rs. subst g rs.
  unfold FinancialRecoveryProgram_process, execute, told.
  unfold tell, set_entity, modify, SimPy.get, SimPy.put.
  assert (T : Qle_bool 1 0 = false) by reflexivity.
  destruct entity as [e|].
  - destruct (write_story (entities w4 e)) eqn:Ews;
      run_code ltac:(rewrite ?Ews, ?T);
      (split; [reflexivity|split; [reflexivity|]]);
      (eexists; split; [reflexivity|]); simp_world; reflexivity.
  - run_code ltac:(rewrite ?T).
    split; [reflexivity|split; [reflexivity|]].
    eexists; split; [reflexivity|]. simp_world. reflexivity.
Qed.

(** ** What every run keeps *)

Section Steps.

Variable R : World -> World -> Prop.
Hypothesis R_refl : forall w, R w w.
Hypothesis R_trans : forall w1 w2 w3, R w1 w2 -> R w2 w3 -> R w1 w3.

Lemma steps_keep_bind {A B : Type} (g : Gen A) (h : A -> Gen B) w :
  steps_keep R g w -> (forall a w', steps_keep R (h a) w') ->
  steps_keep R (bind g h) w.
Proof.
  revert w.
  induction g as [a|e|k IH|f k IH|ev k IH]; cbn; intros w Hg Hh; auto.
  destruct Hg as [Hf Hk]. auto.
Qed.

Lemma steps_keep_try {A : Type} (body : Gen A) (handler : Q -> Gen A) w :
  steps_keep R body w -> (forall c w', steps_keep R (handler c) w') ->
  steps_keep R (try_except_Interrupt body handler) w.
Proof.
  revert w.
  induction body as [a|e|k IH|f k IH|ev k IH]; cbn; intros w Hg Hh; auto.
  - destruct e; cbn; auto.
  - destruct Hg as [Hf Hk]. auto.
Qed.

Lemma steps_keep_run_sync {A : Type} (g : Gen A) :
  forall w, steps_keep R g w ->
  forall w' s,
    run_sync g w = (w', s) ->
    R w w'
    /\ match s with
       | Suspended _ k => forall sig w'', steps_keep R (k sig) w''
       | _ => True
       end.
Proof.
  induction g as [a|e|k IH|f k IH|ev k IH]; cbn; intros w Hg w' s E.
  - inversion E; subst. auto.
  - inversion E; subst. auto.
  - eapply IH; eauto.
  - destruct Hg as [Hf Hk].
    destruct (IH _ Hk _ _ E) as [HR Hs]. split; [|exact Hs].
    eapply R_trans; [apply Hf|exact HR].
  - inversion E; subst. auto.
Qed.

Lemma steps_keep_reachable {A : Type} (g g' : Gen A) :
  (forall w, steps_keep R g w) -> reachable g g' ->
  forall w, steps_keep R g' w.
Proof.
  intros Hg Hreach.
  induction Hreach as [|g' w w' ev k sig Hreach IH Hrun]; [exact Hg|].
  intros w''.
  destruct (steps_keep_run_sync g' w (IH w) _ _ Hrun) as [_ Hk]. apply Hk.
Qed.

Lemma steps_keep_stretch :
  (forall call w, steps_keep R (program_process call) w) ->
  forall w w', stretch w w' -> R w w'.
Proof.
  intros Hprog w w' [call g w1 w2 s Hreach Hrun].
  pose proof (steps_keep_reachable _ _ (Hprog call) Hreach w1) as Hg.
  exact (proj1 (steps_keep_run_sync g w1 Hg _ _ Hrun)).
Qed.

Lemma steps_keep_run :
  (forall w w', entities w' = entities w -> buildings w' = buildings w ->
                R w w') ->
  (forall call w, steps_keep R (program_process call) w) ->
  forall w w', run w w' -> R w w'.
Proof.
  intros Hother Hprog w w' Hrun.
  induction Hrun as [w|w w' w'' Hstretch Hrun IH|w w' w'' He Hb Hrun IH].
  - apply R_refl.
  - eapply R_trans; [|exact IH]. now apply steps_keep_stretch.
  - eapply R_trans; [|exact IH]. now apply Hother.
Qed.

End Steps.

Section Kept.

Variable P : Entity -> Entity -> Prop.
Variable Q : Building -> Building -> Prop.
Hypothesis P_refl : forall x, P x x.
Hypothesis P_trans : forall x1 x2 x3, P x1 x2 -> P x2 x3 -> P x1 x3.
Hypothesis Q_refl : forall s, Q s s.
Hypothesis Q_trans : forall s1 s2 s3, Q s1 s2 -> Q s2 s3 -> Q s1 s3.

Lemma kept_refl w : kept P Q w w.
Proof. split; auto. Qed.

Lemma kept_trans w1 w2 w3 : kept P Q w1 w2 -> kept P Q w2 w3 -> kept P Q w1 w3.
Proof. intros [E1 B1] [E2 B2]. split; eauto. Qed.

Lemma kept_frame w w' :
  entities w' = entities w -> buildings w' = buildings w -> kept P Q w w'.
Proof. intros E B. split; intros; rewrite ?E, ?B; auto. Qed.

Lemma kept_upd_entity e f w :
  P (entities w e) (f (entities w e)) -> kept P Q w (upd_entity e f w).
Proof.
  intros Hf. split; [|auto]. intros e'. cbn. unfold upd.
  destruct (Nat.eqb_spec e' e) as [->|_]; auto.
Qed.

Lemma kept_upd_building b f w :
  Q (buildings w b) (f (buildings w b)) -> kept P Q w (upd_building b f w).
Proof.
  intros Hf. split; [auto|]. intros b'. cbn. unfold upd.
  destruct (Nat.eqb_spec b' b) as [->|_]; auto.
Qed.

Lemma kept_run :
  (forall call w, steps_keep (kept P Q) (program_process call) w) ->
  forall w w', run w w' -> kept P Q w w'.
Proof.
  intros Hprog.
  apply (steps_keep_run (kept P Q) kept_refl kept_trans); [|exact Hprog].
  intros w w' E B. now apply kept_frame.
Qed.

End Kept.

Lemma anything_refl {A : Type} (a : A) : anything a a.
Proof. exact I. Qed.

Lemma anything_trans {A : Type} (a b c : A) :
  anything a b -> anything b c -> anything a c.
Proof. intros _ _. exact I. Qed.

(** Walk through a process, stretch by stretch: [leaf] proves what is asked
    of each write. *)
Ltac walk_steps leaf :=
  cbv zeta; cbn [bind steps_keep];
  lazymatch goal with
  | |- True => exact I
  | |- forall _, _ => intro; walk_steps leaf
  | |- _ /\ _ => split; [cbv beta; leaf | walk_steps leaf]
  | |- steps_keep _ (try_except_Interrupt _ _) _ =>
      apply steps_keep_try; [walk_steps leaf | intros; walk_steps leaf]
  | |- steps_keep _ (bind _ _) _ =>
      apply steps_keep_bind; [walk_steps leaf | intros; walk_steps leaf]
  | |- steps_keep _ (if ?b then _ else _) _ =>
      destruct b eqn:?; walk_steps leaf
  | |- steps_keep _ (match ?x with _ => _ end) _ =>
      destruct x eqn:?; walk_steps leaf
  end.

Ltac open_process :=
  unfold FinancialRecoveryProgram_process, TechnicalRecoveryProgram_process,
    InspectionProgram_process, EngineeringAssessment_process,
    PermitProgram_process, IndividualAssistance_process,
    OwnersInsurance_process, HomeLoan_process, RepairProgram_process,
    check_material, withdraw, run_callbacks, tell, yield, sample,
    get_entity, get_building, get_container, env_now, set_entity,
    set_building, SimPy.request, SimPy.release, SimPy.get, SimPy.put, modify.

Ltac each_program call :=
  destruct call as [self entity|self entity
                   |self structure entity callbacks
                   |self structure entity callbacks
                   |self structure entity callbacks
                   |[self entity callbacks|self entity callbacks
                    |self entity callbacks
                    |cfg self structure entity callbacks]];
  cbn [program_process cancellable_process].

(** *** Stories *)

Lemma story_grows_refl x : story_grows x x.
Proof.
  split; [reflexivity|split; [|reflexivity]].
  exists []. now rewrite app_nil_r.
Qed.

Lemma story_grows_trans x1 x2 x3 :
  story_grows x1 x2 -> story_grows x2 x3 -> story_grows x1 x3.
Proof.
  intros (W1 & [a1 A1] & S1) (W2 & [a2 A2] & S2).
  split; [congruence|split].
  - exists (a1 ++ a2). now rewrite A2, A1, app_assoc.
  - intros H. rewrite S2, S1; congruence.
Qed.

(** What is asked of a write, for a relation [kept P Q]: a write that is
    not to an entity or a building keeps everything. *)
Ltac kept_leaf Prefl Qrefl entity_case building_case :=
  first
    [ apply (kept_frame _ _ Prefl Qrefl); reflexivity
    | apply (kept_upd_entity _ _ Prefl Qrefl); entity_case
    | apply (kept_upd_building _ _ Prefl Qrefl); building_case ].

Ltac story_leaf :=
  kept_leaf story_grows_refl (@anything_refl Building)
    ltac:(first
            [ split; [reflexivity|split; [|intros; reflexivity]];
              exists []; symmetry; apply app_nil_r
            | split; [reflexivity|split; [|intros; cbn in *; congruence]];
              eexists; reflexivity ])
    ltac:(exact I).

Lemma programs_keep_stories call w :
  steps_keep (kept story_grows anything) (program_process call) w.
Proof.
  revert w. each_program call; intros w; open_process;
    walk_steps story_leaf.
Qed.

(** A process alone in the simulation makes a run. *)
Lemma run_app w1 w2 w3 : run w1 w2 -> run w2 w3 -> run w1 w3.
Proof.
  intros H12 H23. induction H12 as [w|w w' w'' Hs Hr IH|w w' w'' He Hb Hr IH].
  - exact H23.
  - eapply run_program; eauto.
  - eapply run_other; eauto.
Qed.

Lemma run_stretch call (g : Gen unit) w :
  reachable (program_process call) g -> run w (fst (run_sync g w)).
Proof.
  intros Hreach. eapply run_program; [|apply run_end].
  eapply (stretch_of call g w _ (snd (run_sync g w))); [exact Hreach|].
  now destruct (run_sync g w).
Qed.

Lemma alone_runs call (sigs : list Signal) :
  forall (g : Gen unit) w,
    reachable (program_process call) g ->
    run w (fst (alone (run_sync g w) sigs)).
Proof.
  induction sigs as [|sig sigs IH]; intros g w Hreach.
  - now apply (run_stretch call).
  - cbn [alone].
    destruct (run_sync g w) as [w1 s] eqn:Erun.
    assert (Hfirst : run w w1).
    { pose proof (run_stretch call g w Hreach) as H. now rewrite Erun in H. }
    destruct s as [ev k|a|e]; cbn [fst snd]; try exact Hfirst.
    destruct sig as [|cause].
    + destruct (fired ev w1); [|exact Hfirst].
      eapply run_app; [exact Hfirst|].
      eapply (run_other _ (fire ev w1)).
      * now destruct ev.
      * now destruct ev.
      * apply IH. eapply reach_resume; eauto.
    + eapply run_app; [exact Hfirst|].
      apply IH. eapply reach_resume; eauto.
Qed.

(** X9.  Along any run, the story of every entity only grows at its end:
    no program removes or rewrites a sentence.  The story of an entity
    whose [write_story] is off does not change at all, and no program
    changes [write_story]. *)
Theorem stories_only_grow (w w' : World) :
  run w w' ->
  forall e,
    write_story (entities w' e) = write_story (entities w e)
    /\ (exists added, story (entities w' e) = story (entities w e) ++ added)
    /\ (write_story (entities w e) = false ->
        story (entities w' e) = story (entities w e)).
Proof.
  intros Hrun e.
  exact (proj1 (kept_run story_grows anything story_grows_refl
                  story_grows_trans anything_refl anything_trans
                  programs_keep_stories w w' Hrun) e).
Qed.

Lemma stories_only_grow_witness :
  let g := IndividualAssistance_process example_assistance 0%nat None in
  let w' := fst (alone (run_sync g example_world) [Send; Send; Send]) in
  run example_world w'
  /\ story (entities w' 0%nat)
     = [Story_NRA_submitted "asha" (Some 0);
        Story_NRA_partial "asha" 50000 30000 (Some (0 + 5))]
  /\ exists added,
       story (entities w' 0%nat)
       = story (entities example_world 0%nat) ++ added.
Proof.
  intros g w'.
  assert (H : run example_world w').
  { apply (alone_runs
             (Run_Cancellable
                (Call_IndividualAssistance example_assistance 0%nat None))).
    apply reach_start. }
  split; [exact H|split; [reflexivity|]].
  exact (proj1 (proj2 (stories_only_grow _ _ H 0%nat))).
Defined.

(** *** Inputs and valuations *)

Lemma same_inputs_refl x : same_inputs x x.
Proof. repeat split. Qed.

Lemma same_inputs_trans x1 x2 x3 :
  same_inputs x1 x2 -> same_inputs x2 x3 -> same_inputs x1 x3.
Proof.
  unfold same_inputs. intros H1 H2.
  repeat match goal with H : _ /\ _ |- _ => destruct H end.
  repeat split; congruence.
Qed.

Lemma same_valuation_refl s : same_valuation s s.
Proof. repeat split. Qed.

Lemma same_valuation_trans s1 s2 s3 :
  same_valuation s1 s2 -> same_valuation s2 s3 -> same_valuation s1 s3.
Proof.
  unfold same_valuation. intros H1 H2.
  repeat match goal with H : _ /\ _ |- _ => destruct H end.
  repeat split; congruence.
Qed.

Lemma programs_keep_inputs call w :
  steps_keep (kept same_inputs same_valuation) (program_process call) w.
Proof.
  revert w. each_program call; intros w; open_process;
    walk_steps ltac:(kept_leaf same_inputs_refl same_valuation_refl
                       ltac:(repeat split) ltac:(repeat split)).
Qed.

(** X10.  No program changes what an owner or a building was given at
    construction.  Along any run, every entity keeps its [name],
    [write_story], [insurance], [savings], [income] and [property], and
    every building keeps its owner, remoteness, damage state and type and
    its five valuations: [plinth_value], [wall_value], [roof_value],
    [damage_value] and [value].  In particular a repair lowers neither the
    damage value nor the savings. *)
Theorem inputs_and_valuations_are_never_written (w w' : World) :
  run w w' ->
  (forall e, same_inputs (entities w e) (entities w' e))
  /\ (forall b, same_valuation (buildings w b) (buildings w' b)).
Proof.
  exact (kept_run same_inputs same_valuation same_inputs_refl
           same_inputs_trans same_valuation_refl same_valuation_trans
           programs_keep_inputs w w').
Qed.

Lemma inputs_and_valuations_are_never_written_witness :
  let g := RepairProgram_process repair_config repair_program
                                 0%nat 0%nat None in
  let w' := fst (alone (run_sync g stocked_world)
                       [Send; Send; Send; Send; Send; Send; Send]) in
  run stocked_world w'
  /\ new_plinth (buildings w' 0%nat) = true
  /\ damage_value (buildings w' 0%nat) = 900000
  /\ savings (entities w' 0%nat) = 500000.
Proof.
  intros g w'.
  assert (H : run stocked_world w').
  { apply (alone_runs
             (Run_Cancellable
                (Call_Repair repair_config repair_program 0%nat 0%nat None))).
    apply reach_start. }
  split; [exact H|split; [reflexivity|]].
  destruct (inputs_and_valuations_are_never_written _ _ H) as [He Hb].
  split.
  - destruct (Hb 0%nat) as (_ & _ & _ & _ & _ & _ & _ & Hd & _). exact Hd.
  - destruct (He 0%nat) as (_ & _ & _ & Hs & _). exact Hs.
Defined.

(** *** Marks on buildings *)

Lemma marks_stay_refl s : marks_stay s s.
Proof. repeat split; auto. Qed.

Lemma marks_stay_trans s1 s2 s3 :
  marks_stay s1 s2 -> marks_stay s2 s3 -> marks_stay s1 s3.
Proof.
  unfold marks_stay. intros H1 H2.
  repeat match goal with H : _ /\ _ |- _ => destruct H end.
  repeat split; auto.
Qed.

Lemma programs_keep_marks call w :
  steps_keep (kept anything marks_stay) (program_process call) w.
Proof.
  revert w. each_program call; intros w; open_process;
    walk_steps ltac:(kept_leaf (@anything_refl Entity) marks_stay_refl
                       ltac:(exact I) ltac:(repeat split; cbn; auto)).
Qed.

(** X11.  The marks the programs leave on a building are never taken
    back.  Along any run, for every building, [inspected], [permit] and
    [assessment], and the installment flags [first_inst], [second_inst] and
    [third_inst], stay true once they are true. *)
Theorem marks_on_buildings_are_never_taken_back (w w' : World) :
  run w w' -> forall b, marks_stay (buildings w b) (buildings w' b).
Proof.
  intros Hrun.
  exact (proj2 (kept_run anything marks_stay anything_refl anything_trans
                  marks_stay_refl marks_stay_trans
                  programs_keep_marks w w' Hrun)).
Qed.

Lemma marks_on_buildings_are_never_taken_back_witness :
  let inspection :=
    InspectionProgram_process example_inspection 0%nat (Some 0%nat) None in
  let permitting := PermitProgram_process example_permit 0%nat 0%nat None in
  let w1 := fst (alone (run_sync inspection example_world) [Send; Send]) in
  let w2 := fst (alone (run_sync permitting w1) [Send; Send]) in
  run w1 w2
  /\ inspected (buildings w1 0%nat) = true
  /\ permit (buildings w2 0%nat) = true
  /\ inspected (buildings w2 0%nat) = true.
Proof.
  intros inspection permitting w1 w2.
  assert (H : run w1 w2).
  { apply (alone_runs (Run_Permit example_permit 0%nat 0%nat None)).
    apply reach_start. }
  split; [exact H|split; [reflexivity|split; [reflexivity|]]].
  apply (proj1 (marks_on_buildings_are_never_taken_back _ _ H 0%nat)).
  reflexivity.
Defined.

(** *** Recorded times *)

Lemma stamps_stay_refl x : stamps_stay x x.
Proof. repeat split; auto. Qed.

Lemma stamps_stay_trans x1 x2 x3 :
  stamps_stay x1 x2 -> stamps_stay x2 x3 -> stamps_stay x1 x3.
Proof.
  unfold stamps_stay. intros H1 H2.
  repeat match goal with H : _ /\ _ |- _ => destruct H end.
  repeat split; first [congruence|auto].
Qed.

Lemma programs_keep_stamps call w :
  steps_keep (kept stamps_stay anything) (program_process call) w.
Proof.
  revert w. each_program call; intros w; open_process;
    walk_steps ltac:(kept_leaf stamps_stay_refl (@anything_refl Building)
                       ltac:(repeat split; cbn;
                             first [discriminate|auto])
                       ltac:(exact I)).
Qed.

(** X12.  Along any run, a time that has been recorded on an entity stays
    recorded: none of the twelve request and receipt times of inspection,
    claim, assistance, loan, permit and assessment goes back to [None].
    The three attributes [repair_put], [repair_get] and
    [gave_up_funding_search] are never written: RepairProgram records its
    times in [rebuild_put] and [rebuild_get], and no handler records that
    an entity gave up. *)
Theorem recorded_times_are_never_erased (w w' : World) :
  run w w' -> forall e, stamps_stay (entities w e) (entities w' e).
Proof.
  intros Hrun.
  exact (proj1 (kept_run stamps_stay anything stamps_stay_refl
                  stamps_stay_trans anything_refl anything_trans
                  programs_keep_stamps w w' Hrun)).
Qed.

Lemma recorded_times_are_never_erased_witness :
  let permitting := PermitProgram_process example_permit 0%nat 0%nat None in
  let assistance :=
    IndividualAssistance_process example_assistance 0%nat None in
  let w1 := fst (alone (run_sync permitting example_world) [Send; Send]) in
  let w2 := fst (alone (run_sync assistance w1) [Send; Send; Send]) in
  run w1 w2
  /\ permit_put (entities w1 0%nat) = Some 0
  /\ assistance_put (entities w2 0%nat) = Some (0 + 5)
  /\ permit_put (entities w2 0%nat) <> None.
Proof.
  intros permitting assistance w1 w2.
  assert (H : run w1 w2).
  { apply (alone_runs
             (Run_Cancellable
                (Call_IndividualAssistance example_assistance 0%nat None))).
    apply reach_start. }
  split; [exact H|split; [reflexivity|split; [reflexivity|]]].
  apply (proj1 (proj2 (proj2 (proj2 (proj2 (proj2 (proj2 (proj2 (proj2
           (recorded_times_are_never_erased _ _ H 0%nat)))))))))).
  discriminate.
Defined.

(** *** Debt *)

Lemma debt_grows_refl x : debt_grows x x.
Proof. apply Qle_refl. Qed.

Lemma debt_grows_trans x1 x2 x3 :
  debt_grows x1 x2 -> debt_grows x2 x3 -> debt_grows x1 x3.
Proof. apply Qle_trans. Qed.

Lemma debt_grows_by_a_loan d l : Qlt_bool 0.0 l = true -> d <= d + l.
Proof.
  intros H. rewrite Qlt_bool_0_0 in H. unfold Qlt_bool in H.
  apply negb_true_iff in H.
  destruct (Qlt_le_dec 0 l) as [Hl|Hl].
  - lra.
  - apply Qle_bool_iff in Hl. congruence.
Qed.

Lemma programs_keep_debt call w :
  steps_keep (kept debt_grows anything) (program_process call) w.
Proof.
  revert w. each_program call; intros w; open_process;
    walk_steps ltac:(kept_leaf debt_grows_refl (@anything_refl Building)
                       ltac:(first
                               [ apply Qle_refl
                               | unfold debt_grows;
                                 repeat match goal with
                                        | H : Qlt_bool _ _ = true |- _ =>
                                            revert H
                                        end;
                                 simp_world; intros;
                                 apply debt_grows_by_a_loan; assumption ])
                       ltac:(exact I)).
Qed.

(** X13.  Debt never goes down.  Along any run the [debt] of every entity
    is at least what it was: the only write to it is HomeLoan adding a
    loan amount it has just found strictly positive, and nothing repays. *)
Theorem debt_never_decreases (w w' : World) :
  run w w' -> forall e, debt (entities w e) <= debt (entities w' e).
Proof.
  intros Hrun.
  exact (proj1 (kept_run debt_grows anything debt_grows_refl
                  debt_grows_trans anything_refl anything_trans
                  programs_keep_debt w w' Hrun)).
Qed.

Lemma debt_never_decreases_witness :
  let g := HomeLoan_process example_loan 0%nat None in
  let w' := fst (alone (run_sync g example_world) [Send; Send]) in
  run example_world w'
  /\ debt (entities w' 0%nat) = 200000
  /\ debt (entities example_world 0%nat) <= debt (entities w' 0%nat).
Proof.
  intros g w'.
  assert (H : run example_world w').
  { apply (alone_runs
             (Run_Cancellable (Call_HomeLoan example_loan 0%nat None))).
    apply reach_start. }
  split; [exact H|split; [reflexivity|]].
  exact (debt_never_decreases _ _ H 0%nat).
Defined.


(** *** Footprints *)

Lemma footprint_refl call w : footprint call w w.
Proof. repeat split. Qed.

Lemma footprint_trans call w1 w2 w3 :
  footprint call w1 w2 -> footprint call w2 w3 -> footprint call w1 w3.
Proof.
  intros (E1 & P1 & B1 & R1 & C1) (E2 & P2 & B2 & R2 & C2).
  split; [|split; [|split; [|split]]].
  - intros e He. rewrite E2, E1; auto.
  - intros e. rewrite P2, P1; auto.
  - intros b Hs Hp. rewrite B2, B1; auto.
    intros e He. rewrite P1. auto.
  - intros r Hr. rewrite R2, R1; auto.
  - intros c Hc. rewrite C2, C1; auto.
Qed.

Ltac footprint_leaf :=
  unfold footprint;
  cbn [call_entity call_structure call_pool call_containers
       cancellable_entity];
  split; [|split; [|split; [|split]]]; intros;
  cbn [entities buildings resources containers upd_entity upd_building
       upd_resource upd_container bump_id bump_rng];
  unfold upd;
  repeat match goal with
         | |- context [Nat.eqb ?a ?b] => destruct (Nat.eqb_spec a b); subst
         end;
  first
    [ reflexivity
    | congruence
    | exfalso;
      match goal with
      | H : forall e, Some _ = Some e -> _ |- _ =>
          eapply H; [reflexivity|]; simp_world; reflexivity
      | H : ~ In _ _ |- _ => apply H; cbn; tauto
      end ].

Lemma programs_keep_to_their_footprint call w :
  steps_keep (footprint call) (program_process call) w.
Proof.
  revert w. each_program call; intros w; open_process;
    walk_steps footprint_leaf.
Qed.

Lemma stretch_keeps_to_footprint call (g : Gen unit) w w' s :
  reachable (program_process call) g ->
  run_sync g w = (w', s) ->
  footprint call w w'.
Proof.
  intros Hreach Hrun.
  pose proof (steps_keep_reachable (footprint call) (footprint_refl call)
                (footprint_trans call) _ _
                (programs_keep_to_their_footprint call) Hreach w) as Hg.
  exact (proj1 (steps_keep_run_sync (footprint call) (footprint_refl call)
                  (footprint_trans call) g w Hg _ _ Hrun)).
Qed.

(** X14.  A process keeps to its own footprint.  In every stretch of every
    process, started or resumed in any world and with any signal, the only
    entity written is the one the process was run for; the only buildings
    written are the structure it was handed and that entity's property;
    the only pool touched is the one it hires from; and the only
    containers touched are its own (the budget of IndividualAssistance,
    the nine material containers of RepairProgram).  No entity's
    [property] is reassigned. *)
Theorem a_process_keeps_to_its_footprint
  (call : ProgramCall) (g : Gen unit) (w w' : World) (s : Stop unit) :
  reachable (program_process call) g ->
  run_sync g w = (w', s) ->
  (forall e, call_entity call <> Some e -> entities w' e = entities w e)
  /\ (forall e, property (entities w' e) = property (entities w e))
  /\ (forall b,
        call_structure call <> Some b ->
        (forall e, call_entity call = Some e ->
                   property (entities w e) <> b) ->
        buildings w' b = buildings w b)
  /\ (forall r, r <> call_pool call -> resources w' r = resources w r)
  /\ (forall c, ~ In c (call_containers call) ->
                containers w' c = containers w c).
Proof. apply stretch_keeps_to_footprint. Qed.

Lemma a_process_keeps_to_its_footprint_witness :
  let call := Run_Cancellable
                (Call_IndividualAssistance example_assistance 0%nat None) in
  let st := run_sync (program_process call) example_world in
  run_sync (program_process call) example_world = (fst st, snd st)
  /\ assistance_put (entities (fst st) 0%nat) = Some 0
  /\ entities (fst st) 1%nat = entities example_world 1%nat
  /\ resources (fst st) 1%nat = resources example_world 1%nat.
Proof.
  intros call st.
  assert (H : run_sync (program_process call) example_world
              = (fst st, snd st)) by reflexivity.
  split; [exact H|split; [reflexivity|]].
  destruct (a_process_keeps_to_its_footprint
              call (program_process call) example_world (fst st) (snd st)
              (reach_start _) H) as (He & _ & _ & Hr & _).
  split; [apply He; discriminate|apply Hr; discriminate].
Defined.

(** X15.  Two resources the constructors set up are never used.  The
    budget of OwnersInsurance and of HomeLoan: no stretch of their
    processes changes any container, so claims and loans are paid without
    drawing on the program's budget.  And the staff pool of RepairProgram:
    its process hires from the [skilled] pool it was handed, and leaves
    the pool its own constructor created as it is.  IndividualAssistance,
    for its part, touches no container but its budget. *)
Theorem budget_and_repair_staff_are_never_used
  (c : Cancellable) (g : Gen unit) (w w' : World) (s : Stop unit) :
  reachable (cancellable_process c) g ->
  run_sync g w = (w', s) ->
  match c with
  | Call_OwnersInsurance _ _ _ | Call_HomeLoan _ _ _ =>
      forall x, containers w' x = containers w x
  | Call_Repair _ self _ _ _ =>
      t_staff self <> skilled self ->
      resources w' (t_staff self) = resources w (t_staff self)
  | Call_IndividualAssistance self _ _ =>
      forall x, x <> budget self -> containers w' x = containers w x
  end.
Proof.
  intros Hreach Hrun.
  destruct (stretch_keeps_to_footprint (Run_Cancellable c) g w w' s
              Hreach Hrun) as (_ & _ & _ & Hr & Hc).
  destruct c as [self entity callbacks|self entity callbacks
                |self entity callbacks|cfg self structure entity callbacks];
    cbn [call_pool call_containers] in *.
  - intros x Hx. apply Hc. cbn. intros [E|[]]. congruence.
  - intros x. apply Hc. intros [].
  - intros x. apply Hc. intros [].
  - intros Hne. now apply Hr.
Qed.

Lemma budget_and_repair_staff_are_never_used_witness :
  let c := Call_HomeLoan example_loan 0%nat None in
  let st := run_sync (cancellable_process c) example_world in
  run_sync (cancellable_process c) example_world = (fst st, snd st)
  /\ loan_put (entities (fst st) 0%nat) = Some 0
  /\ forall x, containers (fst st) x = containers example_world x.
Proof.
  intros c st.
  assert (H : run_sync (cancellable_process c) example_world
              = (fst st, snd st)) by reflexivity.
  split; [exact H|split; [reflexivity|]].
  exact (budget_and_repair_staff_are_never_used
           c (cancellable_process c) example_world _ _ (reach_start _) H).
Defined.

(** ** Construction *)

Lemma num_ltb_false_of_leb a b : num_leb a b = true -> num_ltb b a = false.
Proof. unfold num_ltb. now intros ->. Qed.

Lemma num_leb_false_of_ltb a b : num_ltb a b = true -> num_leb b a = false.
Proof. unfold num_ltb. intros H. now apply negb_true_iff in H. Qed.

(** X16.  What a constructor builds when it does not fail.  With
    [staff > 0], the constructor of a technical program succeeds: it
    stores one new pool, of capacity [staff] and with nobody in it, under
    a reference that was not in use, and changes nothing else;
    RepairProgram keeps the ten handles and the stage it is given.  With
    [budget >= 0] as well, the constructor of a financial program
    succeeds: besides the pool it stores one new container, of unlimited
    capacity and holding exactly [budget], and the three subclasses keep
    their own parameter next to it. *)
Theorem construction_builds_a_fresh_pool_and_budget
  (d : nat -> Q) (staff_n : num) (w : World) :
  num_ltb (Fin 0) staff_n = true ->
  (exists program w',
     TechnicalRecoveryProgram_init d staff_n w = inr (program, w')
     /\ t_staff program = next_ref w
     /\ t_duration program = d
     /\ next_ref w' = S (next_ref w)
     /\ resources w' (t_staff program) = mkResource staff_n [] []
     /\ (forall r, r <> t_staff program -> resources w' r = resources w r)
     /\ containers w' = containers w
     /\ entities w' = entities w
     /\ buildings w' = buildings w
     /\ forall entity build_stage stone brick timber rebar cement cgi
               aggregate sand unskilled skilled,
          RepairProgram_init entity build_stage stone brick timber rebar
            cement cgi aggregate sand unskilled skilled d staff_n w
          = inr (mkRepairProgram program stone brick timber rebar cement cgi
                                 aggregate sand unskilled skilled build_stage,
                 w'))
  /\ forall budget_n,
       num_leb (Fin 0) budget_n = true ->
       exists program w',
         FinancialRecoveryProgram_init d staff_n budget_n w
         = inr (program, w')
         /\ staff program = next_ref w
         /\ budget program = S (next_ref w)
         /\ duration program = d
         /\ next_ref w' = S (S (next_ref w))
         /\ resources w' (staff program) = mkResource staff_n [] []
         /\ containers w' (budget program) = mkContainer Inf budget_n [] []
         /\ (forall r, r <> staff program -> resources w' r = resources w r)
         /\ (forall c, c <> budget program ->
                       containers w' c = containers w c)
         /\ entities w' = entities w
         /\ buildings w' = buildings w
         /\ (forall m,
               IndividualAssistance_init d staff_n budget_n m w
               = inr (mkIndividualAssistance program m, w'))
         /\ (forall x,
               OwnersInsurance_init d staff_n budget_n x w
               = inr (mkOwnersInsurance program x, w'))
         /\ (forall l i,
               HomeLoan_init d staff_n budget_n l i w
               = inr (mkHomeLoan program i l, w')).
Proof.
  intros Hstaff. apply num_leb_false_of_ltb in Hstaff.
  split.
  - unfold RepairProgram_init, TechnicalRecoveryProgram_init,
      SimPy.Resource_init.
    rewrite Hstaff. cbn.
    do 2 eexists. split; [reflexivity|]. cbn.
    rewrite upd_same.
    repeat split.
    intros r Hr. now apply upd_other.
  - intros budget_n Hbudget. apply num_ltb_false_of_leb in Hbudget.
    unfold IndividualAssistance_init, OwnersInsurance_init, HomeLoan_init,
      FinancialRecoveryProgram_init, SimPy.Resource_init,
      SimPy.Container_init.
    rewrite Hstaff.
    assert (T : num_leb Inf (Fin 0) = false) by reflexivity.
    assert (U : num_ltb Inf budget_n = false)
      by (apply num_ltb_false_of_leb, num_leb_Inf).
    cbn. rewrite T, Hbudget, U. cbn.
    do 2 eexists. split; [reflexivity|]. cbn.
    rewrite !upd_same.
    repeat split.
    + intros r Hr. now apply upd_other.
    + intros c Hc. now apply upd_other.
Qed.

Lemma construction_builds_a_fresh_pool_and_budget_witness :
  num_ltb (Fin 0) (Fin 2) = true
  /\ num_leb (Fin 0) (Fin 0) = true
  /\ exists program w',
       FinancialRecoveryProgram_init (fun _ => 5) (Fin 2) (Fin 0) example_world
       = inr (program, w')
       /\ resources w' (staff program) = mkResource (Fin 2) [] []
       /\ containers w' (budget program) = mkContainer Inf (Fin 0) [] [].
Proof.
  assert (H1 : num_ltb (Fin 0) (Fin 2) = true) by reflexivity.
  assert (H2 : num_leb (Fin 0) (Fin 0) = true) by reflexivity.
  split; [exact H1|split; [exact H2|]].
  destruct (proj2 (construction_builds_a_fresh_pool_and_budget
                     (fun _ => 5) (Fin 2) example_world H1) (Fin 0) H2)
    as (program & w' & Hinit & _ & _ & _ & _ & Hpool & Hbudget & _).
  exists program, w'. split; [exact Hinit|split; [exact Hpool|exact Hbudget]].
Defined.

(** ** Valuation *)

Lemma Qplus_nonneg a b : 0 <= a -> 0 <= b -> 0 <= a + b.
Proof. intros. lra. Qed.

Lemma wrap64_in_range z : (0 <= z < 2 ^ 63)%Z -> wrap64 z = z.
Proof.
  intros Hz. unfold wrap64.
  rewrite Z.mod_small; lia.
Qed.

Lemma cell_below_value bound c : cell_below bound c -> 0 <= cell_value c.
Proof.
  destruct c as [z|q]; cbn; [|auto].
  intros [Hz _]. change 0 with (inject_Z 0). now rewrite <- Zle_Qle.
Qed.

(** The product and the sum of cells in range stay in range as long as the
    bounds leave room. *)
Lemma np_mul_below a b x y :
  cell_below a x -> cell_below b y -> (a * b <= 2 ^ 63)%Z ->
  cell_below (a * b) (np_mul x y).
Proof.
  intros Hx Hy Hab.
  destruct x as [x|p], y as [y|q]; cbn [np_mul cell_below cell_value].
  - cbn in Hx, Hy. rewrite wrap64_in_range; nia.
  - apply Qmult_le_0_compat; [exact (cell_below_value _ _ Hx)|exact Hy].
  - apply Qmult_le_0_compat; [exact Hx|exact (cell_below_value _ _ Hy)].
  - now apply Qmult_le_0_compat.
Qed.

Lemma np_add_below a b x y :
  cell_below a x -> cell_below b y -> (a + b <= 2 ^ 63)%Z ->
  cell_below (a + b) (np_add x y).
Proof.
  intros Hx Hy Hab.
  destruct x as [x|p], y as [y|q]; cbn [np_add cell_below cell_value].
  - cbn in Hx, Hy. rewrite wrap64_in_range; lia.
  - apply Qplus_nonneg; [exact (cell_below_value _ _ Hx)|exact Hy].
  - apply Qplus_nonneg; [exact Hx|exact (cell_below_value _ _ Hy)].
  - now apply Qplus_nonneg.
Qed.

(** A float on either side makes the result a float. *)
Lemma np_add_float_r x q : np_add x (Float64 q) = Float64 (cell_value x + q).
Proof. now destruct x. Qed.

Lemma np_mul_float_l p y : np_mul (Float64 p) y = Float64 (p * cell_value y).
Proof. now destruct y. Qed.

Lemma np_mul_float_r x q : np_mul x (Float64 q) = Float64 (cell_value x * q).
Proof. now destruct x. Qed.

Lemma np_add_float_l p y : np_add (Float64 p) y = Float64 (p + cell_value y).
Proof. now destruct y. Qed.

(** The valuation with the float operations carried out: what is left of
    the [int64] arithmetic is the sum of the first three products, and
    three products more. *)
Lemma stage_value_floats cfg building lvl ratio :
  let cell m := house_types cfg (owners_new_house cfg (row_Name building))
                            m lvl in
  let cost := material_cost cfg in
  stage_value cfg building lvl ratio
  = cell_value ratio
    * (cell_value (np_add (np_add (np_mul (cell Cement) (cost Cement))
                                  (np_mul (cell Rebar) (cost Rebar)))
                          (np_mul (cell CGI_Sheet) (cost CGI_Sheet)))
       + cell_value (cell Brick) * 0.75 * cell_value (cost Brick)
       + cell_value (cell Wood) * 0.7 * cell_value (cost Wood)
       + cell_value (cell Stone) * 0.2 * cell_value (cost Stone)
       + cell_value (np_mul (cell Sand) (cost Sand))
       + cell_value (cell Aggregate) * 0.5 * cell_value (cost Aggregate))
    + cell_value (np_mul (cell Skilled) (cost Skilled))
    + cell_value (np_mul (cell Unskilled) (cost Unskilled))
    + row_Remoteness building * 0.5.
Proof.
  intros cell cost. subst cell cost. unfold stage_value, scaled. cbv zeta.
  repeat (progress (rewrite ?np_mul_float_l, ?np_add_float_r,
                      ?np_add_float_l, ?np_mul_float_r; cbn [cell_value])).
  reflexivity.
Qed.

Lemma stage_value_nonneg cfg building lvl ratio :
  tables_in_range cfg -> 0 <= row_Remoteness building ->
  cell_below (2 ^ 30) ratio ->
  0 <= stage_value cfg building lvl ratio.
Proof.
  intros (Hq & Hc & _ & _) Hrem Hratio.
  rewrite stage_value_floats. cbv zeta.
  set (sheet := owners_new_house cfg (row_Name building)).
  assert (Hm : forall m, cell_below (2 ^ 30 * 2 ^ 30)
                           (np_mul (house_types cfg sheet m lvl)
                                   (material_cost cfg m))).
  { intros m. apply np_mul_below; [apply Hq|apply Hc|]. now vm_compute. }
  assert (Hv : forall m, 0 <= cell_value (house_types cfg sheet m lvl)).
  { intros m. exact (cell_below_value _ _ (Hq sheet m lvl)). }
  assert (Hw : forall m, 0 <= cell_value (material_cost cfg m)).
  { intros m. exact (cell_below_value _ _ (Hc m)). }
  assert (H3 : cell_below (2 ^ 30 * 2 ^ 30 + 2 ^ 30 * 2 ^ 30 + 2 ^ 30 * 2 ^ 30)
                 (np_add (np_add (np_mul (house_types cfg sheet Cement lvl)
                                         (material_cost cfg Cement))
                                 (np_mul (house_types cfg sheet Rebar lvl)
                                         (material_cost cfg Rebar)))
                         (np_mul (house_types cfg sheet CGI_Sheet lvl)
                                 (material_cost cfg CGI_Sheet)))).
  { apply np_add_below; [apply np_add_below| |]; try apply Hm;
      now vm_compute. }
  pose proof (cell_below_value _ _ H3).
  pose proof (cell_below_value _ _ (Hm Sand)).
  pose proof (cell_below_value _ _ (Hm Skilled)).
  pose proof (cell_below_value _ _ (Hm Unskilled)).
  pose proof (cell_below_value _ _ Hratio).
  pose proof (Hv Brick). pose proof (Hv Wood). pose proof (Hv Stone).
  pose proof (Hv Aggregate).
  pose proof (Hw Brick). pose proof (Hw Wood). pose proof (Hw Stone).
  pose proof (Hw Aggregate).
  repeat first
    [ apply Qplus_nonneg | apply Qmult_le_0_compat
    | assumption | lra ].
Qed.

(** X17.  The valuation of a new building, for lookup tables without
    negative entries whose whole numbers stay below 2^30, and a remoteness
    that is not negative.  No [int64] product or sum wraps around, and the
    three stage valuations are not negative; [damage_value] is their sum
    and [value] is the damage value.  So for every building that carries
    this valuation, whatever its flags, each stage costs at most the damage
    value: an owner who can pay the damage value can pay for the stage at
    hand, whichever it is. *)
Theorem a_new_building_is_valued_stage_by_stage
  (cfg : Config) (building : BuildingRow) :
  tables_in_range cfg ->
  0 <= row_Remoteness building ->
  let b := Building_init cfg building in
  0 <= plinth_value b /\ 0 <= wall_value b /\ 0 <= roof_value b
  /\ damage_value b = plinth_value b + wall_value b + roof_value b
  /\ value b = damage_value b
  /\ forall s : Building,
       same_valuation b s ->
       (forall lvl, stage_cost lvl s <= damage_value s)
       /\ current_stage_value s <= damage_value s.
Proof.
  intros Htables Hrem b.
  assert (Hp : 0 <= plinth_value b).
  { apply stage_value_nonneg; auto. apply Htables. }
  assert (Hw : 0 <= wall_value b).
  { apply stage_value_nonneg; auto. apply Htables. }
  assert (Hr : 0 <= roof_value b).
  { apply stage_value_nonneg; auto. apply Htables. }
  assert (Hd : damage_value b = plinth_value b + wall_value b + roof_value b)
    by reflexivity.
  split; [exact Hp|split; [exact Hw|split; [exact Hr|]]].
  split; [exact Hd|split; [reflexivity|]].
  intros s (_ & _ & _ & _ & Ep & Ew & Er & Ed & _).
  split.
  - intros lvl. rewrite Ed, Hd.
    destruct lvl; cbn [stage_cost]; rewrite ?Ep, ?Ew, ?Er; lra.
  - unfold current_stage_value. rewrite Ed, Hd.
    destruct (negb (new_plinth s)); [rewrite Ep; lra|].
    destruct (negb (new_walls s)); [rewrite Ew; lra|rewrite Er; lra].
Qed.

Lemma a_new_building_is_valued_stage_by_stage_witness :
  tables_in_range repair_config
  /\ 0 <= row_Remoteness example_row
  /\ plinth_value (Building_init repair_config example_row) == 15
  /\ 0 <= plinth_value (Building_init repair_config example_row).
Proof.
  assert (H1 : tables_in_range repair_config).
  { repeat split; intros; try destruct m; cbn; try lia;
      try (apply Qle_bool_iff; reflexivity). }
  assert (H2 : 0 <= row_Remoteness example_row)
    by (apply Qle_bool_iff; reflexivity).
  split; [exact H1|split; [exact H2|split; [reflexivity|]]].
  exact (proj1 (a_new_building_is_valued_stage_by_stage
                  repair_config example_row H1 H2)).
Defined.

(** Outside that range the valuation is not the sum it is meant to be:
    4,000,000,000 bags of cement at 4,000,000,000 each wrap around to a
    negative plinth valuation. *)
Example an_overflowing_product_gives_a_negative_valuation :
  plinth_value (Building_init overflowing_config town_row)
  == inject_Z (-2446744073709551616)
  /\ plinth_value (Building_init overflowing_config town_row) < 0.
Proof. split; reflexivity. Qed.

(** ** A process alone in the simulation *)

Lemma existsb_snoc id us : existsb (Nat.eqb id) (us ++ [id]) = true.
Proof.
  rewrite existsb_app. cbn. rewrite Nat.eqb_refl. now rewrite !orb_true_r.
Qed.

Lemma remove_first_snoc_fresh id us :
  ~ In id us -> SimPy.remove_first id (us ++ [id]) = us.
Proof.
  induction us as [|u us IH]; cbn; intros Hfresh.
  - now rewrite Nat.eqb_refl.
  - destruct (Nat.eqb_spec u id) as [E|E]; [exfalso; auto|].
    f_equal. apply IH. auto.
Qed.

(** The pool of a process that runs alone, as a record. *)
Ltac open_pool Hslot Hfresh cap us Er Hfree Hrelease :=
  let q := fresh "q" in
  let Hqueue := fresh "Hqueue" in
  destruct Hslot as [Hqueue Hfree];
  match type of Hqueue with
  | queue ?r = [] => destruct r as [cap us q] eqn:Er
  end;
  cbn [queue users capacity] in Hqueue, Hfree, Hfresh; subst q;
  pose proof (remove_first_snoc_fresh _ _ Hfresh) as Hrelease.

Lemma Inspection_alone self structure entity callbacks w0 :
  let pool := resources w0 (t_staff self) in
  let d := t_duration self (rng w0) in
  free_slot pool ->
  ~ In (next_id w0) (users pool) ->
  let w' := fst (alone (run_sync (InspectionProgram_process self structure
                                    (Some entity) callbacks) w0)
                       [Send; Send]) in
  inspection_put (entities w' entity) = Some (now w0)
  /\ inspection_get (entities w' entity) = Some (now w0 + d)
  /\ inspected (buildings w' structure) = true
  /\ now w' = now w0 + d
  /\ resources w' (t_staff self) = pool.
Proof.
  intros pool d Hslot Hfresh w'. subst pool d.
  open_pool Hslot Hfresh cap us Er Hfree Hrelease.
  assert (E : exists W, w' = W /\
     (inspection_put (entities W entity) = Some (now w0)
      /\ inspection_get (entities W entity)
         = Some (now w0 + t_duration self (rng w0))
      /\ inspected (buildings W structure) = true
      /\ now W = now w0 + t_duration self (rng w0)
      /\ resources W (t_staff self) = mkResource cap us [])).
  { subst w'. unfold InspectionProgram_process.
    unfold tell, get_entity, get_building, env_now, set_entity, set_building,
      modify.
    destruct (write_story (entities w0 entity)) eqn:Ews;
      [destruct (new_plinth (buildings w0 structure)) eqn:Eplinth;
       [destruct (new_walls (buildings w0 structure)) eqn:Ewalls;
        [destruct (new_roof (buildings w0 structure)) eqn:Eroof|]|]|];
      (eexists; split;
       [ run_code ltac:(rewrite ?Er, ?Hfree, ?existsb_snoc, ?Hrelease, ?Ews,
                        ?Eplinth, ?Ewalls, ?Eroof);
         reflexivity
       | run_code ltac:(rewrite ?Er, ?Hfree, ?existsb_snoc, ?Hrelease, ?Ews,
                        ?Eplinth, ?Ewalls, ?Eroof);
         repeat split ]). }
  destruct E as (W & -> & H). exact H.
Qed.

Lemma Assessment_alone self structure entity callbacks w0 :
  let pool := resources w0 (t_staff self) in
  let d := t_duration self (rng w0) in
  free_slot pool ->
  ~ In (next_id w0) (users pool) ->
  let w' := fst (alone (run_sync (EngineeringAssessment_process self structure
                                    entity callbacks) w0) [Send; Send]) in
  assessment_put (entities w' entity) = Some (now w0)
  /\ assessment_get (entities w' entity) = Some (now w0 + d)
  /\ assessment (buildings w' structure) = true
  /\ now w' = now w0 + d
  /\ resources w' (t_staff self) = pool.
Proof.
  intros pool d Hslot Hfresh w'. subst pool d.
  open_pool Hslot Hfresh cap us Er Hfree Hrelease.
  assert (E : exists W, w' = W /\
     (assessment_put (entities W entity) = Some (now w0)
      /\ assessment_get (entities W entity)
         = Some (now w0 + t_duration self (rng w0))
      /\ assessment (buildings W structure) = true
      /\ now W = now w0 + t_duration self (rng w0)
      /\ resources W (t_staff self) = mkResource cap us [])).
  { subst w'. unfold EngineeringAssessment_process.
    unfold tell, get_entity, get_building, env_now, set_entity, set_building,
      modify.
    destruct (write_story (entities w0 entity)) eqn:Ews; destruct callbacks;
      (eexists; split;
       [ run_code ltac:(rewrite ?Er, ?Hfree, ?existsb_snoc, ?Hrelease, ?Ews);
         reflexivity
       | run_code ltac:(rewrite ?Er, ?Hfree, ?existsb_snoc, ?Hrelease, ?Ews);
         repeat split ]). }
  destruct E as (W & -> & H). exact H.
Qed.

Lemma Permit_alone self structure entity callbacks w0 :
  let pool := resources w0 (t_staff self) in
  let d := t_duration self (rng w0) in
  free_slot pool ->
  ~ In (next_id w0) (users pool) ->
  let w' := fst (alone (run_sync (PermitProgram_process self structure
                                    entity callbacks) w0) [Send; Send]) in
  permit_put (entities w' entity) = Some (now w0)
  /\ permit_get (entities w' entity) = Some (now w0 + d)
  /\ permit (buildings w' structure) = true
  /\ now w' = now w0 + d
  /\ resources w' (t_staff self) = pool.
Proof.
  intros pool d Hslot Hfresh w'. subst pool d.
  open_pool Hslot Hfresh cap us Er Hfree Hrelease.
  assert (E : exists W, w' = W /\
     (permit_put (entities W entity) = Some (now w0)
      /\ permit_get (entities W entity)
         = Some (now w0 + t_duration self (rng w0))
      /\ permit (buildings W structure) = true
      /\ now W = now w0 + t_duration self (rng w0)
      /\ resources W (t_staff self) = mkResource cap us [])).
  { subst w'. unfold PermitProgram_process.
    unfold tell, get_entity, get_building, env_now, set_entity, set_building,
      modify.
    destruct (write_story (entities w0 entity)) eqn:Ews; destruct callbacks;
      (eexists; split;
       [ run_code ltac:(rewrite ?Er, ?Hfree, ?existsb_snoc, ?Hrelease, ?Ews);
         reflexivity
       | run_code ltac:(rewrite ?Er, ?Hfree, ?existsb_snoc, ?Hrelease, ?Ews);
         repeat split ]). }
  destruct E as (W & -> & H). exact H.
Qed.

(** X18.  Inspection, assessment and permit, each run alone against a pool
    with a free slot: the request is granted at once, the timeout moves
    the clock by the sampled duration, and the process records both ends
    of it: the [..._put] time is the time the process started, the
    [..._get] time is that time plus the duration.  The structure is
    marked, and the staff member is released: the pool ends as it was
    found. *)
Theorem paperwork_alone_takes_the_sampled_duration
  (self : TechnicalRecoveryProgram) (structure : bref) (entity : eref)
  (callbacks : option Callback) (w0 : World) :
  let pool := resources w0 (t_staff self) in
  let d := t_duration self (rng w0) in
  free_slot pool ->
  ~ In (next_id w0) (users pool) ->
  (let w' := fst (alone (run_sync (InspectionProgram_process self structure
                                     (Some entity) callbacks) w0)
                        [Send; Send]) in
   inspection_put (entities w' entity) = Some (now w0)
   /\ inspection_get (entities w' entity) = Some (now w0 + d)
   /\ inspected (buildings w' structure) = true
   /\ now w' = now w0 + d
   /\ resources w' (t_staff self) = pool)
  /\ (let w' := fst (alone (run_sync (EngineeringAssessment_process self
                                        structure entity callbacks) w0)
                           [Send; Send]) in
      assessment_put (entities w' entity) = Some (now w0)
      /\ assessment_get (entities w' entity) = Some (now w0 + d)
      /\ assessment (buildings w' structure) = true
      /\ now w' = now w0 + d
      /\ resources w' (t_staff self) = pool)
  /\ (let w' := fst (alone (run_sync (PermitProgram_process self structure
                                        entity callbacks) w0)
                           [Send; Send]) in
      permit_put (entities w' entity) = Some (now w0)
      /\ permit_get (entities w' entity) = Some (now w0 + d)
      /\ permit (buildings w' structure) = true
      /\ now w' = now w0 + d
      /\ resources w' (t_staff self) = pool).
Proof.
  intros pool d Hslot Hfresh. split; [|split].
  - now apply Inspection_alone.
  - now apply Assessment_alone.
  - now apply Permit_alone.
Qed.

Lemma paperwork_alone_takes_the_sampled_duration_witness :
  free_slot (resources example_world 0%nat)
  /\ ~ In (next_id example_world) (users (resources example_world 0%nat))
  /\ let w' := fst (alone (run_sync (PermitProgram_process example_permit
                                       0%nat 0%nat None) example_world)
                          [Send; Send]) in
     permit_put (entities w' 0%nat) = Some 0
     /\ permit_get (entities w' 0%nat) = Some (0 + 5)
     /\ resources w' 0%nat = resources example_world 0%nat.
Proof.
  assert (H1 : free_slot (resources example_world 0%nat))
    by (split; reflexivity).
  assert (H2 : ~ In (next_id example_world)
                    (users (resources example_world 0%nat)))
    by (intros []).
  split; [exact H1|split; [exact H2|]].
  destruct (paperwork_alone_takes_the_sampled_duration
              example_permit 0%nat 0%nat None example_world H1 H2)
    as (_ & _ & Hput & Hget & _ & _ & Hpool).
  split; [exact Hput|split; [exact Hget|exact Hpool]].
Defined.
(** X19.  The first loan of a new owner.  An owner fresh from
    [Owner.__init__], whose savings do not cover the plinth of the
    building valued by [Building.__init__], asks a HomeLoan program without
    a ceiling ([max_loan] infinite, the default) for a loan, alone in the
    simulation and with a processor free.  The amount lent is what the
    code computes from the plinth valuation: the valuation less the
    savings, less the two payouts, which are still 0.0.  It is added to
    [money_to_rebuild], which started as the savings, and to [debt], which
    started as 0; the loan is received after the sampled duration, and the
    processor is released. *)
Theorem first_loan_is_the_plinth_less_the_savings
  (cfg : Config) (owner_name : string) (row : OwnerRow) (ref : bref)
  (keeps_story : bool) (self : HomeLoan) (entity : eref)
  (callbacks : option Callback) (w0 : World) :
  let x := fst (Owner_init cfg owner_name row ref keeps_story) in
  let b := snd (Owner_init cfg owner_name row ref keeps_story) in
  let pool := resources w0 (staff self) in
  let d := duration self (rng w0) in
  entities w0 entity = x ->
  buildings w0 ref = b ->
  max_loan self = Inf ->
  savings x < plinth_value b ->
  free_slot pool ->
  ~ In (next_id w0) (users pool) ->
  let w' := fst (alone (run_sync (HomeLoan_process self entity callbacks) w0)
                       [Send; Send]) in
  let x' := entities w' entity in
  loan_amount x' = plinth_value b - savings x - 0.0 - 0.0
  /\ money_to_rebuild x' = savings x + loan_amount x'
  /\ debt x' = 0 + loan_amount x'
  /\ loan_put x' = Some (now w0)
  /\ loan_get x' = Some (now w0 + d)
  /\ resources w' (staff self) = pool.
Proof.
  intros x b pool d Hx Hb Hmax Hgap Hslot Hfresh w' x'.
  subst x b pool d x'.
  unfold Owner_init, SingleFamilyResidential_init, Building_init in *.
  cbv zeta in *. cbn [fst snd] in *.
  revert Hx Hb Hgap.
  generalize (setPlinthValue cfg (row_building row))
             (setWallValue cfg (row_building row))
             (setRoofValue cfg (row_building row)).
  intros P Wv Rv Hx Hb Hgap.
  cbn in Hgap.
  open_pool Hslot Hfresh cap us Er Hfree Hrelease.
  assert (Hshort : Qle_bool P (row_Savings row) = false)
    by now apply Qle_bool_false.
  assert (Hpos : Qlt_bool 0.0 (P - row_Savings row - 0.0 - 0.0) = true).
  { rewrite Qlt_bool_0_0. apply Qlt_bool_true. lra. }
  assert (E : exists W, w' = W /\
     (loan_amount (entities W entity) = P - row_Savings row - 0.0 - 0.0
      /\ money_to_rebuild (entities W entity)
         = row_Savings row + (P - row_Savings row - 0.0 - 0.0)
      /\ debt (entities W entity) = 0 + (P - row_Savings row - 0.0 - 0.0)
      /\ loan_put (entities W entity) = Some (now w0)
      /\ loan_get (entities W entity)
         = Some (now w0 + duration self (rng w0))
      /\ resources W (staff self) = mkResource cap us [])).
  { subst w'. unfold HomeLoan_process.
    unfold tell, get_entity, get_building, env_now, set_entity, modify.
    destruct keeps_story; destruct callbacks;
      (eexists; split;
       [ run_code ltac:(rewrite ?Hx, ?Hb, ?Hmax, ?Er, ?Hfree, ?existsb_snoc,
                        ?Hrelease, ?Hshort, ?Hpos);
         reflexivity
       | run_code ltac:(rewrite ?Hx, ?Hb, ?Hmax, ?Er, ?Hfree, ?existsb_snoc,
                        ?Hrelease, ?Hshort, ?Hpos);
         repeat split ]). }
  destruct E as (W & -> & Hl & Hm & Hd & Hput & Hget & Hpool).
  cbn [plinth_value savings].
  rewrite Hl, Hm, Hd.
  repeat split; auto.
Qed.

Lemma first_loan_is_the_plinth_less_the_savings_witness :
  let x := fst (Owner_init repair_config "asha" example_owner_row 0%nat true) in
  let b := snd (Owner_init repair_config "asha" example_owner_row 0%nat true) in
  let w' := fst (alone (run_sync (HomeLoan_process open_loan 0%nat None)
                                 new_owner_world) [Send; Send]) in
  savings x < plinth_value b
  /\ free_slot (resources new_owner_world 0%nat)
  /\ loan_amount (entities w' 0%nat) = plinth_value b - 5 - 0.0 - 0.0
  /\ money_to_rebuild (entities w' 0%nat) = 5 + loan_amount (entities w' 0%nat)
  /\ loan_get (entities w' 0%nat) = Some (0 + 5).
Proof.
  intros x b w'.
  assert (H1 : savings x < plinth_value b) by reflexivity.
  assert (H2 : free_slot (resources new_owner_world 0%nat))
    by (split; reflexivity).
  assert (H3 : ~ In (next_id new_owner_world)
                    (users (resources new_owner_world 0%nat)))
    by (intros []).
  split; [exact H1|split; [exact H2|]].
  destruct (first_loan_is_the_plinth_less_the_savings
              repair_config "asha" example_owner_row 0%nat true open_loan
              0%nat None new_owner_world eq_refl eq_refl eq_refl H1 H2 H3)
    as (Hloan & Hmoney & _ & _ & Hget & _).
  split; [exact Hloan|split; [exact Hmoney|exact Hget]].
Defined.


(** ** A crew of four *)

Lemma alone_waits {A : Type} (n : nat) (w : World) ev (k : Signal -> Gen A) :
  fired ev w = false ->
  alone (w, Suspended ev k) (repeat Send n) = (w, Suspended ev k).
Proof.
  intros Hfired. destruct n as [|n]; [reflexivity|].
  cbn. now rewrite Hfired.
Qed.

Lemma alone_goes_on {A : Type} (n : nat) (w : World) ev (k : Signal -> Gen A) :
  fired ev w = true ->
  alone (w, Suspended ev k) (repeat Send (S n))
  = alone (run_sync (k Send) (fire ev w)) (repeat Send n).
Proof. intros Hfired. cbn. now rewrite Hfired. Qed.

Lemma pool_after_request s w cap us :
  resources w s = mkResource cap us [] ->
  resources (requested s w) s
  = if num_ltb (Fin (of_nat (List.length us))) cap
    then mkResource cap (us ++ [next_id w]) []
    else mkResource cap us [next_id w].
Proof.
  intros E. unfold requested. cbn. rewrite upd_same. rewrite E. cbn.
  now destruct (num_ltb (Fin (of_nat (List.length us))) cap).
Qed.

Lemma existsb_fresh id us :
  ~ In id us -> existsb (Nat.eqb id) us = false.
Proof.
  intros Hfresh. induction us as [|u us IH]; [reflexivity|]. cbn.
  destruct (Nat.eqb_spec id u) as [E|E]; [exfalso; apply Hfresh; now left|].
  apply IH. intros Hin. apply Hfresh. now right.
Qed.

Lemma crew_threshold (n : nat) c :
  c <= 3 -> (3 <= n)%nat -> num_ltb (Fin (of_nat n)) (Fin c) = false.
Proof.
  intros Hc Hn. apply num_ltb_false_of_leb. rewrite num_leb_Fin.
  apply Qle_bool_iff. eapply Qle_trans; [exact Hc|].
  unfold of_nat. change 3 with (inject_Z 3). rewrite <- Zle_Qle. lia.
Qed.

(** A request made of a pool in which nobody waits: it is granted at once
    if a slot is free, and then the process goes on; otherwise it stays in
    the queue and the process stays where it is. *)
Lemma hiring_step (s : rref) (v : World) (k : Signal -> Gen unit) cap us n :
  resources v s = mkResource cap us [] ->
  ~ In (next_id v) us ->
  let st := (requested s v, Suspended (EvRequest s (next_id v)) k) in
  (num_ltb (Fin (of_nat (List.length us))) cap = false ->
   alone st (repeat Send n) = st
   /\ resources (requested s v) s = mkResource cap us [next_id v]
   /\ fired (EvRequest s (next_id v)) (requested s v) = false)
  /\ (num_ltb (Fin (of_nat (List.length us))) cap = true ->
      alone st (repeat Send (S n))
      = alone (run_sync (k Send) (requested s v)) (repeat Send n)
      /\ resources (requested s v) s
         = mkResource cap (us ++ [next_id v]) []
      /\ fired (EvRequest s (next_id v)) (requested s v) = true).
Proof.
  intros Hpool Hfresh st. subst st.
  pose proof (pool_after_request _ _ _ _ Hpool) as Hafter.
  split; intros Hslot; rewrite Hslot in Hafter.
  - assert (Hfired : fired (EvRequest s (next_id v)) (requested s v) = false).
    { cbn [fired]. rewrite Hafter. cbn [users]. now apply existsb_fresh. }
    split; [|split; [exact Hafter|exact Hfired]]. now apply alone_waits.
  - assert (Hfired : fired (EvRequest s (next_id v)) (requested s v) = true).
    { cbn [fired]. rewrite Hafter. cbn [users]. apply existsb_snoc. }
    split; [|split; [exact Hafter|exact Hfired]].
    now rewrite alone_goes_on.
Qed.

(** What is claimed of a repair that is still hiring: [Hpool] describes
    the skilled pool and [Hfired] tells whether the awaited request has
    been granted. *)
Ltac still_hiring us Hpool Hfired :=
  exists us; eexists;
  split; [reflexivity|];
  split; [reflexivity|];
  split; [cbn; lia|];
  cbn [fst snd alone repeat];
  rewrite Hfired, Hpool;
  split; [reflexivity|];
  split; [reflexivity|];
  split; [reflexivity|];
  split; [intros; first [reflexivity|lia]|];
  split; reflexivity.

(** X20.  RepairProgram hires its crew of four one worker at a time, from
    one pool.  Against a pool of capacity 3 or less, in which nobody else
    works or waits, a repair whose checks pass never gets started: however
    often the scheduler comes back to it, the process is still waiting for
    a worker, whom it has not been granted from the third time on.  It
    keeps the workers it has got: the users of the pool are the requests
    it made before, in the order it made them, and none has been released;
    the request it waits for is among the users if it has been granted and
    alone in the queue if not.  No material has been withdrawn and no
    building touched. *)
Theorem a_crew_of_fewer_than_four_never_starts_a_repair
  (cfg : Config) (self : RepairProgram) (structure : bref) (entity : eref)
  (callbacks : option Callback) (w0 : World) (c : Q) (n : nat) :
  let g := RepairProgram_process cfg self structure entity callbacks in
  let s := skilled self in
  first_short cfg self w0 entity = None ->
  stage_cost (rp_level self) (buildings w0 structure)
  <= money_to_rebuild (entities w0 entity) ->
  resources w0 s = mkResource (Fin c) [] [] ->
  c <= 3 ->
  let st := alone (run_sync g w0) (repeat Send n) in
  let pool := resources (fst st) s in
  exists (before : list nat) (id : nat),
    outcome (snd st) = Waiting (EvRequest s id)
    /\ before ++ [id] = seq (next_id w0) (S (List.length before))
    /\ (List.length before <= 3)%nat
    /\ capacity pool = Fin c
    /\ users pool
       = (if fired (EvRequest s id) (fst st) then before ++ [id] else before)
    /\ queue pool
       = (if fired (EvRequest s id) (fst st) then [] else [id])
    /\ ((3 <= n)%nat -> fired (EvRequest s id) (fst st) = false)
    /\ containers (fst st) = containers w0
    /\ buildings (fst st) = buildings w0.
Proof.
  intros g s Hnone Hmoney Hpool Hc st pool. subst g s st pool.
  apply Qlt_bool_false in Hmoney.
  destruct (Repair_hires cfg self structure entity callbacks w0 Hnone Hmoney)
    as (k & E0 & Hk).
  rewrite E0.
  change (Repair_requested self entity w0)
    with (requested (skilled self)
            (upd_entity entity (set_rebuild_put (now w0)) w0)).
  set (v0 := upd_entity entity (set_rebuild_put (now w0)) w0).
  change (next_id w0) with (next_id v0).
  assert (P0 : resources v0 (skilled self) = mkResource (Fin c) [] [])
    by exact Hpool.
  assert (F0 : ~ In (next_id v0) []) by (intros []).
  destruct (num_ltb (Fin (of_nat (List.length (@nil nat)))) (Fin c)) eqn:T0;
    [|destruct (proj1 (hiring_step _ _ k _ _ n P0 F0) T0)
        as (-> & Hafter & Hwait);
      still_hiring (@nil nat) Hafter Hwait].
  destruct (proj2 (hiring_step _ _ k _ _ 0 P0 F0) T0) as (_ & P1 & G0).
  destruct n as [|n]; [still_hiring (@nil nat) P1 G0|].
  destruct (proj2 (hiring_step _ _ k _ _ n P0 F0) T0) as (-> & _ & _).
  destruct (Hk (requested (skilled self) v0)) as (k1 & -> & Hk1).
  set (v1 := requested (skilled self) v0) in *.
  assert (F1 : ~ In (next_id v1) ([] ++ [next_id v0]))
    by (cbn; intros [E|[]]; lia).
  destruct (num_ltb (Fin (of_nat (List.length ([] ++ [next_id v0]))))
                    (Fin c)) eqn:T1;
    [|destruct (proj1 (hiring_step _ _ k1 _ _ n P1 F1) T1)
        as (-> & Hafter & Hwait);
      still_hiring ([] ++ [next_id v0]) Hafter Hwait].
  destruct (proj2 (hiring_step _ _ k1 _ _ 0 P1 F1) T1) as (_ & P2 & G1).
  destruct n as [|n]; [still_hiring ([] ++ [next_id v0]) P2 G1|].
  destruct (proj2 (hiring_step _ _ k1 _ _ n P1 F1) T1) as (-> & _ & _).
  destruct (Hk1 (requested (skilled self) v1)) as (k2 & -> & Hk2).
  set (v2 := requested (skilled self) v1) in *.
  assert (F2 : ~ In (next_id v2) (([] ++ [next_id v0]) ++ [next_id v1]))
    by (cbn; intros [E|[E|[]]]; lia).
  destruct (num_ltb (Fin (of_nat (List.length
                                    (([] ++ [next_id v0]) ++ [next_id v1]))))
                    (Fin c)) eqn:T2;
    [|destruct (proj1 (hiring_step _ _ k2 _ _ n P2 F2) T2)
        as (-> & Hafter & Hwait);
      still_hiring (([] ++ [next_id v0]) ++ [next_id v1]) Hafter Hwait].
  destruct (proj2 (hiring_step _ _ k2 _ _ 0 P2 F2) T2) as (_ & P3 & G2).
  destruct n as [|n];
    [still_hiring (([] ++ [next_id v0]) ++ [next_id v1]) P3 G2|].
  destruct (proj2 (hiring_step _ _ k2 _ _ n P2 F2) T2) as (-> & _ & _).
  destruct (Hk2 (requested (skilled self) v2)) as (k3 & ->).
  set (v3 := requested (skilled self) v2) in *.
  assert (F3 : ~ In (next_id v3)
                    ((([] ++ [next_id v0]) ++ [next_id v1]) ++ [next_id v2]))
    by (cbn; intros [E|[E|[E|[]]]]; lia).
  assert (T3 : num_ltb
                 (Fin (of_nat (List.length
                                 ((([] ++ [next_id v0]) ++ [next_id v1])
                                  ++ [next_id v2]))))
                 (Fin c) = false)
    by (apply crew_threshold; [exact Hc|cbn; lia]).
  destruct (proj1 (hiring_step _ _ k3 _ _ n P3 F3) T3)
    as (-> & Hafter & Hwait).
  still_hiring ((([] ++ [next_id v0]) ++ [next_id v1]) ++ [next_id v2])
               Hafter Hwait.
Qed.

Lemma a_crew_of_fewer_than_four_never_starts_a_repair_witness :
  let g := RepairProgram_process repair_config repair_program
                                 0%nat 0%nat None in
  let st := alone (run_sync g short_crew_world) (repeat Send 10) in
  first_short repair_config repair_program short_crew_world 0%nat = None
  /\ 3 <= 3
  /\ exists before id,
       outcome (snd st) = Waiting (EvRequest 0%nat id)
       /\ before ++ [id] = [0; 1; 2; 3]%nat
       /\ users (resources (fst st) 0%nat) = before
       /\ queue (resources (fst st) 0%nat) = [id]
       /\ containers (fst st) = containers short_crew_world.
Proof.
  intros g st.
  assert (H1 : first_short repair_config repair_program short_crew_world
                           0%nat = None) by reflexivity.
  assert (H2 : stage_cost (rp_level repair_program)
                          (buildings short_crew_world 0%nat)
               <= money_to_rebuild (entities short_crew_world 0%nat))
    by (apply Qle_bool_iff; reflexivity).
  assert (H3 : 3 <= 3) by (apply Qle_bool_iff; reflexivity).
  split; [exact H1|split; [exact H3|]].
  destruct (a_crew_of_fewer_than_four_never_starts_a_repair
              repair_config repair_program 0%nat 0%nat None
              short_crew_world 3 10 H1 H2 eq_refl H3)
    as (before & id & Hout & Hids & Hlen & _ & Husers & Hqueue & Hwait & Hc
        & _).
  assert (Hstuck : fired (EvRequest (skilled repair_program) id)
                         (fst st) = false) by (apply Hwait; lia).
  fold g in Husers, Hqueue. fold st in Husers, Hqueue.
  rewrite Hstuck in Husers, Hqueue.
  exists before, id.
  split; [exact Hout|].
  split.
  { assert (Hl : List.length before = 3%nat).
    { pose proof (f_equal (@List.length nat) Husers) as L.
      rewrite <- L. reflexivity. }
    rewrite Hl in Hids. exact Hids. }
  split; [exact Husers|split; [exact Hqueue|exact Hc]].
Defined.

(** ** A repair alone in the simulation *)

(** A solo run follows the execution in which each resumption finds the
    world as the process left it, the event it waited for having fired. *)
Lemma alone_execute_step {A : Type} (g : Gen A) w0 rs st0 W ev sigs :
  execute g w0 rs = Some st0 ->
  result (execute g w0 rs) = Some (W, Waiting ev) ->
  fired ev W = true ->
  exists st1,
    execute g w0 (rs ++ [(Send, fire ev W)]) = Some st1
    /\ alone st0 (Send :: sigs) = alone st1 sigs.
Proof.
  intros E Hres Hfired.
  destruct (result_waiting _ _ _ Hres) as [k Ek].
  rewrite Ek in E. injection E as <-.
  exists (run_sync (k Send) (fire ev W)). split.
  - now rewrite execute_snoc, Ek.
  - cbn. now rewrite Hfired.
Qed.

Lemma alone_execute_step_if {A : Type} (b : bool) (g : Gen A) w0 rs st0 W ev
  sigs :
  execute g w0 rs = Some st0 ->
  (b = true ->
   result (execute g w0 rs) = Some (W, Waiting ev) /\ fired ev W = true) ->
  exists st1,
    execute g w0 (rs ++ (if b then [(Send, fire ev W)] else [])) = Some st1
    /\ alone st0 ((if b then [Send] else []) ++ sigs) = alone st1 sigs.
Proof.
  intros E H. destruct b.
  - destruct (H eq_refl) as [Hres Hfired].
    now apply alone_execute_step.
  - exists st0. now rewrite app_nil_r.
Qed.

(** What a withdrawal leaves alone, and what it does to its container when
    nobody waits there and the level covers the amount. *)
Lemma taken_other c n v c' :
  c' <> c -> containers (taken c n v) c' = containers v c'.
Proof.
  intros Hne. unfold taken, got. destruct (Qlt_bool 0 n); [|reflexivity].
  cbn. now apply upd_other.
Qed.

Lemma taken_rest c n v :
  resources (taken c n v) = resources v
  /\ entities (taken c n v) = entities v
  /\ buildings (taken c n v) = buildings v
  /\ now (taken c n v) = now v.
Proof. unfold taken. now destruct (Qlt_bool 0 n). Qed.

Lemma taken_at c n v :
  get_queue (containers v c) = [] ->
  num_leb (Fin n) (level (containers v c)) = true ->
  level (containers (taken c n v) c)
  = (if Qlt_bool 0 n then num_sub (level (containers v c)) n
     else level (containers v c))
  /\ get_queue (containers (taken c n v) c) = []
  /\ (Qlt_bool 0 n = true ->
      fired (EvGet c (next_id v) n) (got c n v) = true).
Proof.
  intros Hq Hl.
  destruct (proj1 (got_serves_or_queues c n v Hq) Hl) as (Hlevel & Hqueue & Hf).
  unfold taken. destruct (Qlt_bool 0 n); auto.
Qed.

Lemma resumes_after_snoc cfg self x ws earlier m :
  resumes_after cfg self x ws (earlier ++ [m])
  = resumes_after cfg self x ws earlier
    ++ (if Qlt_bool 0 (needed cfg self x m) then [(Send, ws m)] else []).
Proof.
  unfold resumes_after. rewrite flat_map_app. cbn [flat_map].
  now rewrite app_nil_r.
Qed.

(** One withdrawal of a repair that runs alone: if its requirement is
    positive and the get is served at once, the process goes on in the
    world the get has left. *)
Lemma solo_withdrawal cfg self structure entity callbacks
  w0 w1 w2 w3 w4 ws earlier m later c st sigs :
  let g := RepairProgram_process cfg self structure entity callbacks in
  let x0 := entities w0 entity in
  let n := needed cfg self x0 m in
  let hired := [(Send, w1); (Send, w2); (Send, w3); (Send, w4)] in
  let rs := hired ++ resumes_after cfg self x0 ws earlier in
  let v := last_resumed rs w0 in
  first_short cfg self w0 entity = None ->
  Qlt_bool (money_to_rebuild x0)
           (stage_cost (rp_level self) (buildings w0 structure)) = false ->
  withdrawn_materials = earlier ++ m :: later ->
  material_container self m = Some c ->
  ws m = got c n v ->
  (Qlt_bool 0 n = true -> fired (EvGet c (next_id v) n) (got c n v) = true) ->
  execute g w0 rs = Some st ->
  exists st',
    execute g w0 (hired ++ resumes_after cfg self x0 ws (earlier ++ [m]))
    = Some st'
    /\ alone st ((if Qlt_bool 0 n then [Send] else []) ++ sigs)
       = alone st' sigs.
Proof.
  intros g x0 n hired rs v Hnone Hmoney Hsplit Hc Hws Hfired E.
  destruct (alone_execute_step_if (Qlt_bool 0 n) g w0 rs st (got c n v)
              (EvGet c (next_id v) n) sigs E) as (st' & E' & A').
  { intros Hb. split; [|now apply Hfired].
    apply (Repair_withdraws _ _ _ _ _ _ _ _ _ _ _ _ _ later); auto.
    unfold Qlt_bool in Hb. apply negb_true_iff in Hb.
    destruct (Qlt_le_dec 0 (needed cfg self (entities w0 entity) m))
      as [Hlt|Hle]; [exact Hlt|].
    apply Qle_bool_iff in Hle. unfold n, x0 in Hb. rewrite Hle in Hb.
    discriminate. }
  exists st'. split; [|exact A'].
  rewrite resumes_after_snoc, app_assoc. fold x0 n rs. rewrite Hws.
  exact E'.
Qed.

(** Four free slots: each of the four requests finds one. *)
Lemma slot_free (us extra : list nat) cap :
  num_leb (Fin (of_nat (List.length us + 4))) cap = true ->
  (List.length extra < 4)%nat ->
  num_ltb (Fin (of_nat (List.length (us ++ extra)))) cap = true.
Proof.
  intros Hcap Hlen. unfold num_ltb. apply negb_true_iff.
  destruct cap as [c|]; [|reflexivity].
  rewrite num_leb_Fin in *. apply Qle_bool_iff in Hcap.
  apply Qle_bool_false. eapply Qlt_le_trans; [|exact Hcap].
  unfold of_nat. rewrite <- Zlt_Qlt. rewrite length_app. lia.
Qed.

Lemma remove_first_fresh id us rest :
  ~ In id us -> SimPy.remove_first id (us ++ id :: rest) = us ++ rest.
Proof.
  induction us as [|u us IH]; cbn; intros Hfresh.
  - now rewrite Nat.eqb_refl.
  - destruct (Nat.eqb_spec u id) as [E|E]; [exfalso; auto|].
    f_equal. apply IH. auto.
Qed.

Lemma existsb_In id us : In id us -> existsb (Nat.eqb id) us = true.
Proof.
  intros Hin. apply existsb_exists. exists id. split; [exact Hin|].
  apply Nat.eqb_refl.
Qed.

(** A request that is among the users of its pool has fired. *)
Ltac granted P :=
  cbn [fired]; rewrite P; cbn [users]; apply existsb_In;
  rewrite ?in_app_iff; cbn; tauto.

(** Two members of a list without repetition that differ in position
    differ. *)
Ltac distinct :=
  let E := fresh in
  intros E;
  match goal with
  | H : ~ In _ _ |- _ =>
      apply H; cbn; first [rewrite E|rewrite <- E]; tauto
  end.

(** What a series of withdrawals from containers that are all different
    leaves alone, and what it does to each container. *)
Lemma supplied_rest cs v :
  resources (supplied cs v) = resources v
  /\ entities (supplied cs v) = entities v
  /\ buildings (supplied cs v) = buildings v
  /\ now (supplied cs v) = now v.
Proof.
  revert v. induction cs as [|[c n] cs IH]; intros v; [now repeat split|].
  cbn [supplied].
  destruct (IH (taken c n v)) as (Hr & He & Hb & Hn).
  destruct (taken_rest c n v) as (Hr' & He' & Hb' & Hn').
  repeat split; congruence.
Qed.

Lemma supplied_other cs v c :
  ~ In c (map fst cs) -> containers (supplied cs v) c = containers v c.
Proof.
  revert v. induction cs as [|[c' n] cs IH]; intros v Hout; [reflexivity|].
  cbn [supplied]. cbn in Hout.
  rewrite IH by tauto. apply taken_other. intros E. apply Hout. now left.
Qed.

Lemma supplied_at cs v c n :
  NoDup (map fst cs) ->
  In (c, n) cs ->
  get_queue (containers v c) = [] ->
  num_leb (Fin n) (level (containers v c)) = true ->
  level (containers (supplied cs v) c)
  = (if Qlt_bool 0 n then num_sub (level (containers v c)) n
     else level (containers v c))
  /\ get_queue (containers (supplied cs v) c) = [].
Proof.
  revert v. induction cs as [|[c' n'] cs IH]; intros v Hdup Hin Hq Hl;
    [destruct Hin|].
  cbn [supplied]. cbn [map fst] in Hdup.
  apply NoDup_cons_iff in Hdup. destruct Hdup as [Hout Hdup].
  destruct Hin as [E|Hin].
  - injection E as -> ->.
    rewrite (supplied_other cs _ c Hout).
    destruct (taken_at c n v Hq Hl) as (Hlevel & Hqueue & _). now split.
  - assert (Hne : c <> c').
    { intros ->. apply Hout. apply (in_map fst) in Hin. exact Hin. }
    pose proof (taken_other c' n' v c Hne) as Hsame.
    rewrite <- Hsame in Hq, Hl |- *. now apply IH.
Qed.

Lemma NoDup_before (l1 l2 : list nat) (c : nat) :
  NoDup (l1 ++ c :: l2) -> ~ In c l1.
Proof.
  intros Hdup Hin. apply (NoDup_remove_2 l1 l2 c Hdup).
  apply in_or_app. now left.
Qed.

(** One withdrawal of the solo run.  [step] is [solo_withdrawal] applied to
    the repair and to the worlds of its resumptions; the material [m] comes
    after [earlier] and before [later], its container [c] after the [k]
    first of [cs] and before [rest]; [L] says that the level covers the
    requirement and [E] is the execution so far. *)
Ltac solo_step step hired w0 W4 cs Hdup Hquiet earlier m later c k rest L E :=
  let V := fresh "V" in
  let N := fresh "N" in
  let Fr := fresh "Fr" in
  let st' := fresh "st" in
  let E' := fresh "E" in
  let Hpos := fresh "Hpos" in
  match type of E with
  | execute ?g _ (_ ++ resumes_after ?cfg ?self ?x ?ws _) = Some ?st =>
      assert (V : last_resumed (hired ++ resumes_after cfg self x ws earlier)
                               w0
                  = supplied (firstn k cs) W4)
        by (unfold resumes_after; cbn [flat_map app];
            rewrite ?last_resumed_cons, ?last_resumed_if, ?last_resumed_nil;
            reflexivity);
      assert (N : ~ In c (map fst (firstn k cs)))
        by (apply (NoDup_before _ rest); exact Hdup);
      assert (Fr : containers (supplied (firstn k cs) W4) c
                   = containers w0 c)
        by (rewrite supplied_other by exact N; reflexivity);
      match goal with
      | |- context [alone st (?fm ++ ?sigs)] =>
          let A := fresh "A" in
          destruct (step earlier m later c st sigs eq_refl eq_refl)
            as (st' & E' & A);
          [ rewrite V; reflexivity
          | rewrite V; intros Hpos;
            apply taken_at;
            [ rewrite Fr; apply Hquiet; cbn; tauto
            | rewrite Fr; exact L
            | exact Hpos ]
          | exact E
          | match type of A with
            | ?lhs = _ => change (alone st (fm ++ sigs)) with lhs
            end;
            rewrite A;
            (let l := eval cbn [app] in (earlier ++ [m]) in
             change (earlier ++ [m]) with l in E');
            clear V N Fr E A;
            rename E' into E ]
      end
  end.

(** The nine withdrawals, in the order of the code. *)
Ltac solo_steps step w0 W1 W2 W3 W4 cs Hdup Hquiet L E self :=
  let hired := constr:([(Send, W1); (Send, W2); (Send, W3); (Send, W4)]) in
  solo_step step hired w0 W4 cs Hdup Hquiet
    (@nil Material) Stone
    [Brick; Wood; Rebar; Cement; CGI_Sheet; Sand; Aggregate; Unskilled]
    (stone self) 0%nat
    [brick self; timber self; rebar self; cement self; cgi self;
     sand self; aggregate self; unskilled self]
    (L Stone (stone self) eq_refl) E;
  solo_step step hired w0 W4 cs Hdup Hquiet
    [Stone] Brick
    [Wood; Rebar; Cement; CGI_Sheet; Sand; Aggregate; Unskilled]
    (brick self) 1%nat
    [timber self; rebar self; cement self; cgi self; sand self;
     aggregate self; unskilled self]
    (L Brick (brick self) eq_refl) E;
  solo_step step hired w0 W4 cs Hdup Hquiet
    [Stone; Brick] Wood
    [Rebar; Cement; CGI_Sheet; Sand; Aggregate; Unskilled]
    (timber self) 2%nat
    [rebar self; cement self; cgi self; sand self; aggregate self;
     unskilled self]
    (L Wood (timber self) eq_refl) E;
  solo_step step hired w0 W4 cs Hdup Hquiet
    [Stone; Brick; Wood] Rebar
    [Cement; CGI_Sheet; Sand; Aggregate; Unskilled]
    (rebar self) 3%nat
    [cement self; cgi self; sand self; aggregate self; unskilled self]
    (L Rebar (rebar self) eq_refl) E;
  solo_step step hired w0 W4 cs Hdup Hquiet
    [Stone; Brick; Wood; Rebar] Cement
    [CGI_Sheet; Sand; Aggregate; Unskilled]
    (cement self) 4%nat
    [cgi self; sand self; aggregate self; unskilled self]
    (L Cement (cement self) eq_refl) E;
  solo_step step hired w0 W4 cs Hdup Hquiet
    [Stone; Brick; Wood; Rebar; Cement] CGI_Sheet
    [Sand; Aggregate; Unskilled]
    (cgi self) 5%nat
    [sand self; aggregate self; unskilled self]
    (L CGI_Sheet (cgi self) eq_refl) E;
  solo_step step hired w0 W4 cs Hdup Hquiet
    [Stone; Brick; Wood; Rebar; Cement; CGI_Sheet] Sand
    [Aggregate; Unskilled]
    (sand self) 6%nat
    [aggregate self; unskilled self]
    (L Sand (sand self) eq_refl) E;
  solo_step step hired w0 W4 cs Hdup Hquiet
    [Stone; Brick; Wood; Rebar; Cement; CGI_Sheet; Sand] Aggregate
    [Unskilled]
    (aggregate self) 7%nat
    [unskilled self]
    (L Aggregate (aggregate self) eq_refl) E;
  solo_step step hired w0 W4 cs Hdup Hquiet
    [Stone; Brick; Wood; Rebar; Cement; CGI_Sheet; Sand; Aggregate] Unskilled
    (@nil Material)
    (unskilled self) 8%nat
    (@nil cref)
    (L Unskilled (unskilled self) eq_refl) E.

(** X21.  A repair that finds its crew and its materials.  The eight
    checks pass and the owner can pay; the skilled pool has nobody waiting
    and four slots free (the requests of its users being older than those
    the process is about to make); each of the nine materials has a
    container of its own, on which no request is pending; and unskilled
    labour, which the checks leave out, is in stock.  Then the process, alone in the
    simulation, goes through: it is granted four workers, takes from each
    container exactly the requirement that is positive and from no other,
    lets the clock advance by the skilled effort divided by 4 (which is
    not negative: SimPy refuses a negative delay), gives the four workers
    back (the pool ends as it was found), pays the stage's cost, and marks
    the stage complete with its completion time (the start plus that
    delay) and its duration.  It ends normally, or with the [NameError] on
    [env] if callbacks were passed. *)
Theorem a_repair_alone_with_crew_and_stock_goes_through
  (cfg : Config) (self : RepairProgram) (structure : bref) (entity : eref)
  (callbacks : option Callback) (w0 : World) :
  let g := RepairProgram_process cfg self structure entity callbacks in
  let s := skilled self in
  let x0 := entities w0 entity in
  let pool := resources w0 s in
  let d := needed cfg self x0 Skilled / 4 in
  let cost := stage_cost (rp_level self) (buildings w0 structure) in
  first_short cfg self w0 entity = None ->
  cost <= money_to_rebuild x0 ->
  queue pool = [] ->
  num_leb (Fin (of_nat (List.length (users pool) + 4))) (capacity pool)
  = true ->
  (forall u, In u (users pool) -> (u < next_id w0)%nat) ->
  NoDup (repair_containers self) ->
  (forall c, In c (repair_containers self) ->
             get_queue (containers w0 c) = []) ->
  num_leb (Fin (needed cfg self x0 Unskilled))
          (level (containers w0 (unskilled self))) = true ->
  0 <= d ->
  let st := alone (run_sync g w0) (repair_signals cfg self x0) in
  let w' := fst st in
  outcome (snd st) = repair_outcome callbacks
  /\ now w' = now w0 + d
  /\ resources w' s = pool
  /\ (forall r, r <> s -> resources w' r = resources w0 r)
  /\ (forall m c,
        material_container self m = Some c ->
        let n := needed cfg self x0 m in
        level (containers w' c)
        = (if Qlt_bool 0 n then num_sub (level (containers w0 c)) n
           else level (containers w0 c))
        /\ get_queue (containers w' c) = [])
  /\ (forall c, ~ In c (repair_containers self) ->
                containers w' c = containers w0 c)
  /\ money_to_rebuild (entities w' entity) = money_to_rebuild x0 - cost
  /\ stage_complete (rp_level self) (buildings w' (property x0)) = true
  /\ stage_finished (rp_level self) (buildings w' (property x0)) = now w0 + d
  /\ stage_time (rp_level self) (buildings w' (property x0))
     = now w0 + d - now w0.
Proof.
  intros g s x0 pool d cost Hnone Hmoney Hqueue Hslots Hfresh Hdup Hquiet
    Hunskilled _ st w'.
  subst w' st. subst x0.
  apply Qlt_bool_false in Hmoney.
  (* the pool *)
  destruct (resources w0 s) as [cap us q] eqn:Er.
  subst pool. cbn [queue users capacity] in Hqueue, Hslots, Hfresh. subst q.
  (* the worlds after the four requests *)
  set (u0 := upd_entity entity (set_rebuild_put (now w0)) w0).
  set (W1 := requested s u0).
  set (W2 := requested s W1).
  set (W3 := requested s W2).
  set (W4 := requested s W3).
  assert (P0 : resources u0 s = mkResource cap us []) by exact Er.
  pose proof (pool_after_request s u0 cap us P0) as P1.
  rewrite <- (app_nil_r us) in P1 at 1.
  rewrite (slot_free us [] cap Hslots) in P1 by (cbn; lia).
  fold W1 in P1.
  pose proof (pool_after_request s W1 cap _ P1) as P2.
  rewrite <- app_assoc in P2 at 1.
  rewrite (slot_free us _ cap Hslots) in P2 by (cbn; lia).
  fold W2 in P2.
  pose proof (pool_after_request s W2 cap _ P2) as P3.
  rewrite <- !app_assoc in P3 at 1.
  rewrite (slot_free us _ cap Hslots) in P3 by (cbn; lia).
  fold W3 in P3.
  pose proof (pool_after_request s W3 cap _ P3) as P4.
  rewrite <- !app_assoc in P4 at 1.
  rewrite (slot_free us _ cap Hslots) in P4 by (cbn; lia).
  fold W4 in P4.
  (* the four requests are granted *)
  destruct (Repair_requests cfg self structure entity callbacks w0 W1 W2 W3
              Hnone Hmoney) as (R0 & R1 & R2 & R3).
  fold g s in R0, R1, R2, R3.
  change (Repair_requested self entity w0) with W1 in R0.
  fold W2 in R1. fold W3 in R2. fold W4 in R3.
  assert (E0 : execute g w0 [] = Some (run_sync g w0)) by reflexivity.
  unfold repair_signals. cbn [app].
  set (f := fun m => if Qlt_bool 0 (needed cfg self (entities w0 entity) m)
                     then [Send] else []).
  destruct (alone_execute_step g w0 _ _ _ _
              (Send :: Send :: Send :: flat_map f withdrawn_materials
               ++ [Send]) E0 R0)
    as (st1 & E1 & ->); [granted P1|].
  cbn [app fire] in E1.
  destruct (alone_execute_step g w0 _ _ _ _
              (Send :: Send :: flat_map f withdrawn_materials ++ [Send])
              E1 R1)
    as (st2 & E2 & ->); [granted P2|].
  cbn [app fire] in E2.
  destruct (alone_execute_step g w0 _ _ _ _
              (Send :: flat_map f withdrawn_materials ++ [Send]) E2 R2)
    as (st3 & E3 & ->); [granted P3|].
  cbn [app fire] in E3.
  destruct (alone_execute_step g w0 _ _ _ _
              (flat_map f withdrawn_materials ++ [Send]) E3 R3)
    as (st4 & E4 & ->); [granted P4|].
  cbn [app fire] in E4.
  clear E0 E1 E2 E3 R0 R1 R2 R3 st1 st2 st3.
  (* the withdrawals: the containers, the amounts, and the worlds in which
     the process is resumed *)
  set (n := needed cfg self (entities w0 entity)).
  set (cs := [(stone self, n Stone); (brick self, n Brick);
              (timber self, n Wood); (rebar self, n Rebar);
              (cement self, n Cement); (cgi self, n CGI_Sheet);
              (sand self, n Sand); (aggregate self, n Aggregate);
              (unskilled self, n Unskilled)]).
  set (ws := fun m =>
     match m with
     | Stone => got (stone self) (n Stone) (supplied (firstn 0 cs) W4)
     | Brick => got (brick self) (n Brick) (supplied (firstn 1 cs) W4)
     | Wood => got (timber self) (n Wood) (supplied (firstn 2 cs) W4)
     | Rebar => got (rebar self) (n Rebar) (supplied (firstn 3 cs) W4)
     | Cement => got (cement self) (n Cement) (supplied (firstn 4 cs) W4)
     | CGI_Sheet => got (cgi self) (n CGI_Sheet) (supplied (firstn 5 cs) W4)
     | Sand => got (sand self) (n Sand) (supplied (firstn 6 cs) W4)
     | Aggregate =>
         got (aggregate self) (n Aggregate) (supplied (firstn 7 cs) W4)
     | Unskilled =>
         got (unskilled self) (n Unskilled) (supplied (firstn 8 cs) W4)
     | Skilled => w0
     end).
  (* the levels cover the requirements *)
  pose proof (first_short_none _ _ _ _ Hnone) as Hok.
  assert (L : forall m c, material_container self m = Some c ->
                          num_leb (Fin (n m)) (level (containers w0 c))
                          = true).
  { intros m c Hc.
    destruct m; cbn [material_container] in Hc; try discriminate;
      injection Hc as <-; try exact Hunskilled;
      match goal with
      | |- num_leb (Fin (n ?m)) _ = true =>
          assert (Hm := Hok m ltac:(cbn; tauto));
          unfold short in Hm; cbn [material_container] in Hm;
          unfold num_ltb in Hm; apply negb_false_iff in Hm; exact Hm
      end. }
  clear Hok.
  (* nine withdrawals, each served at once *)
  assert (E : execute g w0 ([(Send, W1); (Send, W2); (Send, W3); (Send, W4)]
                            ++ resumes_after cfg self (entities w0 entity)
                                 ws [])
              = Some st4) by exact E4.
  clear E4.
  unfold withdrawn_materials. cbn [flat_map]. rewrite <- !app_assoc.
  cbn [app].
  pose (step := fun e m l c st sigs Hs Hc =>
                  solo_withdrawal cfg self structure entity callbacks
                    w0 W1 W2 W3 W4 ws e m l c st sigs Hnone Hmoney Hs Hc).
  solo_steps step w0 W1 W2 W3 W4 cs Hdup Hquiet L E self.
  clear step.
  (* the timeout *)
  pose proof (Repair_waits cfg self structure entity callbacks w0 W1 W2 W3 W4
                ws Hnone Hmoney) as T.
  cbv zeta in T.
  assert (V : last_resumed
                ([(Send, W1); (Send, W2); (Send, W3); (Send, W4)]
                 ++ withdrawal_resumes cfg self (entities w0 entity) ws) w0
              = supplied cs W4)
    by (unfold withdrawal_resumes, withdrawn_materials; cbn [flat_map app];
        rewrite ?last_resumed_cons, ?last_resumed_if, ?last_resumed_nil;
        reflexivity).
  rewrite V in T. clear V.
  destruct (alone_execute_step _ _ _ _ _ _ [] E T) as (st' & E' & ->);
    [reflexivity|].
  cbn [alone fire]. clear E T.
  (* the last stretch *)
  destruct (supplied_rest cs W4) as (Sr & Se & Sb & Sn).
  set (v := supplied cs W4) in *.
  set (wl := set_now (now v + d) v) in *.
  destruct (Repair_result cfg self structure entity callbacks w0 W1 W2 W3 W4
              ws wl Hnone Hmoney)
    as (w' & Hres & Husers & Hcap & Hq & Hothers & Hcont & Hnow & Hpaid & _
        & Hflag & Hdone & Htook).
  rewrite app_assoc in Hres.
  assert (Hend : result (Some st') = Some (w', repair_outcome callbacks))
    by (rewrite <- E'; exact Hres).
  clear E' Hres.
  destruct st' as [wf sf]. cbn [result] in Hend.
  injection Hend as -> Hout. cbn [fst snd].
  change (entities wl) with (entities v) in *.
  change (buildings wl) with (buildings v) in *.
  change (resources wl) with (resources v) in *.
  change (containers wl) with (containers v) in *.
  change (now wl) with (now v + d) in *.
  rewrite Se, Sb, Sr, Sn in *.
  change (now W4) with (now w0) in *.
  change (buildings W4) with (buildings w0) in *.
  assert (X : entities W4 entity
              = set_rebuild_put (now w0) (entities w0 entity)).
  { cbn. apply upd_same. }
  rewrite X in *. cbn [property money_to_rebuild rebuild_put set_rebuild_put]
    in Hpaid, Hflag, Hdone, Htook.
  split; [exact Hout|].
  split; [exact Hnow|].
  split.
  { (* the pool ends as it was found *)
    fold s in Husers, Hcap, Hq. rewrite P4 in Husers, Hcap, Hq.
    cbn [users capacity queue fold_left app] in Husers, Hcap, Hq.
    change (next_id u0) with (next_id w0) in Husers.
    assert (Hnew : forall k, ~ In (k + next_id w0)%nat us).
    { intros k Hin. apply Hfresh in Hin. lia. }
    rewrite (remove_first_fresh (next_id w0) us _ (Hnew 0%nat)) in Husers.
    rewrite (remove_first_fresh (next_id W1) us _ (Hnew 1%nat)) in Husers.
    rewrite (remove_first_fresh (next_id W2) us _ (Hnew 2%nat)) in Husers.
    rewrite (remove_first_fresh (next_id W3) us _ (Hnew 3%nat)) in Husers.
    rewrite app_nil_r in Husers.
    destruct (resources w' s) as [cap' us' q'].
    cbn [users capacity queue] in Husers, Hcap, Hq. now subst. }
  split.
  { intros r Hr. rewrite (Hothers r Hr). cbn.
    now rewrite !(upd_other _ _ _ _ Hr). }
  split.
  { intros m c Hc. rewrite Hcont.
    apply (supplied_at cs W4 c (n m)).
    - exact Hdup.
    - destruct m; cbn [material_container] in Hc; try discriminate;
        injection Hc as <-; cbn; tauto.
    - apply (Hquiet c).
      destruct m; cbn [material_container] in Hc; try discriminate;
        injection Hc as <-; cbn; tauto.
    - exact (L m c Hc). }
  split.
  { intros c Hout'. rewrite Hcont. exact (supplied_other cs W4 c Hout'). }
  repeat split; assumption.
Qed.

Lemma a_repair_alone_with_crew_and_stock_goes_through_witness :
  let g := RepairProgram_process repair_config repair_program
                                 0%nat 0%nat None in
  let st := alone (run_sync g stocked_world)
                  (repair_signals repair_config repair_program rich_entity) in
  first_short repair_config repair_program stocked_world 0%nat = None
  /\ NoDup (repair_containers repair_program)
  /\ outcome (snd st) = Finished
  /\ now (fst st) = 0 + 8 / 4
  /\ resources (fst st) 0%nat = mkResource (Fin 4) [] []
  /\ level (containers (fst st) 1%nat) = Fin (100 - 10 * 0.2)
  /\ level (containers (fst st) 2%nat) = Fin 100
  /\ level (containers (fst st) 9%nat) = Fin (100 - 3)
  /\ money_to_rebuild (entities (fst st) 0%nat) = 500000 - 300000
  /\ new_plinth (buildings (fst st) 0%nat) = true.
Proof.
  intros g st.
  assert (H1 : first_short repair_config repair_program stocked_world 0%nat
               = None) by reflexivity.
  assert (H2 : stage_cost (rp_level repair_program)
                          (buildings stocked_world 0%nat)
               <= money_to_rebuild (entities stocked_world 0%nat))
    by (apply Qle_bool_iff; reflexivity).
  assert (H3 : forall u,
             In u (users (resources stocked_world (skilled repair_program))) ->
             (u < next_id stocked_world)%nat) by (intros u []).
  assert (H4 : NoDup (repair_containers repair_program)).
  { unfold repair_containers. cbn.
    repeat (constructor; [cbn; intros H; repeat destruct H as [H|H]; lia|]).
    constructor. }
  assert (H5 : forall c, In c (repair_containers repair_program) ->
                         get_queue (containers stocked_world c) = [])
    by reflexivity.
  assert (H6 : 0 <= needed repair_config repair_program
                      (entities stocked_world 0%nat) Skilled / 4)
    by (apply Qle_bool_iff; reflexivity).
  split; [exact H1|split; [exact H4|]].
  destruct (a_repair_alone_with_crew_and_stock_goes_through
              repair_config repair_program 0%nat 0%nat None stocked_world
              H1 H2 eq_refl eq_refl H3 H4 H5 eq_refl H6)
    as (Hout & Hnow & Hpool & _ & Hlevels & _ & Hmoney & Hflag & _).
  split; [exact Hout|split; [exact Hnow|split; [exact Hpool|]]].
  split; [exact (proj1 (Hlevels Stone 1%nat eq_refl))|].
  split; [exact (proj1 (Hlevels Brick 2%nat eq_refl))|].
  split; [exact (proj1 (Hlevels Unskilled 9%nat eq_refl))|].
  split; [exact Hmoney|exact Hflag].
Defined.
